(** * mlogs backend: the authentication and session handlers

    A shallow embedding of [src/controller/auth.controller.ts] (the second
    copy inside [blogController.ts], the one with [forgotPassword],
    [resetPassword] and [changePassword]) and of
    [src/services/userAuthDbServices.ts].

    The handlers are [async] functions that talk to Prisma, to the mailer and
    to the [quicker] utilities, and that end either in [httpResponse], in
    [return httpError(...)] or in the [catch] clause.  They are written here in
    a small monad that threads the database, the cookies set on [res] and a
    trace of the collaborator calls, and that can stop early with a reply or
    with a thrown error. *)

From stdpp Require Import base strings list gmap option.
From Stdlib Require Import ZArith Lia.

Local Open Scope Z_scope.
Local Open Scope string_scope.
Local Open Scope list_scope.
#[local] Set Warnings "-register-all".

(** ** Constants of [constant/application] and [constant/responseMessage]

    Only the member names occur in the controller; they are kept as
    enumerations. *)

Inductive EErrorStatusCode :=
| BAD_REQUEST | UNAUTHORIZED | FORBIDDEN | NOT_FOUND | CONFLICT
| INTERNAL_SERVER_ERROR | NOT_IMPLEMENTED.

Inductive EResponseStatusCode := OK | CREATED | ACCEPTED.

Inductive EResponseMessage :=
| USERNAME_TAKEN | INVALID_TOKEN_CODE | ACCOUNT_ALREADY_VERIFIED
| USER_ID_NOT_FOUND | INVALID_CREDENTIALS | LOGIN_SUCCESS | USER_FOUND
| LOGOUT_SUCCESS | ACCESS_DENIED | NO_TOKEN_FOUND | NO_SNIFFING
| TOKEN_REFRESHED | USER_NOT_FOUND | TOKEN_EXPIRED | ACCOUNT_NOT_VERIFIED
| VALIDATION_ERROR | TIMEOUT | PASSWORD_SAME
| NOT_FOUND_MESSAGE              (* EResponseMessage.NOT_FOUND *)
| PASSWORD_CHANGED.

(** The message of a reply: a member of [EResponseMessage], the result of
    [ENTITY_EXISTS(entity)], or a literal / thrown text. *)
Inductive Message :=
| Msg (m : EResponseMessage)
| ENTITY_EXISTS (entity : string)
| Text (s : string).

(** ** Rows of the database *)

Record AccountConfirmation := {
  ac_token : string;
  ac_code : string;
  ac_timestamp : option Z;
  isVerified : bool
}.

Record User := {
  userId : string;
  name : string;
  email : string;
  username : string;
  password : string;
  lastLoginAt : option Z;
  accountConfirmation : option AccountConfirmation
}.

Record RefreshToken := {
  rt_token : string;
  rt_updatedAt : Z
}.

Record PasswordRecovery := {
  recoverId : nat;
  pr_userId : string;
  pr_token : option string;
  expiry : option Z;
  lastResetAt : option Z
}.

(** The three tables.  [refreshToken] is only ever addressed through its
    unique key [userId], hence a finite map; the other two are also searched
    with [findFirst], hence lists in storage order. *)
Record Db := {
  users : list User;
  refreshTokens : gmap string RefreshToken;
  passwordRecoveries : list PasswordRecovery
}.

(** ** JSON values, for what a handler sends back *)

Inductive Json :=
| JNull
| JBool (b : bool)
| JNum (z : Z)
| JStr (s : string)
| JArr (items : list Json)
| JObj (fields : list (string * Json)).

(** Does the key occur anywhere in the value? *)
Fixpoint has_key (k : string) (j : Json) : bool :=
  match j with
  | JObj fields =>
      (fix go (fs : list (string * Json)) : bool :=
         match fs with
         | [] => false
         | (k', v) :: rest => String.eqb k k' || has_key k v || go rest
         end) fields
  | JArr items =>
      (fix go (l : list Json) : bool :=
         match l with
         | [] => false
         | v :: rest => has_key k v || go rest
         end) items
  | _ => false
  end.

Definition json_opt {A} (f : A -> Json) (o : option A) : Json :=
  match o with Some a => f a | None => JNull end.

Definition AccountConfirmation_json (c : AccountConfirmation) : Json :=
  JObj [("token", JStr (ac_token c)); ("code", JStr (ac_code c));
        ("timestamp", json_opt JNum (ac_timestamp c));
        ("isVerified", JBool (isVerified c))].

Definition RefreshToken_json (uid : string) (r : RefreshToken) : Json :=
  JObj [("userId", JStr uid); ("token", JStr (rt_token r));
        ("updatedAt", JNum (rt_updatedAt r))].

Definition PasswordRecovery_json (r : PasswordRecovery) : Json :=
  JObj [("recoverId", JNum (Z.of_nat (recoverId r)));
        ("userId", JStr (pr_userId r));
        ("token", json_opt JStr (pr_token r));
        ("expiry", json_opt JNum (expiry r));
        ("lastResetAt", json_opt JNum (lastResetAt r))].

(** A [User] row with all its scalar fields, as Prisma returns it when no
    [select] is given. *)
Definition User_scalars (u : User) : list (string * Json) :=
  [("userId", JStr (userId u)); ("name", JStr (name u));
   ("email", JStr (email u)); ("username", JStr (username u));
   ("password", JStr (password u));
   ("lastLoginAt", json_opt JNum (lastLoginAt u))].

(** ** Replies, cookies and the trace *)

Inductive MaxAge :=
| AsConfigured (raw : string)      (* AppConfig.get(..) as number *)
| AsNumber (raw : string).         (* Number(AppConfig.get(..)) *)

Record CookieOptions := {
  path : string;
  domain : string;
  sameSite : string;
  httpOnly : bool;
  secure : bool;
  maxAge : option MaxAge;
  expires : option Z
}.

Inductive CookieAction :=
| SetCookie (cname value : string) (o : CookieOptions)
| ClearCookie (cname : string) (o : CookieOptions).

Inductive Reply :=
| HttpResponse (status : EResponseStatusCode) (m : Message) (data : Json)
| HttpError (status : EErrorStatusCode) (m : Message).

Inductive Mail :=
| VerificationEmail (to_ name_ token code : string)
| AccountConfirmedEmail (to_ name_ : string)
| PasswordResetLink (to_ name_ token : string)
| PasswordChangeEmail (to_ name_ : string).

Inductive StoreOp :=
| FindUserByEmail | FindUserByUsername | CreateUser | FindUserByTokenAndCode
| ConfirmAccount | FindUserByEmailOrUsername | UpdateUserLastLogin
| UpdateRefreshToken | FindUserById | DeleteRefreshToken | GetRefreshToken
| FindUserByResetToken | SaveResetPasswordCode | UpdateUserPasswordbyId
| GetExpiryTime | GetPasswordbyUserId | ChangePasswordbyUserId
| ClearResetTokenAndExpiry | UpdateLastPasswordChange.

Inductive Event :=
| Store (op : StoreOp) (key : string)
| Email (m : Mail) (delivered : bool)
| Verify (token : string).

Record World := {
  db : Db;
  cookies : list CookieAction;
  trace : list Event
}.

(** ** The handler monad *)

Inductive Outcome (A : Type) :=
| Value (a : A)
| Threw (e : string)
| Replied (r : Reply).
Arguments Value {A} a.
Arguments Threw {A} e.
Arguments Replied {A} r.

Definition M (A : Type) : Type := World -> Outcome A * World.

Definition ret {A} (a : A) : M A := fun w => (Value a, w).

Definition bind {A B} (m : M A) (k : A -> M B) : M B :=
  fun w =>
    match m w with
    | (Value a, w') => k a w'
    | (Threw e, w') => (Threw e, w')
    | (Replied r, w') => (Replied r, w')
    end.

Notation "'let*' x ':=' m 'in' k" := (bind m (fun x => k))
  (at level 10, x name, m at level 100, k at level 200).
Notation "m ';;' k" := (bind m (fun _ => k))
  (at level 100, k at level 200, right associativity).

Definition throw {A} (e : string) : M A := fun w => (Threw e, w).
Definition reply {A} (r : Reply) : M A := fun w => (Replied r, w).

Definition get_db : M Db := fun w => (Value (db w), w).
Definition put_db (d : Db) : M unit :=
  fun w => (Value tt, {| db := d; cookies := cookies w; trace := trace w |}).
Definition emit (e : Event) : M unit :=
  fun w => (Value tt, {| db := db w; cookies := cookies w; trace := trace w ++ [e] |}).
Definition res_cookie (c : CookieAction) : M unit :=
  fun w => (Value tt, {| db := db w; cookies := cookies w ++ [c]; trace := trace w |}).

(** [return httpError(next, new Error(m), req, status)] *)
Definition httpError {A} (m : Message) (status : EErrorStatusCode) : M A :=
  reply (HttpError status m).

(** [httpResponse(req, res, status, m, data)] *)
Definition httpResponse {A} (status : EResponseStatusCode) (m : Message) (data : Json) : M A :=
  reply (HttpResponse status m data).

(** [try { body } catch (error) { httpError(next, error, req, status) }].
    A body has type [M Empty_set]: it cannot fall off its end, it replies. *)
Definition try_catch (status : EErrorStatusCode) (body : M Empty_set) (w : World) : Reply * World :=
  match body w with
  | (Value a, _) => match a with end
  | (Threw e, w') => (HttpError status (Text e), w')
  | (Replied r, w') => (r, w')
  end.

(** Modelled from the spec: the status [httpError] uses when the caller
    passes none.  [utils/httpError] is not among the sources; the spec has
    unexpected exceptions rendered as a generic 500. *)
Definition default_status : EErrorStatusCode := INTERNAL_SERVER_ERROR.

(** JavaScript truthiness of a [string | undefined]. *)
Definition truthy (s : option string) : bool :=
  match s with
  | Some v => negb (String.eqb v "")
  | None => false
  end.

(** ** Collaborators that are not among the sources

    [utils/quicker], the mailer, the configuration values and the schemas of
    the password flows are taken as parameters.  The impure ones get their
    randomness and clock from the request environment [Env]. *)

(** The claims a session token carries ([IDecryptedToken]). *)
Record TokenPayload := {
  tp_userId : string;
  tp_email : string;
  tp_username : string
}.

Record Quicker := {
  hashPassword : string -> string -> string;            (* salt, plaintext *)
  comparePassword : string -> string -> bool;           (* plaintext, digest *)
  generateToken : TokenPayload -> string -> string -> Z -> string;
  verifyToken : string -> string -> Z -> string + TokenPayload  (* inl: thrown *)
}.

Record Config := {
  ACCESS_TOKEN_SECRET : string;
  REFRESH_TOKEN_SECRET : string;
  ACCESS_TOKEN_EXPIRY : string;
  REFRESH_TOKEN_EXPIRY : string;
  DOMAIN : string;
  ENV : string
}.

(** What one request draws from outside: the clock (milliseconds), the
    random token and one-time code, the salt of the hasher, the identifier
    the database gives a new user, and whether a mail goes out ([Some e]: the
    send throws [e]). *)
Record Env := {
  now : Z;
  randomToken : string;
  otp : string;
  salt : string;
  newUserId : string;
  mailer : Mail -> option string
}.

(** Modelled from the spec: [quicker.generateExpirationTime(minutes)].
    [utils/quicker] is not among the sources; the spec has forgot-password
    compute expiry = now + 15 minutes. *)
Definition generateExpirationTime (t : Z) (minutes : Z) : Z := t + minutes * 60000.

(** [a.diff(b, "minutes")] of moment.js: the difference in milliseconds,
    divided by 60000 and truncated towards zero. *)
Definition diff_minutes (a b : Z) : Z := Z.quot (a - b) 60000.

Inductive Parsed (A : Type) :=
| Success (data : A)
| Failure (issues : list string).
Arguments Success {A} data.
Arguments Failure {A} issues.

(** Request bodies as they arrive: a field is [None] when it is missing or is
    not a string. *)
Record RegisterBody := {
  rb_name : option string;
  rb_email : option string;
  rb_username : option string;
  rb_password : option string
}.

Record RegisterUserType := {
  r_name : string;
  r_email : string;
  r_username : string;
  r_password : string
}.

Record LoginBody := {
  lb_email : option string;
  lb_password : option string
}.

Record LoginUserType := {
  l_email : string;
  l_password : string
}.

Record PasswordBody := {
  pb_email : option string;
  pb_oldPassword : option string;
  pb_newPassword : option string;
  pb_confirmNewPassword : option string
}.

Record ResetPasswordType := {
  newPassword : string;
  confirmNewPassword : string
}.

Record ChangePasswordType := {
  c_oldPassword : string;
  c_newPassword : string;
  c_confirmNewPassword : string
}.

(** [EUserTypeConstants], the two message builders, zod's e-mail test, and
    the three schemas that [types/userTypes.ts] (as given) does not define. *)
Record Validation := {
  MIN_NAME_LENGTH : nat;
  MAX_NAME_LENGTH : nat;
  MIN_USERNAME_LENGTH : nat;
  MAX_USERNAME_LENGTH : nat;
  MIN_PASSWORD_LENGTH : nat;
  MAX_PASSWORD_LENGTH : nat;
  MIN_LENGTH_MESSAGE : string -> nat -> string;
  MAX_LENGTH_MESSAGE : string -> nat -> string;
  isEmail : string -> bool;
  forgotPasswordSchema : PasswordBody -> Parsed string;
  resetPasswordSchema : PasswordBody -> Parsed ResetPasswordType;
  changePasswordSchema : PasswordBody -> Parsed ChangePasswordType
}.

(** [z.string().min(lo, ..).max(hi, ..)] on one field: the issues it raises.
    (Lengths are counted by [String.length]; on ASCII text that is the
    JavaScript length.) *)
Definition string_issues (V : Validation) (field : string) (lo hi : nat)
    (v : option string) : list string :=
  match v with
  | None => ["Required"]
  | Some s =>
      (if Nat.ltb (String.length s) lo then [MIN_LENGTH_MESSAGE V field lo] else [])
      ++ (if Nat.ltb hi (String.length s) then [MAX_LENGTH_MESSAGE V field hi] else [])
  end.

Definition email_issues (V : Validation) (v : option string) : list string :=
  match v with
  | None => ["Required"]
  | Some s => if isEmail V s then [] else ["Invalid email"]
  end.

Definition plain_issues (v : option string) : list string :=
  match v with
  | None => ["Required"]
  | Some _ => []
  end.

Definition registerUserSchema (V : Validation) (b : RegisterBody) : Parsed RegisterUserType :=
  let issues :=
    string_issues V "Name" (MIN_NAME_LENGTH V) (MAX_NAME_LENGTH V) (rb_name b)
    ++ email_issues V (rb_email b)
    ++ string_issues V "Username" (MIN_USERNAME_LENGTH V) (MAX_USERNAME_LENGTH V) (rb_username b)
    ++ string_issues V "Password" (MIN_PASSWORD_LENGTH V) (MAX_PASSWORD_LENGTH V) (rb_password b) in
  match issues, rb_name b, rb_email b, rb_username b, rb_password b with
  | [], Some n, Some e, Some u, Some p =>
      Success {| r_name := n; r_email := e; r_username := u; r_password := p |}
  | _, _, _, _, _ => Failure issues
  end.

Definition loginUserSchema (V : Validation) (b : LoginBody) : Parsed LoginUserType :=
  let issues :=
    plain_issues (lb_email b)
    ++ string_issues V "Password" (MIN_PASSWORD_LENGTH V) (MAX_PASSWORD_LENGTH V) (lb_password b) in
  match issues, lb_email b, lb_password b with
  | [], Some e, Some p => Success {| l_email := e; l_password := p |}
  | _, _, _ => Failure issues
  end.

(** [parsed.error?.issues.map((issue) => issue.message).join(", ")], then
    [errorMessage || "Invalid inputs"]. *)
Definition error_message (issues : list string) : string :=
  let joined := String.concat ", " issues in
  if String.eqb joined "" then "Invalid inputs" else joined.

(** ** [userAuthDbServices]

    Prisma's client is a library; its calls are modelled by what its
    documentation says of them: [findUnique] and [findFirst] give the row or
    [null]; [create] rejects (P2002) when a unique column would repeat;
    [update] and [delete] reject (P2025) when no row matches [where];
    [upsert] updates the matching row or creates one; without [select] a row
    comes back with all its scalar fields, and [include] adds relations to
    them. *)

Definition verified (u : User) : bool :=
  match accountConfirmation u with
  | Some c => isVerified c
  | None => false
  end.

Definition has_id (id : string) (u : User) : bool := String.eqb (userId u) id.

Definition owned_by (id : string) (r : PasswordRecovery) : bool :=
  String.eqb (pr_userId r) id.

Definition set_users (d : Db) (l : list User) : Db :=
  {| users := l; refreshTokens := refreshTokens d; passwordRecoveries := passwordRecoveries d |}.

Definition set_refreshTokens (d : Db) (m : gmap string RefreshToken) : Db :=
  {| users := users d; refreshTokens := m; passwordRecoveries := passwordRecoveries d |}.

Definition set_passwordRecoveries (d : Db) (l : list PasswordRecovery) : Db :=
  {| users := users d; refreshTokens := refreshTokens d; passwordRecoveries := l |}.

(** [prisma.user.update({ where: { userId: id }, data })] on the table: the
    rows under the key are rewritten.  [userId] is a unique key, so on a table
    that honours it this is one row. *)
Definition update_user (id : string) (f : User -> User) (l : list User) : list User :=
  map (fun u => if has_id id u then f u else u) l.

Definition update_recovery (id : string) (f : PasswordRecovery -> PasswordRecovery)
    (l : list PasswordRecovery) : list PasswordRecovery :=
  map (fun r => if owned_by id r then f r else r) l.

Definition with_password (p : string) (u : User) : User :=
  {| userId := userId u; name := name u; email := email u; username := username u;
     password := p; lastLoginAt := lastLoginAt u;
     accountConfirmation := accountConfirmation u |}.

Definition with_lastLoginAt (t : Z) (u : User) : User :=
  {| userId := userId u; name := name u; email := email u; username := username u;
     password := password u; lastLoginAt := Some t;
     accountConfirmation := accountConfirmation u |}.

Definition with_confirmation (c : AccountConfirmation) (u : User) : User :=
  {| userId := userId u; name := name u; email := email u; username := username u;
     password := password u; lastLoginAt := lastLoginAt u;
     accountConfirmation := Some c |}.

Definition confirm_now (t : Z) (u : User) : User :=
  match accountConfirmation u with
  | Some c =>
      with_confirmation
        {| ac_token := ac_token c; ac_code := ac_code c;
           ac_timestamp := Some t; isVerified := true |} u
  | None => u
  end.

Definition findUserByEmail (e : string) : M (option User) :=
  emit (Store FindUserByEmail e);;
  let* d := get_db in
  ret (find (fun u => String.eqb (email u) e) (users d)).

Definition findUserByUsername (n : string) : M (option User) :=
  emit (Store FindUserByUsername n);;
  let* d := get_db in
  ret (find (fun u => String.eqb (username u) n) (users d)).

Record IUserInterface := {
  p_name : string;
  p_username : string;
  p_email : string;
  p_password : string;
  p_accountConfirmation : AccountConfirmation
}.

(** What [createUser] selects. *)
Record CreatedUser := {
  cu_userId : string;
  cu_name : string;
  cu_email : string;
  cu_username : string;
  cu_accountConfirmation : option AccountConfirmation
}.

Definition CreatedUser_json (u : CreatedUser) : Json :=
  JObj [("userId", JStr (cu_userId u)); ("name", JStr (cu_name u));
        ("email", JStr (cu_email u)); ("username", JStr (cu_username u));
        ("accountConfirmation", json_opt AccountConfirmation_json (cu_accountConfirmation u))].

Definition createUser (env : Env) (payload : IUserInterface) : M CreatedUser :=
  emit (Store CreateUser (p_email payload));;
  let* d := get_db in
  if existsb (fun u => String.eqb (userId u) (newUserId env)
                       || String.eqb (email u) (p_email payload)
                       || String.eqb (username u) (p_username payload)) (users d)
  then throw "P2002"
  else
    let row :=
      {| userId := newUserId env; name := p_name payload; email := p_email payload;
         username := p_username payload; password := p_password payload;
         lastLoginAt := None;
         accountConfirmation := Some (p_accountConfirmation payload) |} in
    put_db (set_users d (users d ++ [row]));;
    ret {| cu_userId := userId row; cu_name := name row; cu_email := email row;
           cu_username := username row;
           cu_accountConfirmation := accountConfirmation row |}.

(** What [findUserByTokenAndCode] selects. *)
Record TokenCodeUser := {
  tc_userId : string;
  tc_username : string;
  tc_email : string;
  tc_accountConfirmation : option AccountConfirmation
}.

Definition TokenCodeUser_json (u : TokenCodeUser) : Json :=
  JObj [("userId", JStr (tc_userId u)); ("username", JStr (tc_username u));
        ("email", JStr (tc_email u));
        ("accountConfirmation", json_opt AccountConfirmation_json (tc_accountConfirmation u))].

Definition matches_token_code (token code : string) (u : User) : bool :=
  match accountConfirmation u with
  | Some c => String.eqb (ac_token c) token && String.eqb (ac_code c) code
  | None => false
  end.

Definition select_token_code (u : User) : TokenCodeUser :=
  {| tc_userId := userId u; tc_username := username u; tc_email := email u;
     tc_accountConfirmation := accountConfirmation u |}.

Definition findUserByTokenAndCode (token code : string) : M (option TokenCodeUser) :=
  emit (Store FindUserByTokenAndCode token);;
  let* d := get_db in
  ret (option_map select_token_code (find (matches_token_code token code) (users d))).

(** The row with its relation, as [include: { accountConfirmation: true }]
    returns it. *)
Definition User_json (u : User) : Json :=
  JObj (User_scalars u
        ++ [("accountConfirmation", json_opt AccountConfirmation_json (accountConfirmation u))]).

Definition confirmAccount (env : Env) (id : string) : M User :=
  emit (Store ConfirmAccount id);;
  let* d := get_db in
  match find (has_id id) (users d) with
  | Some u =>
      match accountConfirmation u with
      | Some _ =>
          put_db (set_users d (update_user id (confirm_now (now env)) (users d)));;
          ret (confirm_now (now env) u)
      | None => throw "P2025"
      end
  | None => throw "P2025"
  end.

Definition matches_key (key : string) (u : User) : bool :=
  (String.eqb (email u) key || String.eqb (username u) key) && verified u.

Definition findUserByEmailOrUsername (key : string) : M (option User) :=
  emit (Store FindUserByEmailOrUsername key);;
  let* d := get_db in
  ret (find (matches_key key) (users d)).

Definition updateUserLastLogin (env : Env) (id : string) : M User :=
  emit (Store UpdateUserLastLogin id);;
  let* d := get_db in
  match find (has_id id) (users d) with
  | Some u =>
      put_db (set_users d (update_user id (with_lastLoginAt (now env)) (users d)));;
      ret (with_lastLoginAt (now env) u)
  | None => throw "P2025"
  end.

(** The upsert writes the same row on either branch, [updatedAt] being the
    current instant. *)
Definition updateRefreshToken (env : Env) (id : string) (refreshToken : string) : M RefreshToken :=
  emit (Store UpdateRefreshToken id);;
  let* d := get_db in
  let row := {| rt_token := refreshToken; rt_updatedAt := now env |} in
  put_db (set_refreshTokens d (<[id := row]> (refreshTokens d)));;
  ret row.

(** What [findUserById] selects.  The three relations into the blog tables
    ([likedPosts], [comments], [savedPosts]) are left out: those tables are
    not part of this development. *)
Record UserById := {
  bi_userId : string;
  bi_name : string;
  bi_email : string;
  bi_username : string;
  bi_accountConfirmation : option AccountConfirmation;
  bi_passwordRecovery : option PasswordRecovery;
  bi_refreshToken : option RefreshToken
}.

Definition UserById_json (u : UserById) : Json :=
  JObj [("userId", JStr (bi_userId u)); ("name", JStr (bi_name u));
        ("email", JStr (bi_email u)); ("username", JStr (bi_username u));
        ("accountConfirmation", json_opt AccountConfirmation_json (bi_accountConfirmation u));
        ("passwordRecovery", json_opt PasswordRecovery_json (bi_passwordRecovery u));
        ("refreshToken", json_opt (RefreshToken_json (bi_userId u)) (bi_refreshToken u))].

Definition select_by_id (d : Db) (u : User) : UserById :=
  {| bi_userId := userId u; bi_name := name u; bi_email := email u;
     bi_username := username u;
     bi_accountConfirmation := accountConfirmation u;
     bi_passwordRecovery := find (owned_by (userId u)) (passwordRecoveries d);
     bi_refreshToken := refreshTokens d !! userId u |}.

Definition findUserById (id : string) : M (option UserById) :=
  emit (Store FindUserById id);;
  let* d := get_db in
  ret (option_map (select_by_id d) (find (has_id id) (users d))).

Definition deleteRefreshToken (id : string) : M RefreshToken :=
  emit (Store DeleteRefreshToken id);;
  let* d := get_db in
  match refreshTokens d !! id with
  | Some row =>
      put_db (set_refreshTokens d (delete id (refreshTokens d)));;
      ret row
  | None => throw "P2025"
  end.

Definition getRefreshToken (id : string) : M (option RefreshToken) :=
  emit (Store GetRefreshToken id);;
  let* d := get_db in
  ret (refreshTokens d !! id).

Definition has_reset_token (token : string) (r : PasswordRecovery) : bool :=
  match pr_token r with
  | Some t => String.eqb t token
  | None => false
  end.

Definition findUserByResetToken (token : string) : M (option PasswordRecovery) :=
  emit (Store FindUserByResetToken token);;
  let* d := get_db in
  ret (find (has_reset_token token) (passwordRecoveries d)).

Definition with_reset (token : option string) (date : option Z) (r : PasswordRecovery)
    : PasswordRecovery :=
  {| recoverId := recoverId r; pr_userId := pr_userId r; pr_token := token;
     expiry := date; lastResetAt := lastResetAt r |}.

Definition with_lastResetAt (t : Z) (r : PasswordRecovery) : PasswordRecovery :=
  {| recoverId := recoverId r; pr_userId := pr_userId r; pr_token := pr_token r;
     expiry := expiry r; lastResetAt := Some t |}.

(** The next value of the auto-incremented [recoverId]. *)
Definition next_recoverId (l : list PasswordRecovery) : nat :=
  S (foldr (fun r acc => Nat.max (recoverId r) acc) O l).

(** The upsert on [userId]: the row of the user gets the token and the
    date, or a new row is created with them. *)
Definition saveResetPasswordCode (id token : string) (date : Z) : M unit :=
  emit (Store SaveResetPasswordCode id);;
  let* d := get_db in
  let l := passwordRecoveries d in
  if existsb (owned_by id) l
  then put_db (set_passwordRecoveries d (update_recovery id (with_reset (Some token) (Some date)) l))
  else put_db (set_passwordRecoveries d
                 (l ++ [{| recoverId := next_recoverId l; pr_userId := id;
                           pr_token := Some token; expiry := Some date;
                           lastResetAt := None |}])).

Definition updateUserPasswordbyId (id : string) (p : string) : M unit :=
  emit (Store UpdateUserPasswordbyId id);;
  let* d := get_db in
  if existsb (has_id id) (users d)
  then put_db (set_users d (update_user id (with_password p) (users d)))
  else throw "P2025".

(** [orderBy: { recoverId: "desc" }] then the first row. *)
Definition latest (l : list PasswordRecovery) : option PasswordRecovery :=
  foldl (fun best r =>
           match best with
           | Some b => if Nat.ltb (recoverId b) (recoverId r) then Some r else Some b
           | None => Some r
           end) None l.

(** The object [{ expiry }] selected from the latest row of a user, or
    [null] when the user has no row. *)
Definition expiry_of (id : string) (l : list PasswordRecovery) : option (option Z) :=
  option_map expiry (latest (List.filter (owned_by id) l)).

Definition getExpiryTime (id : string) : M (option (option Z)) :=
  emit (Store GetExpiryTime id);;
  let* d := get_db in
  ret (expiry_of id (passwordRecoveries d)).

(** The selected object [{ password }], or [null]. *)
Definition getPasswordbyUserId (id : string) : M (option string) :=
  emit (Store GetPasswordbyUserId id);;
  let* d := get_db in
  ret (option_map password (find (has_id id) (users d))).

Definition changePasswordbyUserId (id : string) (p : string) : M unit :=
  emit (Store ChangePasswordbyUserId id);;
  let* d := get_db in
  if existsb (has_id id) (users d)
  then put_db (set_users d (update_user id (with_password p) (users d)))
  else throw "P2025".

Definition clearResetTokenAndExpiry (id : string) : M unit :=
  emit (Store ClearResetTokenAndExpiry id);;
  let* d := get_db in
  if existsb (owned_by id) (passwordRecoveries d)
  then put_db (set_passwordRecoveries d
                 (update_recovery id (with_reset None None) (passwordRecoveries d)))
  else throw "P2025".

Definition updateLastPasswordChange (env : Env) (id : string) : M unit :=
  emit (Store UpdateLastPasswordChange id);;
  let* d := get_db in
  if existsb (has_id id) (users d) && existsb (owned_by id) (passwordRecoveries d)
  then put_db (set_passwordRecoveries d
                 (update_recovery id (with_lastResetAt (now env)) (passwordRecoveries d)))
  else throw "P2025".

(** A call of one of the four mail functions of [sendEmailService]. *)
Definition send (env : Env) (m : Mail) : M unit :=
  match mailer env m with
  | None => emit (Email m true)
  | Some e => emit (Email m false);; throw e
  end.

(** ** The controller *)

(** [req.cookies] as the handlers destructure it. *)
Record RequestCookies := {
  ck_accessToken : option string;
  ck_refreshToken : option string
}.

(** [req.authenticatedUser], put there by the authentication middleware. *)
Record AuthenticatedUser := {
  au_userId : string;
  au_email : string;
  au_name : string
}.

(** The value of a cookie when it is truthy. *)
Definition present (c : option string) : option string :=
  if truthy c then c else None.

Definition Handler : Type := World -> Reply * World.

Section Controller.

Variable q : Quicker.
Variable cfg : Config.
Variable V : Validation.

Definition secure_flag : bool := negb (String.eqb (ENV cfg) "development").

Definition session_cookie (age : option MaxAge) (exp : option Z) : CookieOptions :=
  {| path := "/api/v1/user"; domain := DOMAIN cfg; sameSite := "lax";
     httpOnly := true; secure := secure_flag; maxAge := age; expires := exp |}.

(** [quicker.verifyToken(token, secret)]: the claims, or it throws. *)
Definition verify (env : Env) (token secret : string) : M TokenPayload :=
  emit (Verify token);;
  match verifyToken q token secret (now env) with
  | inr claims => ret claims
  | inl e => throw e
  end.

Definition register (env : Env) (body : RegisterBody) : Handler :=
  try_catch default_status
    match registerUserSchema V body with
    | Failure issues => httpError (Text (error_message issues)) BAD_REQUEST
    | Success data =>
        (* Checking account with given email exists *)
        let* userWithEmail := findUserByEmail (r_email data) in
        match userWithEmail with
        | Some _ => httpError (ENTITY_EXISTS "User") BAD_REQUEST
        | None =>
            (* Checking if the username is already taken *)
            let* userWithUsername := findUserByUsername (r_username data) in
            match userWithUsername with
            | Some _ => httpError (Msg USERNAME_TAKEN) BAD_REQUEST
            | None =>
                (* Hash the password *)
                let hashedPassword := hashPassword q (salt env) (r_password data) in
                (* Account confirmation data *)
                let token := randomToken env in
                let code := otp env in
                let payload :=
                  {| p_name := r_name data; p_username := r_username data;
                     p_email := r_email data; p_password := hashedPassword;
                     p_accountConfirmation :=
                       {| ac_token := token; ac_code := code;
                          ac_timestamp := None; isVerified := false |} |} in
                (* Send email to the user *)
                send env (VerificationEmail (r_email data) (r_name data) token code);;
                let* newUser := createUser env payload in
                httpResponse CREATED (Text "User registered successfully")
                  (CreatedUser_json newUser)
            end
        end
    end.

Definition confirmation (env : Env) (token code : string) : Handler :=
  try_catch default_status
    (* Fetch User by token and code *)
    (let* found := findUserByTokenAndCode token code in
     match found with
     | None => httpError (Msg INVALID_TOKEN_CODE) UNAUTHORIZED
     | Some user =>
         (* Check if account is already confirmed *)
         if match tc_accountConfirmation user with
            | Some c => isVerified c
            | None => false
            end
         then httpError (Msg ACCOUNT_ALREADY_VERIFIED) BAD_REQUEST
         else if String.eqb (tc_userId user) ""
         then httpError (Msg USER_ID_NOT_FOUND) INTERNAL_SERVER_ERROR
         else
           let* updatedUser := confirmAccount env (tc_userId user) in
           (* Send account confirmed email *)
           send env (AccountConfirmedEmail (email updatedUser) (name updatedUser));;
           httpResponse OK (Text "Account confirmed successfully")
             (JObj [("user", User_json updatedUser)])
     end).

Definition claims_of (u : User) : TokenPayload :=
  {| tp_userId := userId u; tp_email := email u; tp_username := username u |}.

Definition login (env : Env) (body : LoginBody) : Handler :=
  try_catch default_status
    match loginUserSchema V body with
    | Failure issues => httpError (Text (error_message issues)) BAD_REQUEST
    | Success data =>
        (* Check if user exists *)
        let* found := findUserByEmailOrUsername (l_email data) in
        match found with
        | None => httpError (Msg INVALID_CREDENTIALS) UNAUTHORIZED
        | Some user =>
            (* Check if password matches *)
            let isPasswordMatch := comparePassword q (l_password data) (password user) in
            if negb isPasswordMatch
            then httpError (Msg INVALID_CREDENTIALS) UNAUTHORIZED
            else
              (* Generate JWT token *)
              let accessToken :=
                generateToken q (claims_of user) (ACCESS_TOKEN_SECRET cfg)
                  (ACCESS_TOKEN_EXPIRY cfg) (now env) in
              let refreshToken :=
                generateToken q (claims_of user) (REFRESH_TOKEN_SECRET cfg)
                  (REFRESH_TOKEN_EXPIRY cfg) (now env) in
              (* Update last login and refresh token *)
              updateUserLastLogin env (userId user);;
              updateRefreshToken env (userId user) refreshToken;;
              (* Set Cookie *)
              res_cookie (SetCookie "accessToken" accessToken
                (session_cookie (Some (AsConfigured (ACCESS_TOKEN_EXPIRY cfg))) None));;
              res_cookie (SetCookie "refreshToken" refreshToken
                (session_cookie (Some (AsConfigured (REFRESH_TOKEN_EXPIRY cfg))) None));;
              (* Return response *)
              httpResponse OK (Msg LOGIN_SUCCESS)
                (JObj [("user",
                        JObj [("userId", JStr (userId user));
                              ("username", JStr (username user));
                              ("email", JStr (email user));
                              ("name", JStr (name user))])])
        end
    end.

(** [clearAuthCookies()] of [logout]. *)
Definition clearAuthCookies : M unit :=
  let cookieOptions := session_cookie None (Some 0) in
  res_cookie (ClearCookie "accessToken" cookieOptions);;
  res_cookie (ClearCookie "refreshToken" cookieOptions).

Definition logout (authenticatedUser : AuthenticatedUser) (ck : RequestCookies) : Handler :=
  try_catch INTERNAL_SERVER_ERROR
    ((* Clear refresh token from database if present *)
     (if truthy (ck_refreshToken ck)
      then deleteRefreshToken (au_userId authenticatedUser);; ret tt
      else ret tt);;
     (* Clear cookies *)
     clearAuthCookies;;
     (* Send response after successful logout *)
     httpResponse OK (Msg LOGOUT_SUCCESS) (JObj [])).

Definition refreshToken (env : Env) (ck : RequestCookies) : Handler :=
  try_catch default_status
    (if truthy (ck_accessToken ck)
     then httpError (Msg ACCESS_DENIED) FORBIDDEN
     else
       match present (ck_refreshToken ck) with
       | None => httpError (Msg NO_TOKEN_FOUND) UNAUTHORIZED
       | Some token =>
           (* Verify the refresh token *)
           let* claims := verify env token (REFRESH_TOKEN_SECRET cfg) in
           (* Check if refresh token in DB matches *)
           let* dbRefreshToken := getRefreshToken (tp_userId claims) in
           if match dbRefreshToken with
              | None => true
              | Some row => negb (String.eqb (rt_token row) token)
              end
           then httpError (Msg NO_SNIFFING) UNAUTHORIZED
           else
             (* Generate new access token *)
             let newAccessToken :=
               generateToken q claims (ACCESS_TOKEN_SECRET cfg)
                 (ACCESS_TOKEN_EXPIRY cfg) (now env) in
             (* Set access token in cookies *)
             res_cookie (SetCookie "accessToken" newAccessToken
               (session_cookie (Some (AsNumber (ACCESS_TOKEN_EXPIRY cfg))) None));;
             (* Send response *)
             httpResponse OK (Msg TOKEN_REFRESHED)
               (JObj [("accessToken", JStr ("Bearer " ++ newAccessToken)%string)])
       end).

Definition forgotPassword (env : Env) (body : PasswordBody) : Handler :=
  try_catch default_status
    match forgotPasswordSchema V body with
    | Failure issues => httpError (Text (error_message issues)) BAD_REQUEST
    | Success address =>
        (* Check if user exists, confirmed user *)
        let* found := findUserByEmailOrUsername address in
        match found with
        | None => httpError (Msg USER_NOT_FOUND) UNAUTHORIZED
        | Some user =>
            (* Generate token *)
            let token := randomToken env in
            (* Generate expiry time *)
            let expiryTime := generateExpirationTime (now env) 15 in
            (* Save token to DB *)
            saveResetPasswordCode (userId user) token expiryTime;;
            (* Send Email to user *)
            send env (PasswordResetLink (email user) (name user) token);;
            httpResponse OK (Text "Forgot password") (JObj [])
        end
    end.

Definition resetPassword (env : Env) (token : string) (body : PasswordBody) : Handler :=
  try_catch default_status
    match resetPasswordSchema V body with
    | Failure issues => httpError (Text (error_message issues)) BAD_REQUEST
    | Success data =>
        (* Fetch user by token *)
        let* tokenData := findUserByResetToken token in
        match tokenData with
        | None => httpError (Msg TOKEN_EXPIRED) UNAUTHORIZED
        | Some tokenData =>
            (* Find user by ID *)
            let* found := findUserById (pr_userId tokenData) in
            match found with
            | None => httpError (Msg USER_ID_NOT_FOUND) NOT_FOUND
            | Some user =>
                (* Check if user account is verified *)
                if negb match bi_accountConfirmation user with
                        | Some c => isVerified c
                        | None => false
                        end
                then httpError (Msg ACCOUNT_NOT_VERIFIED) FORBIDDEN
                else
                  (* Check expiry of URL - Strict 15-minute check *)
                  let* expiryTimeObj := getExpiryTime (bi_userId user) in
                  match expiryTimeObj with
                  | None | Some None => httpError (Msg VALIDATION_ERROR) FORBIDDEN
                  | Some (Some expiryMoment) =>
                      let currentMoment := now env in
                      let minutesDifference := diff_minutes currentMoment expiryMoment in
                      if Z.leb 15 minutesDifference
                      then httpError (Msg TIMEOUT) FORBIDDEN
                      else
                        (* Get current password from database *)
                        let* currentPassword := getPasswordbyUserId (bi_userId user) in
                        match currentPassword with
                        | None => httpError (Msg VALIDATION_ERROR) FORBIDDEN
                        | Some password =>
                            (* Compare passwords using the full string values *)
                            let arePasswordsSame :=
                              comparePassword q (newPassword data) password in
                            if arePasswordsSame
                            then httpError (Msg PASSWORD_SAME) CONFLICT
                            else
                              (* Hash and update new password *)
                              let hashedNewPassword :=
                                hashPassword q (salt env) (newPassword data) in
                              updateUserPasswordbyId (bi_userId user) hashedNewPassword;;
                              (* Clear reset token and expiry after successful password change *)
                              clearResetTokenAndExpiry (bi_userId user);;
                              (* Send confirmation email *)
                              send env (PasswordChangeEmail (bi_email user) (bi_name user));;
                              (* Response *)
                              httpResponse OK (Text "Password reset successfully") (JObj [])
                        end
                  end
            end
        end
    end.

Definition changePassword (env : Env) (authenticatedUser : AuthenticatedUser)
    (body : PasswordBody) : Handler :=
  try_catch default_status
    match changePasswordSchema V body with
    | Failure issues => httpError (Text (error_message issues)) BAD_REQUEST
    | Success data =>
        (* Getting User *)
        let userId := au_userId authenticatedUser in
        let* passwordObj := getPasswordbyUserId userId in
        (* Checking Password *)
        match passwordObj with
        | None => httpError (Msg NOT_FOUND_MESSAGE) NOT_IMPLEMENTED
        | Some password =>
            let isPasswordValid := comparePassword q (c_oldPassword data) password in
            if negb isPasswordValid
            then httpError (Msg INVALID_CREDENTIALS) FORBIDDEN
            else
              (* Hashing Password *)
              let hashedPassword := hashPassword q (salt env) (c_confirmNewPassword data) in
              (* Check if different from last password or not *)
              let arePasswordsSame :=
                comparePassword q (c_confirmNewPassword data) password in
              if arePasswordsSame
              then httpError (Msg PASSWORD_SAME) CONFLICT
              else
                (* Updating DB *)
                changePasswordbyUserId userId hashedPassword;;
                (* Update Last Password Change *)
                updateLastPasswordChange env userId;;
                (* Sending Mail *)
                send env (PasswordChangeEmail (au_email authenticatedUser)
                            (au_name authenticatedUser));;
                httpResponse ACCEPTED (Msg PASSWORD_CHANGED) (JObj [])
        end
    end.

End Controller.

(** A request starts with nothing set on [res] and nothing called yet. *)
Definition start (d : Db) : World := {| db := d; cookies := []; trace := [] |}.

(** The world after one more collaborator call. *)
Definition logged (e : Event) (w : World) : World :=
  {| db := db w; cookies := cookies w; trace := trace w ++ [e] |}.

(** ** A small concrete instance, for the examples below *)

Module Demo.

Definition quicker : Quicker :=
  {| hashPassword := fun s p => ("$" ++ s ++ "$" ++ p)%string;
     comparePassword := fun p digest => String.eqb digest ("$na$" ++ p)%string;
     generateToken := fun c secret ttl t =>
       (secret ++ "|" ++ tp_userId c ++ "|" ++ (if Z.leb t 1000 then "first" else "later"))%string;
     verifyToken := fun token secret t =>
       if String.prefix (secret ++ "|u1|")%string token
       then inr {| tp_userId := "u1"; tp_email := "ana@x.com"; tp_username := "ana1" |}
       else inl "invalid signature" |}.

Definition config : Config :=
  {| ACCESS_TOKEN_SECRET := "as"; REFRESH_TOKEN_SECRET := "rs";
     ACCESS_TOKEN_EXPIRY := "900000"; REFRESH_TOKEN_EXPIRY := "604800000";
     DOMAIN := "localhost"; ENV := "development" |}.

Definition validation : Validation :=
  {| MIN_NAME_LENGTH := 2; MAX_NAME_LENGTH := 50;
     MIN_USERNAME_LENGTH := 3; MAX_USERNAME_LENGTH := 20;
     MIN_PASSWORD_LENGTH := 8; MAX_PASSWORD_LENGTH := 64;
     MIN_LENGTH_MESSAGE := fun f n => (f ++ " is too short")%string;
     MAX_LENGTH_MESSAGE := fun f n => (f ++ " is too long")%string;
     isEmail := fun s => negb (String.eqb s "") && negb (String.prefix "@" s);
     forgotPasswordSchema := fun b =>
       match pb_email b with
       | Some e => Success e
       | None => Failure ["Required"]
       end;
     resetPasswordSchema := fun b =>
       match pb_newPassword b, pb_confirmNewPassword b with
       | Some n, Some c =>
           if String.eqb n c
           then Success {| newPassword := n; confirmNewPassword := c |}
           else Failure ["Passwords do not match"]
       | _, _ => Failure ["Required"]
       end;
     changePasswordSchema := fun b =>
       match pb_oldPassword b, pb_newPassword b, pb_confirmNewPassword b with
       | Some o, Some n, Some c =>
           if String.eqb n c
           then Success {| c_oldPassword := o; c_newPassword := n; c_confirmNewPassword := c |}
           else Failure ["Passwords do not match"]
       | _, _, _ => Failure ["Required"]
       end |}.

Definition env (t : Z) (mail_ok : bool) : Env :=
  {| now := t; randomToken := "tok-1"; otp := "123456"; salt := "na";
     newUserId := "u1";
     mailer := fun _ => if mail_ok then None else Some "SMTP unreachable" |}.

Definition ana (is_verified : bool) : User :=
  {| userId := "u1"; name := "Ana"; email := "ana@x.com"; username := "ana1";
     password := "$na$Secret123!"; lastLoginAt := None;
     accountConfirmation :=
       Some {| ac_token := "tok-1"; ac_code := "123456";
               ac_timestamp := None; isVerified := is_verified |} |}.

Definition empty : Db :=
  {| users := []; refreshTokens := ∅; passwordRecoveries := [] |}.

Definition with_ana (is_verified : bool) : Db :=
  {| users := [ana is_verified]; refreshTokens := ∅; passwordRecoveries := [] |}.

(** Ana, verified, with a stored refresh token. *)
Definition signed_in (token : string) : Db :=
  {| users := [ana true];
     refreshTokens := {[ "u1" := {| rt_token := token; rt_updatedAt := 0 |} ]};
     passwordRecoveries := [] |}.

(** Ana, verified, with a reset token whose stored expiry is [e]. *)
Definition recovering (e : Z) : Db :=
  {| users := [ana true]; refreshTokens := ∅;
     passwordRecoveries :=
       [{| recoverId := 1; pr_userId := "u1"; pr_token := Some "reset-1";
           expiry := Some e; lastResetAt := None |}] |}.

Definition ana_identity : AuthenticatedUser :=
  {| au_userId := "u1"; au_email := "ana@x.com"; au_name := "Ana" |}.

Definition credentials (p : string) : LoginBody :=
  {| lb_email := Some "ana@x.com"; lb_password := Some p |}.

Definition new_password (p : string) : PasswordBody :=
  {| pb_email := None; pb_oldPassword := None;
     pb_newPassword := Some p; pb_confirmNewPassword := Some p |}.

End Demo.


(** ** Vocabulary of the statements *)

Definition invalid_credentials : Reply := HttpError UNAUTHORIZED (Msg INVALID_CREDENTIALS).

Definition is_success (r : Reply) : bool :=
  match r with
  | HttpResponse _ _ _ => true
  | HttpError _ _ => false
  end.

(** The payload of a reply; an error reply carries none. *)
Definition reply_data (r : Reply) : Json :=
  match r with
  | HttpResponse _ _ data => data
  | HttpError _ _ => JNull
  end.

(** The tokens a login of [user] at [env] signs. *)
Definition issued_refresh (q : Quicker) (cfg : Config) (env : Env) (user : User) : string :=
  generateToken q (claims_of user) (REFRESH_TOKEN_SECRET cfg)
    (REFRESH_TOKEN_EXPIRY cfg) (now env).

Definition issued_access (q : Quicker) (cfg : Config) (env : Env) (user : User) : string :=
  generateToken q (claims_of user) (ACCESS_TOKEN_SECRET cfg)
    (ACCESS_TOKEN_EXPIRY cfg) (now env).

(** The refresh token the store holds for a user, if any. *)
Definition stored_refresh (d : Db) (id : string) : option string :=
  rt_token <$> refreshTokens d !! id.

(** The three ways a login attempt misses: nobody has the key as e-mail or
    username; somebody has, but no such account is verified; the verified
    account the lookup returns has another password. *)
Inductive LoginMiss (q : Quicker) (d : Db) (data : LoginUserType) : Prop :=
| no_such_account :
    (forall u, In u (users d) -> email u <> l_email data /\ username u <> l_email data) ->
    LoginMiss q d data
| account_unverified (u : User) :
    In u (users d) ->
    email u = l_email data \/ username u = l_email data ->
    (forall u', In u' (users d) ->
                email u' = l_email data \/ username u' = l_email data ->
                verified u' = false) ->
    LoginMiss q d data
| password_wrong (u : User) :
    find (matches_key (l_email data)) (users d) = Some u ->
    comparePassword q (l_password data) (password u) = false ->
    LoginMiss q d data.

(** The verification mail of a registration. *)
Definition verification_mail (env : Env) (data : RegisterUserType) : Mail :=
  VerificationEmail (r_email data) (r_name data) (randomToken env) (otp env).

(** The row [createUser] inserts for a registration. *)
Definition registered_row (q : Quicker) (env : Env) (data : RegisterUserType) : User :=
  {| userId := newUserId env; name := r_name data; email := r_email data;
     username := r_username data;
     password := hashPassword q (salt env) (r_password data);
     lastLoginAt := None;
     accountConfirmation :=
       Some {| ac_token := randomToken env; ac_code := otp env;
               ac_timestamp := None; isVerified := false |} |}.

(** The replies of the branches [resetPassword] checks before it writes:
    unknown reset token, missing user, unverified account, missing expiry
    (or password), timeout, same password. *)
Definition checked_failure (r : Reply) : bool :=
  match r with
  | HttpError UNAUTHORIZED (Msg TOKEN_EXPIRED)
  | HttpError NOT_FOUND (Msg USER_ID_NOT_FOUND)
  | HttpError FORBIDDEN (Msg ACCOUNT_NOT_VERIFIED)
  | HttpError FORBIDDEN (Msg VALIDATION_ERROR)
  | HttpError FORBIDDEN (Msg TIMEOUT)
  | HttpError CONFLICT (Msg PASSWORD_SAME) => true
  | _ => false
  end.

(** What [clearAuthCookies] leaves on [res]. *)
Definition cleared_cookies (cfg : Config) : list CookieAction :=
  [ClearCookie "accessToken" (session_cookie cfg None (Some 0));
   ClearCookie "refreshToken" (session_cookie cfg None (Some 0))].

(** Logout as the specification words it: whatever the request, afterwards
    the user has no refresh-token record, the reply is the success reply and
    both cookies are cleared. *)
Definition logout_as_specified (cfg : Config) : Prop :=
  forall (au : AuthenticatedUser) (ck : RequestCookies) (d : Db),
    refreshTokens (db (snd (logout cfg au ck (start d)))) !! au_userId au = None
    /\ fst (logout cfg au ck (start d)) = HttpResponse OK (Msg LOGOUT_SUCCESS) (JObj [])
    /\ cookies (snd (logout cfg au ck (start d))) = cleared_cookies cfg.

(** The reads of the store that return user data. *)
Inductive UserRead :=
| ByEmail | ByUsername | ByTokenAndCode | ByEmailOrUsername | ById | PasswordById.

(** The user data a read returns, as the object the caller receives; [None]
    when it returns [null]. *)
Definition read_user (op : UserRead) (key code : string) (d : Db) : option Json :=
  match op with
  | ByEmail =>
      match fst (findUserByEmail key (start d)) with
      | Value (Some u) => Some (JObj (User_scalars u))
      | _ => None
      end
  | ByUsername =>
      match fst (findUserByUsername key (start d)) with
      | Value (Some u) => Some (JObj (User_scalars u))
      | _ => None
      end
  | ByTokenAndCode =>
      match fst (findUserByTokenAndCode key code (start d)) with
      | Value (Some u) => Some (TokenCodeUser_json u)
      | _ => None
      end
  | ByEmailOrUsername =>
      match fst (findUserByEmailOrUsername key (start d)) with
      | Value (Some u) => Some (JObj (User_scalars u))
      | _ => None
      end
  | ById =>
      match fst (findUserById key (start d)) with
      | Value (Some u) => Some (UserById_json u)
      | _ => None
      end
  | PasswordById =>
      match fst (getPasswordbyUserId key (start d)) with
      | Value (Some p) => Some (JObj [("password", JStr p)])
      | _ => None
      end
  end.

(** The operations of the controller with what each takes from the request. *)
Inductive Request :=
| Register (body : RegisterBody)
| Confirmation (token code : string)
| Login (body : LoginBody)
| Logout (authenticatedUser : AuthenticatedUser) (ck : RequestCookies)
| Refresh (ck : RequestCookies)
| ForgotPassword (body : PasswordBody)
| ResetPassword (token : string) (body : PasswordBody)
| ChangePassword (authenticatedUser : AuthenticatedUser) (body : PasswordBody).

Definition handle (q : Quicker) (cfg : Config) (V : Validation) (env : Env)
    (req : Request) : Handler :=
  match req with
  | Register body => register q V env body
  | Confirmation token code => confirmation env token code
  | Login body => login q cfg V env body
  | Logout au ck => logout cfg au ck
  | Refresh ck => refreshToken q cfg env ck
  | ForgotPassword body => forgotPassword V env body
  | ResetPassword token body => resetPassword q V env token body
  | ChangePassword au body => changePassword q V env au body
  end.

Definition is_confirmation (req : Request) : bool :=
  match req with
  | Confirmation _ _ => true
  | _ => false
  end.

(** The password rule as the specification words it: one read is the hash
    fetch, no other read returns the hash, and no reply carries it. *)
Definition password_withheld_as_specified (q : Quicker) (cfg : Config) (V : Validation) : Prop :=
  (exists hash_fetch : UserRead,
     forall op key code d j,
       op <> hash_fetch ->
       read_user op key code d = Some j ->
       has_key "password" j = false)
  /\ forall env req d,
       has_key "password" (reply_data (fst (handle q cfg V env req (start d)))) = false.

(** Replay detection as the specification words it: whatever else the
    request carries, a refresh token that verifies and is not the stored one
    is answered with [NO_SNIFFING], and no cookie is set. *)
Definition replay_detected_as_specified (q : Quicker) (cfg : Config) : Prop :=
  forall env ck d token claims,
    ck_refreshToken ck = Some token ->
    verifyToken q token (REFRESH_TOKEN_SECRET cfg) (now env) = inr claims ->
    stored_refresh d (tp_userId claims) <> Some token ->
    fst (refreshToken q cfg env ck (start d)) = HttpError UNAUTHORIZED (Msg NO_SNIFFING)
    /\ cookies (snd (refreshToken q cfg env ck (start d))) = [].

(** The reply of a successful login names the user it signed in. *)
Definition logged_in_as (r : Reply) (u : User) : Prop :=
  r = HttpResponse OK (Msg LOGIN_SUCCESS)
        (JObj [("user",
                JObj [("userId", JStr (userId u)); ("username", JStr (username u));
                      ("email", JStr (email u)); ("name", JStr (name u))])]).

(** ** The writes of the store, one at a time

    Each constructor is the change one service of [userAuthDbServices] makes
    when it does not reject. *)
Inductive Write : Db -> Db -> Prop :=
| W_createUser (d : Db) (row : User) :
    existsb (fun u => String.eqb (userId u) (userId row)
                      || String.eqb (email u) (email row)
                      || String.eqb (username u) (username row)) (users d) = false ->
    Write d (set_users d (users d ++ [row]))
| W_confirmAccount (d : Db) (id : string) (t : Z) :
    Write d (set_users d (update_user id (confirm_now t) (users d)))
| W_updateUserLastLogin (d : Db) (id : string) (t : Z) :
    Write d (set_users d (update_user id (with_lastLoginAt t) (users d)))
| W_updatePassword (d : Db) (id p : string) :
    Write d (set_users d (update_user id (with_password p) (users d)))
| W_updateRefreshToken (d : Db) (id : string) (row : RefreshToken) :
    Write d (set_refreshTokens d (<[id := row]> (refreshTokens d)))
| W_deleteRefreshToken (d : Db) (id : string) :
    Write d (set_refreshTokens d (delete id (refreshTokens d)))
| W_resetUpdate (d : Db) (id : string) (token : option string) (date : option Z) :
    Write d (set_passwordRecoveries d
               (update_recovery id (with_reset token date) (passwordRecoveries d)))
| W_resetCreate (d : Db) (row : PasswordRecovery) :
    existsb (owned_by (pr_userId row)) (passwordRecoveries d) = false ->
    Write d (set_passwordRecoveries d (passwordRecoveries d ++ [row]))
| W_lastReset (d : Db) (id : string) (t : Z) :
    Write d (set_passwordRecoveries d
               (update_recovery id (with_lastResetAt t) (passwordRecoveries d))).

(** What names an account. *)
Definition identity (u : User) : string * string * string * string :=
  (userId u, name u, email u, username u).

(** The unique keys of the tables hold. *)
Definition keys_unique (d : Db) : Prop :=
  List.NoDup (map userId (users d))
  /\ List.NoDup (map email (users d))
  /\ List.NoDup (map username (users d))
  /\ List.NoDup (map pr_userId (passwordRecoveries d)).

(** An account and its stored hash. *)
Definition credential (u : User) : string * string := (userId u, password u).

(** A registration that clashes with no account: id, e-mail and username are
    all new, and nobody carries the e-mail as a username. *)
Definition fresh_registration (env : Env) (data : RegisterUserType) (d : Db) : Prop :=
  forall u, In u (users d) ->
            userId u <> newUserId env
            /\ email u <> r_email data
            /\ username u <> r_username data
            /\ username u <> r_email data.

(** The store after a registration, and after the confirmation of an account. *)
Definition registered (q : Quicker) (env : Env) (data : RegisterUserType) (d : Db) : Db :=
  set_users d (users d ++ [registered_row q env data]).

Definition confirmed (id : string) (t : Z) (d : Db) : Db :=
  set_users d (update_user id (confirm_now t) (users d)).

(** The body of a login with a key and a password. *)
Definition login_body (key pw : string) : LoginBody :=
  {| lb_email := Some key; lb_password := Some pw |}.

(** The mail [confirmation] sends to the account it has confirmed. *)
Definition confirmed_mail (u : User) : Mail := AccountConfirmedEmail (email u) (name u).

(** What a cookie action carries. *)
Definition cookie_options (c : CookieAction) : CookieOptions :=
  match c with
  | SetCookie _ _ o | ClearCookie _ o => o
  end.

Definition cookie_name (c : CookieAction) : string :=
  match c with
  | SetCookie n _ _ | ClearCookie n _ => n
  end.

(** The attributes every cookie of the controller is given. *)
Definition session_attributes (cfg : Config) (o : CookieOptions) : Prop :=
  path o = "/api/v1/user"
  /\ domain o = DOMAIN cfg
  /\ sameSite o = "lax"
  /\ httpOnly o = true
  /\ secure o = negb (String.eqb (ENV cfg) "development").

(** The cookies of a refresh request that carries only the refresh token. *)
Definition refresh_only (token : string) : RequestCookies :=
  {| ck_accessToken := None; ck_refreshToken := Some token |}.

(** The store after [saveResetPasswordCode]. *)
Definition saved_reset (id token : string) (date : Z) (d : Db) : Db :=
  set_passwordRecoveries d
    (if existsb (owned_by id) (passwordRecoveries d)
     then update_recovery id (with_reset (Some token) (Some date)) (passwordRecoveries d)
     else passwordRecoveries d
          ++ [{| recoverId := next_recoverId (passwordRecoveries d); pr_userId := id;
                 pr_token := Some token; expiry := Some date; lastResetAt := None |}]).

(** The mail of a forgot-password request for an account. *)
Definition reset_link (env : Env) (u : User) : Mail :=
  PasswordResetLink (email u) (name u) (randomToken env).

(** The store after an accepted reset: the new hash on the account, token
    and expiry of its recovery rows set to null. *)
Definition reset_done (id hash : string) (d : Db) : Db :=
  {| users := update_user id (with_password hash) (users d);
     refreshTokens := refreshTokens d;
     passwordRecoveries := update_recovery id (with_reset None None) (passwordRecoveries d) |}.

(** The mail that tells an account its password has changed. *)
Definition password_changed_mail (u : User) : Mail :=
  PasswordChangeEmail (email u) (name u).

(** Every recovery row that holds a token belongs to one user. *)
Definition token_of_one_user (token : string) (d : Db) : Prop :=
  forall r1 r2,
    In r1 (passwordRecoveries d) -> In r2 (passwordRecoveries d) ->
    has_reset_token token r1 = true -> has_reset_token token r2 = true ->
    pr_userId r1 = pr_userId r2.

(** What a recovery row says of a pending link. *)
Definition pending_link (r : PasswordRecovery) : string * option string * option Z :=
  (pr_userId r, pr_token r, expiry r).

(** The store after an accepted change of password: the new hash on the
    account, the time of the change on its recovery rows. *)
Definition password_changed (env : Env) (id hash : string) (d : Db) : Db :=
  {| users := update_user id (with_password hash) (users d);
     refreshTokens := refreshTokens d;
     passwordRecoveries :=
       update_recovery id (with_lastResetAt (now env)) (passwordRecoveries d) |}.

(** The issues of the body of a request, when its schema rejects it. *)
Definition body_issues (V : Validation) (req : Request) : option (list string) :=
  match req with
  | Register body =>
      match registerUserSchema V body with Failure issues => Some issues | Success _ => None end
  | Login body =>
      match loginUserSchema V body with Failure issues => Some issues | Success _ => None end
  | ForgotPassword body =>
      match forgotPasswordSchema V body with Failure issues => Some issues | Success _ => None end
  | ResetPassword _ body =>
      match resetPasswordSchema V body with Failure issues => Some issues | Success _ => None end
  | ChangePassword _ body =>
      match changePasswordSchema V body with Failure issues => Some issues | Success _ => None end
  | Confirmation _ _ | Logout _ _ | Refresh _ => None
  end.

(** ** [adminBlogDbServices.getUserEmails]

    [prisma.user.findMany({ where: { accountConfirmation: { isVerified: true } },
    select: { email: true } })]: the e-mail of every user whose confirmation
    record exists and is verified, in table order.  The read changes
    nothing, so it is a function of the store. *)
Definition getUserEmails (d : Db) : list string :=
  map email (List.filter verified (users d)).

(** ** The earlier copy of the controller

    The source file holds an earlier copy of the controller as well.  Its
    [login] differs from the current one in the cookie attributes and in the
    reply, which carries both tokens. *)

Module V1.

Definition session_cookie (cfg : Config) (age : option MaxAge) (exp : option Z)
    : CookieOptions :=
  {| path := "/api/v1"; domain := DOMAIN cfg; sameSite := "strict";
     httpOnly := true; secure := secure_flag cfg; maxAge := age; expires := exp |}.

Definition login (q : Quicker) (cfg : Config) (V : Validation) (env : Env)
    (body : LoginBody) : Handler :=
  try_catch default_status
    match loginUserSchema V body with
    | Failure issues => httpError (Text (error_message issues)) BAD_REQUEST
    | Success data =>
        (* Check if user exists *)
        let* found := findUserByEmailOrUsername (l_email data) in
        match found with
        | None => httpError (Msg INVALID_CREDENTIALS) UNAUTHORIZED
        | Some user =>
            (* Check if password matches *)
            let isPasswordMatch := comparePassword q (l_password data) (password user) in
            if negb isPasswordMatch
            then httpError (Msg INVALID_CREDENTIALS) UNAUTHORIZED
            else
              (* Generate JWT token *)
              let accessToken :=
                generateToken q (claims_of user) (ACCESS_TOKEN_SECRET cfg)
                  (ACCESS_TOKEN_EXPIRY cfg) (now env) in
              let refreshToken :=
                generateToken q (claims_of user) (REFRESH_TOKEN_SECRET cfg)
                  (REFRESH_TOKEN_EXPIRY cfg) (now env) in
              (* Update last login and refresh token *)
              updateUserLastLogin env (userId user);;
              updateRefreshToken env (userId user) refreshToken;;
              (* Set Cookie *)
              res_cookie (SetCookie "accessToken" accessToken
                (session_cookie cfg (Some (AsConfigured (ACCESS_TOKEN_EXPIRY cfg))) None));;
              res_cookie (SetCookie "refreshToken" refreshToken
                (session_cookie cfg (Some (AsConfigured (REFRESH_TOKEN_EXPIRY cfg))) None));;
              (* Return response *)
              httpResponse OK (Msg LOGIN_SUCCESS)
                (JObj [("accessToken", JStr ("Bearer " ++ accessToken)%string);
                       ("refreshToken", JStr ("Bearer " ++ refreshToken)%string)])
        end
    end.

End V1.


(** * Properties *)

(** ** Running the handlers *)

Lemma present_nonempty (v : string) : v <> "" -> present (Some v) = Some v.
Proof.
  intros H. unfold present, truthy.
  destruct (String.eqb_spec v ""); [contradiction | reflexivity].
Qed.

Ltac run :=
  cbv [try_catch bind ret emit get_db put_db throw reply httpError httpResponse
       res_cookie send verify].

Section Refresh.

Variable q : Quicker.
Variable cfg : Config.

(** The two guards at the head of [refreshToken] reply before anything
    else is called: the world comes back unchanged, its trace empty. *)
Lemma refreshToken_access_denied env ck d :
  truthy (ck_accessToken ck) = true ->
  refreshToken q cfg env ck (start d)
  = (HttpError FORBIDDEN (Msg ACCESS_DENIED), start d).
Proof. intros H. unfold refreshToken. rewrite H. reflexivity. Qed.

Lemma refreshToken_no_token env ck d :
  truthy (ck_accessToken ck) = false ->
  truthy (ck_refreshToken ck) = false ->
  refreshToken q cfg env ck (start d)
  = (HttpError UNAUTHORIZED (Msg NO_TOKEN_FOUND), start d).
Proof.
  intros Ha Hr. unfold refreshToken, present. rewrite Ha, Hr. reflexivity.
Qed.

(** A request that gets past the guards with a token that verifies. *)
Lemma refreshToken_checked env ck d token claims :
  truthy (ck_accessToken ck) = false ->
  ck_refreshToken ck = Some token ->
  token <> "" ->
  verifyToken q token (REFRESH_TOKEN_SECRET cfg) (now env) = inr claims ->
  refreshToken q cfg env ck (start d)
  = let w := logged (Store GetRefreshToken (tp_userId claims))
               (logged (Verify token) (start d)) in
    match refreshTokens d !! tp_userId claims with
    | Some row =>
        if String.eqb (rt_token row) token
        then
          let newAccessToken :=
            generateToken q claims (ACCESS_TOKEN_SECRET cfg)
              (ACCESS_TOKEN_EXPIRY cfg) (now env) in
          (HttpResponse OK (Msg TOKEN_REFRESHED)
             (JObj [("accessToken", JStr ("Bearer " ++ newAccessToken)%string)]),
           {| db := d;
              cookies := [SetCookie "accessToken" newAccessToken
                            (session_cookie cfg (Some (AsNumber (ACCESS_TOKEN_EXPIRY cfg))) None)];
              trace := trace w |})
        else (HttpError UNAUTHORIZED (Msg NO_SNIFFING), w)
    | None => (HttpError UNAUTHORIZED (Msg NO_SNIFFING), w)
    end.
Proof.
  intros Ha Hr Hne Hv. unfold refreshToken.
  rewrite Ha, Hr, (present_nonempty _ Hne).
  run. rewrite Hv. unfold getRefreshToken. run. simpl.
  destruct (refreshTokens d !! tp_userId claims) as [row|]; [|reflexivity].
  destruct (String.eqb (rt_token row) token); reflexivity.
Qed.

End Refresh.

(** ** C7: the guards of [refreshToken] *)

(** C7. A refresh request whose [accessToken] cookie is present (a non-empty
    value, which is what the handler tests) is answered 403 [ACCESS_DENIED],
    and a request with neither cookie 401 [NO_TOKEN_FOUND]; in both cases the
    world is the initial one: the trace is empty, so the refresh token was
    not verified and the store was not consulted. *)
Theorem refreshToken_guards_come_first (q : Quicker) (cfg : Config) (env : Env)
    (ck : RequestCookies) (d : Db) :
  (truthy (ck_accessToken ck) = true ->
   refreshToken q cfg env ck (start d)
   = (HttpError FORBIDDEN (Msg ACCESS_DENIED), start d))
  /\ (ck_accessToken ck = None -> ck_refreshToken ck = None ->
      refreshToken q cfg env ck (start d)
      = (HttpError UNAUTHORIZED (Msg NO_TOKEN_FOUND), start d)).
Proof.
  split.
  - apply refreshToken_access_denied.
  - intros Ha Hr. apply refreshToken_no_token; [rewrite Ha | rewrite Hr]; reflexivity.
Qed.

Lemma refreshToken_guards_come_first_witness :
  refreshToken Demo.quicker Demo.config (Demo.env 5 true)
    {| ck_accessToken := Some "as|u1|first"; ck_refreshToken := Some "rs|u1|first" |}
    (start (Demo.signed_in "rs|u1|first"))
  = (HttpError FORBIDDEN (Msg ACCESS_DENIED), start (Demo.signed_in "rs|u1|first"))
  /\ refreshToken Demo.quicker Demo.config (Demo.env 5 true)
       {| ck_accessToken := None; ck_refreshToken := None |}
       (start (Demo.signed_in "rs|u1|first"))
     = (HttpError UNAUTHORIZED (Msg NO_TOKEN_FOUND), start (Demo.signed_in "rs|u1|first")).
Proof.
  split.
  - apply (proj1 (refreshToken_guards_come_first _ _ _ _ _)). reflexivity.
  - apply (proj2 (refreshToken_guards_come_first _ _ _ _ _)); reflexivity.
Defined.

(** ** C1: replay detection *)

(** C1, as stated, fails: a superseded refresh token that arrives together
    with an [accessToken] cookie is stopped by the first guard and answered
    403 [ACCESS_DENIED]; the stored token is never compared. *)
Lemma replay_hidden_behind_access_cookie :
  verifyToken Demo.quicker "rs|u1|first" (REFRESH_TOKEN_SECRET Demo.config) 5
  = inr {| tp_userId := "u1"; tp_email := "ana@x.com"; tp_username := "ana1" |}
  /\ stored_refresh (Demo.signed_in "rs|u1|later") "u1" = Some "rs|u1|later"
  /\ refreshToken Demo.quicker Demo.config (Demo.env 5 true)
       {| ck_accessToken := Some "as|u1|later"; ck_refreshToken := Some "rs|u1|first" |}
       (start (Demo.signed_in "rs|u1|later"))
     = (HttpError FORBIDDEN (Msg ACCESS_DENIED), start (Demo.signed_in "rs|u1|later"))
  /\ ~ replay_detected_as_specified Demo.quicker Demo.config.
Proof.
  split; [reflexivity | split; [reflexivity | split; [reflexivity|]]].
  intros H.
  destruct (H (Demo.env 5 true)
              {| ck_accessToken := Some "as|u1|later"; ck_refreshToken := Some "rs|u1|first" |}
              (Demo.signed_in "rs|u1|later") "rs|u1|first"
              {| tp_userId := "u1"; tp_email := "ana@x.com"; tp_username := "ana1" |}
              eq_refl eq_refl) as [Hreply _].
  - vm_compute. discriminate.
  - vm_compute in Hreply. discriminate.
Qed.

(** C1, amended. A refresh request that carries no [accessToken] cookie and
    a [refreshToken] cookie that verifies under the refresh secret, and whose
    subject has no stored record, or a stored token different from the one
    presented, is answered 401 [NO_SNIFFING]; no cookie is set and the store
    is unchanged, so no new access token is issued. *)
Theorem refreshToken_replay_detected (q : Quicker) (cfg : Config) (env : Env)
    (ck : RequestCookies) (d : Db) (token : string) (claims : TokenPayload) :
  truthy (ck_accessToken ck) = false ->
  ck_refreshToken ck = Some token ->
  token <> "" ->
  verifyToken q token (REFRESH_TOKEN_SECRET cfg) (now env) = inr claims ->
  (refreshTokens d !! tp_userId claims = None
   \/ exists row, refreshTokens d !! tp_userId claims = Some row /\ rt_token row <> token) ->
  exists w,
    refreshToken q cfg env ck (start d) = (HttpError UNAUTHORIZED (Msg NO_SNIFFING), w)
    /\ cookies w = [] /\ db w = d.
Proof.
  intros Ha Hr Hne Hv Hstale.
  rewrite (refreshToken_checked q cfg env ck d token claims Ha Hr Hne Hv).
  destruct Hstale as [Hnone | (row & Hrow & Hdiff)].
  - rewrite Hnone. eexists; split; [reflexivity | split; reflexivity].
  - rewrite Hrow. destruct (String.eqb_spec (rt_token row) token); [contradiction |].
    eexists; split; [reflexivity | split; reflexivity].
Qed.

Lemma refreshToken_replay_detected_witness :
  exists w,
    refreshToken Demo.quicker Demo.config (Demo.env 5 true)
      {| ck_accessToken := None; ck_refreshToken := Some "rs|u1|first" |}
      (start (Demo.signed_in "rs|u1|later"))
    = (HttpError UNAUTHORIZED (Msg NO_SNIFFING), w)
    /\ cookies w = [] /\ db w = Demo.signed_in "rs|u1|later".
Proof.
  apply (refreshToken_replay_detected Demo.quicker Demo.config (Demo.env 5 true) _ _
           "rs|u1|first" {| tp_userId := "u1"; tp_email := "ana@x.com"; tp_username := "ana1" |}).
  - reflexivity.
  - reflexivity.
  - discriminate.
  - reflexivity.
  - right. eexists. split; [vm_compute; reflexivity | discriminate].
Defined.

(** ** Searching the tables *)

Lemma find_has_id_of_In (l : list User) (u : User) :
  In u l -> exists u', find (has_id (userId u)) l = Some u'.
Proof.
  intros Hin. destruct (find (has_id (userId u)) l) as [u'|] eqn:Hf; [eauto|].
  pose proof (find_none _ _ Hf u Hin) as Hno.
  unfold has_id in Hno. rewrite String.eqb_refl in Hno. discriminate.
Qed.

Lemma find_has_id_sound (l : list User) (id : string) (u : User) :
  find (has_id id) l = Some u -> In u l /\ userId u = id.
Proof.
  intros Hf. apply find_some in Hf as [Hin Hid]. split; [assumption|].
  now apply String.eqb_eq.
Qed.

(** No verified row answers to the key: the account does not exist, or it
    exists and was never confirmed. *)
Lemma findFirst_verified_none (key : string) (l : list User) :
  (forall u, In u l -> email u = key \/ username u = key -> verified u = false) ->
  find (matches_key key) l = None.
Proof.
  intros Hall. destruct (find (matches_key key) l) as [u|] eqn:Hf; [|reflexivity].
  apply find_some in Hf as [Hin Hm]. unfold matches_key in Hm.
  apply andb_prop in Hm as [Hk Hv].
  rewrite Hall in Hv; [discriminate | assumption |].
  apply orb_prop in Hk as [Hk|Hk]; apply String.eqb_eq in Hk; auto.
Qed.

Section Login.

Variable q : Quicker.
Variable cfg : Config.
Variable V : Validation.

Lemma login_unknown env body d data :
  loginUserSchema V body = Success data ->
  find (matches_key (l_email data)) (users d) = None ->
  login q cfg V env body (start d)
  = (invalid_credentials,
     logged (Store FindUserByEmailOrUsername (l_email data)) (start d)).
Proof.
  intros Hp Hf. unfold login. rewrite Hp.
  unfold findUserByEmailOrUsername. run. simpl. rewrite Hf. reflexivity.
Qed.

Lemma login_wrong_password env body d data user :
  loginUserSchema V body = Success data ->
  find (matches_key (l_email data)) (users d) = Some user ->
  comparePassword q (l_password data) (password user) = false ->
  login q cfg V env body (start d)
  = (invalid_credentials,
     logged (Store FindUserByEmailOrUsername (l_email data)) (start d)).
Proof.
  intros Hp Hf Hc. unfold login. rewrite Hp.
  unfold findUserByEmailOrUsername. run. simpl. rewrite Hf, Hc. reflexivity.
Qed.

Lemma login_success env body d data user :
  loginUserSchema V body = Success data ->
  find (matches_key (l_email data)) (users d) = Some user ->
  comparePassword q (l_password data) (password user) = true ->
  login q cfg V env body (start d)
  = (HttpResponse OK (Msg LOGIN_SUCCESS)
       (JObj [("user",
               JObj [("userId", JStr (userId user));
                     ("username", JStr (username user));
                     ("email", JStr (email user));
                     ("name", JStr (name user))])]),
     {| db :=
          {| users := update_user (userId user) (with_lastLoginAt (now env)) (users d);
             refreshTokens :=
               <[userId user := {| rt_token := issued_refresh q cfg env user;
                                   rt_updatedAt := now env |}]> (refreshTokens d);
             passwordRecoveries := passwordRecoveries d |};
        cookies :=
          [SetCookie "accessToken" (issued_access q cfg env user)
             (session_cookie cfg (Some (AsConfigured (ACCESS_TOKEN_EXPIRY cfg))) None);
           SetCookie "refreshToken" (issued_refresh q cfg env user)
             (session_cookie cfg (Some (AsConfigured (REFRESH_TOKEN_EXPIRY cfg))) None)];
        trace :=
          [Store FindUserByEmailOrUsername (l_email data);
           Store UpdateUserLastLogin (userId user);
           Store UpdateRefreshToken (userId user)] |}).
Proof.
  intros Hp Hf Hc. unfold login. rewrite Hp.
  unfold findUserByEmailOrUsername. run. simpl. rewrite Hf, Hc. simpl.
  unfold updateUserLastLogin, updateRefreshToken. run. simpl.
  apply find_some in Hf as [Hin _].
  destruct (find_has_id_of_In _ _ Hin) as [u' Hu']. rewrite Hu'. reflexivity.
Qed.

(** Every way [login] can end once the body has passed the schema. *)
Lemma login_cases env body d data :
  loginUserSchema V body = Success data ->
  fst (login q cfg V env body (start d)) = invalid_credentials
  \/ exists user,
       find (matches_key (l_email data)) (users d) = Some user
       /\ comparePassword q (l_password data) (password user) = true.
Proof.
  intros Hp.
  destruct (find (matches_key (l_email data)) (users d)) as [user|] eqn:Hf.
  - destruct (comparePassword q (l_password data) (password user)) eqn:Hc.
    + right. eauto.
    + left. now rewrite (login_wrong_password env body d data user).
  - left. now rewrite (login_unknown env body d data).
Qed.

End Login.

(** ** C4: one error for every failed login *)

(** C4. (1) For a login attempt that passes the schema, an account that does
    not exist, an account that is not verified and a verified account with a
    wrong password all end in the same reply, 401 [INVALID_CREDENTIALS], and
    in the same world: the store untouched, no cookie set, one lookup made.
    (2) For any body at all, two stores that each fall under one of the
    three cases get the same reply: the caller cannot tell them apart. *)
Theorem login_misses_are_indistinguishable (q : Quicker) (cfg : Config) (V : Validation)
    (env : Env) (body : LoginBody) :
  (forall d data,
     loginUserSchema V body = Success data ->
     LoginMiss q d data ->
     login q cfg V env body (start d)
     = (HttpError UNAUTHORIZED (Msg INVALID_CREDENTIALS),
        {| db := d; cookies := [];
           trace := [Store FindUserByEmailOrUsername (l_email data)] |}))
  /\ (forall d1 d2,
        (forall data, loginUserSchema V body = Success data ->
                      LoginMiss q d1 data /\ LoginMiss q d2 data) ->
        fst (login q cfg V env body (start d1)) = fst (login q cfg V env body (start d2))).
Proof.
  assert (Hmiss : forall d data,
            loginUserSchema V body = Success data ->
            LoginMiss q d data ->
            login q cfg V env body (start d)
            = (invalid_credentials,
               logged (Store FindUserByEmailOrUsername (l_email data)) (start d))).
  { intros d data Hp [Hnone | u Hin Hkey Hunv | u Hf Hc].
    - apply (login_unknown q cfg V env body d data Hp).
      apply findFirst_verified_none. intros u Hin [He|Hu];
        destruct (Hnone u Hin); contradiction.
    - apply (login_unknown q cfg V env body d data Hp).
      now apply findFirst_verified_none.
    - exact (login_wrong_password q cfg V env body d data u Hp Hf Hc). }
  split.
  - intros d data Hp Hcase. now rewrite (Hmiss d data Hp Hcase).
  - intros d1 d2 Hcases.
    destruct (loginUserSchema V body) as [data|issues] eqn:Hp.
    + destruct (Hcases data eq_refl) as [H1 H2].
      now rewrite (Hmiss d1 data eq_refl H1), (Hmiss d2 data eq_refl H2).
    + unfold login. rewrite Hp. reflexivity.
Qed.

Lemma login_misses_are_indistinguishable_witness :
  login Demo.quicker Demo.config Demo.validation (Demo.env 5 true)
    (Demo.credentials "Secret123!") (start (Demo.with_ana false))
  = (HttpError UNAUTHORIZED (Msg INVALID_CREDENTIALS),
     {| db := Demo.with_ana false; cookies := [];
        trace := [Store FindUserByEmailOrUsername "ana@x.com"] |}).
Proof.
  apply (proj1 (login_misses_are_indistinguishable Demo.quicker Demo.config Demo.validation
                  (Demo.env 5 true) (Demo.credentials "Secret123!"))
           (Demo.with_ana false)
           {| l_email := "ana@x.com"; l_password := "Secret123!" |}).
  - reflexivity.
  - apply (account_unverified _ _ _ (Demo.ana false)).
    + left. reflexivity.
    + left. reflexivity.
    + intros u' [<- | []] _. reflexivity.
Defined.

(** ** C5: one refresh token per user *)

Lemma login_success_inv (q : Quicker) (cfg : Config) (V : Validation) (env : Env)
    (body : LoginBody) (d : Db) (w : World) (r : Reply) :
  login q cfg V env body (start d) = (r, w) ->
  is_success r = true ->
  exists data user,
    loginUserSchema V body = Success data
    /\ find (matches_key (l_email data)) (users d) = Some user
    /\ comparePassword q (l_password data) (password user) = true.
Proof.
  intros Hrun Hok.
  destruct (loginUserSchema V body) as [data|issues] eqn:Hp.
  - destruct (login_cases q cfg V env body d data Hp) as [Hbad | (user & Hf & Hc)].
    + rewrite Hrun in Hbad. simpl in Hbad. subst r. discriminate.
    + exists data, user. auto.
  - unfold login in Hrun. rewrite Hp in Hrun. cbv in Hrun.
    injection Hrun as <- _. discriminate.
Qed.

Lemma refreshToken_success_inv (q : Quicker) (cfg : Config) (env : Env)
    (ck : RequestCookies) (d : Db) (token : string) (claims : TokenPayload) :
  ck_refreshToken ck = Some token ->
  verifyToken q token (REFRESH_TOKEN_SECRET cfg) (now env) = inr claims ->
  is_success (fst (refreshToken q cfg env ck (start d))) = true ->
  stored_refresh d (tp_userId claims) = Some token.
Proof.
  intros Hr Hv Hok.
  destruct (truthy (ck_accessToken ck)) eqn:Ha.
  { rewrite refreshToken_access_denied in Hok by assumption. discriminate. }
  destruct (String.eqb_spec token "") as [He|Hne].
  { rewrite refreshToken_no_token in Hok; [discriminate | assumption |].
    rewrite Hr, He. reflexivity. }
  rewrite (refreshToken_checked q cfg env ck d token claims Ha Hr Hne Hv) in Hok.
  unfold stored_refresh.
  destruct (refreshTokens d !! tp_userId claims) as [row|]; [|discriminate].
  simpl. destruct (String.eqb_spec (rt_token row) token) as [Heq|];
    [now rewrite Heq | discriminate].
Qed.

Lemma logged_in_as_same_tokens (q : Quicker) (cfg : Config) (env : Env)
    (r : Reply) (u u' : User) :
  logged_in_as r u -> logged_in_as r u' ->
  userId u = userId u' /\ issued_refresh q cfg env u = issued_refresh q cfg env u'.
Proof.
  unfold logged_in_as. intros -> H. injection H as Hid Hname Hmail _.
  split; [assumption|]. unfold issued_refresh, claims_of. congruence.
Qed.

(** C5. (1) After a successful login the record stored for the user the
    reply names holds exactly the refresh token sent in the [refreshToken]
    cookie.  (2) After a second successful login of the same user the record
    holds the token of the second login.  (3) In any store, two refresh
    tokens of one subject that are both accepted by [refreshToken] are the
    same token. *)
Theorem login_keeps_one_refresh_token (q : Quicker) (cfg : Config) (V : Validation) :
  (forall env body d r w,
     login q cfg V env body (start d) = (r, w) ->
     is_success r = true ->
     exists user o,
       In user (users d)
       /\ logged_in_as r user
       /\ In (SetCookie "refreshToken" (issued_refresh q cfg env user) o) (cookies w)
       /\ stored_refresh (db w) (userId user) = Some (issued_refresh q cfg env user))
  /\ (forall env1 body1 env2 body2 d r1 w1 r2 w2 user1 user2,
        login q cfg V env1 body1 (start d) = (r1, w1) ->
        logged_in_as r1 user1 ->
        login q cfg V env2 body2 (start (db w1)) = (r2, w2) ->
        logged_in_as r2 user2 ->
        userId user1 = userId user2 ->
        stored_refresh (db w1) (userId user1) = Some (issued_refresh q cfg env1 user1)
        /\ stored_refresh (db w2) (userId user1) = Some (issued_refresh q cfg env2 user2))
  /\ (forall env1 env2 ck1 ck2 d t1 t2 c1 c2,
        ck_refreshToken ck1 = Some t1 ->
        ck_refreshToken ck2 = Some t2 ->
        verifyToken q t1 (REFRESH_TOKEN_SECRET cfg) (now env1) = inr c1 ->
        verifyToken q t2 (REFRESH_TOKEN_SECRET cfg) (now env2) = inr c2 ->
        tp_userId c1 = tp_userId c2 ->
        is_success (fst (refreshToken q cfg env1 ck1 (start d))) = true ->
        is_success (fst (refreshToken q cfg env2 ck2 (start d))) = true ->
        t1 = t2).
Proof.
  assert (Hone : forall env body d r w,
     login q cfg V env body (start d) = (r, w) ->
     is_success r = true ->
     exists user o,
       In user (users d)
       /\ logged_in_as r user
       /\ In (SetCookie "refreshToken" (issued_refresh q cfg env user) o) (cookies w)
       /\ stored_refresh (db w) (userId user) = Some (issued_refresh q cfg env user)).
  { intros env body d r w Hrun Hok.
    destruct (login_success_inv q cfg V env body d w r Hrun Hok)
      as (data & user & Hp & Hf & Hc).
    rewrite (login_success q cfg V env body d data user Hp Hf Hc) in Hrun.
    injection Hrun as <- <-.
    exists user. eexists. split; [|split; [|split]].
    - now apply find_some in Hf.
    - reflexivity.
    - simpl. right. left. reflexivity.
    - unfold stored_refresh. simpl. now rewrite lookup_insert_eq. }
  assert (Hnamed : forall env body d r w user,
     login q cfg V env body (start d) = (r, w) ->
     logged_in_as r user ->
     stored_refresh (db w) (userId user) = Some (issued_refresh q cfg env user)).
  { intros env body d r w user Hrun Has.
    assert (Hok : is_success r = true) by (rewrite Has; reflexivity).
    destruct (Hone env body d r w Hrun Hok) as (user' & o & _ & Has' & _ & Hs).
    destruct (logged_in_as_same_tokens q cfg env r user user' Has Has') as [-> ->].
    exact Hs. }
  split; [exact Hone | split].
  - intros env1 body1 env2 body2 d r1 w1 r2 w2 user1 user2 H1 Has1 H2 Has2 Hsame.
    split.
    + exact (Hnamed _ _ _ _ _ _ H1 Has1).
    + rewrite Hsame. exact (Hnamed _ _ _ _ _ _ H2 Has2).
  - intros env1 env2 ck1 ck2 d t1 t2 c1 c2 Hr1 Hr2 Hv1 Hv2 Hsame Hok1 Hok2.
    pose proof (refreshToken_success_inv q cfg env1 ck1 d t1 c1 Hr1 Hv1 Hok1) as Hs1.
    pose proof (refreshToken_success_inv q cfg env2 ck2 d t2 c2 Hr2 Hv2 Hok2) as Hs2.
    rewrite Hsame in Hs1. congruence.
Qed.

Lemma login_keeps_one_refresh_token_witness :
  stored_refresh (Demo.signed_in "rs|u1|first") "u1" = Some "rs|u1|first"
  /\ stored_refresh
       (db (snd (login Demo.quicker Demo.config Demo.validation (Demo.env 2000 true)
                   (Demo.credentials "Secret123!")
                   (start (Demo.signed_in "rs|u1|first")))))
       "u1"
     = Some "rs|u1|later".
Proof.
  split; [reflexivity|].
  destruct (proj1 (login_keeps_one_refresh_token Demo.quicker Demo.config Demo.validation)
              (Demo.env 2000 true) (Demo.credentials "Secret123!")
              (Demo.signed_in "rs|u1|first") _ _ (surjective_pairing _) eq_refl)
    as (user & o & Hin & _ & _ & Hs).
  destruct Hin as [<- | []]. exact Hs.
Defined.

(** ** C8: confirmation *)

Lemma find_map_preserved {A} (p : A -> bool) (g : A -> A) (l : list A) :
  (forall x, p (g x) = p x) ->
  find p (map g l) = option_map g (find p l).
Proof.
  intros Hp. induction l as [|x l IH]; simpl; [reflexivity|].
  rewrite Hp. destruct (p x); [reflexivity | exact IH].
Qed.

Lemma matches_token_code_confirm_now (token code : string) (t : Z) (u : User) :
  matches_token_code token code (confirm_now t u) = matches_token_code token code u.
Proof.
  unfold matches_token_code, confirm_now.
  destruct (accountConfirmation u) eqn:E; simpl; rewrite ?E; reflexivity.
Qed.

Lemma verified_confirm_now (token code : string) (t : Z) (u : User) :
  matches_token_code token code u = true -> verified (confirm_now t u) = true.
Proof.
  unfold matches_token_code, confirm_now, verified.
  destruct (accountConfirmation u) eqn:E; [intros _; reflexivity | discriminate].
Qed.

(** Confirming an account leaves the answer of the (token, code) search on
    the same row, which is now verified. *)
Lemma find_token_code_after_confirm (token code id : string) (t : Z) (l : list User) (u : User) :
  find (matches_token_code token code) l = Some u ->
  userId u = id ->
  exists u', find (matches_token_code token code) (update_user id (confirm_now t) l) = Some u'
             /\ verified u' = true.
Proof.
  intros Hf Hid. unfold update_user. rewrite find_map_preserved.
  - rewrite Hf. simpl. unfold has_id. rewrite Hid, String.eqb_refl.
    eexists. split; [reflexivity|].
    apply find_some in Hf as [_ Hm]. now apply (verified_confirm_now token code).
  - intros x. destruct (has_id id x); [apply matches_token_code_confirm_now | reflexivity].
Qed.

Section Confirmation.

Variable env : Env.
Variables token code : string.

Lemma confirmation_no_match d :
  find (matches_token_code token code) (users d) = None ->
  confirmation env token code (start d)
  = (HttpError UNAUTHORIZED (Msg INVALID_TOKEN_CODE),
     logged (Store FindUserByTokenAndCode token) (start d)).
Proof.
  intros Hf. unfold confirmation, findUserByTokenAndCode. run. simpl.
  rewrite Hf. reflexivity.
Qed.

Lemma confirmation_already_verified d u :
  find (matches_token_code token code) (users d) = Some u ->
  verified u = true ->
  confirmation env token code (start d)
  = (HttpError BAD_REQUEST (Msg ACCOUNT_ALREADY_VERIFIED),
     logged (Store FindUserByTokenAndCode token) (start d)).
Proof.
  intros Hf Hv. unfold confirmation, findUserByTokenAndCode. run. simpl.
  rewrite Hf. simpl. unfold verified in Hv.
  destruct (accountConfirmation u) as [c|]; [|discriminate].
  rewrite Hv. reflexivity.
Qed.

(** A confirmation that succeeds has found an unverified row and has
    rewritten the rows of its user. *)
Lemma confirmation_success_inv d r w :
  confirmation env token code (start d) = (r, w) ->
  is_success r = true ->
  exists u,
    find (matches_token_code token code) (users d) = Some u
    /\ verified u = false
    /\ db w = set_users d (update_user (userId u) (confirm_now (now env)) (users d)).
Proof.
  intros Hrun Hok.
  destruct (find (matches_token_code token code) (users d)) as [u|] eqn:Hf.
  2:{ rewrite (confirmation_no_match d Hf) in Hrun. injection Hrun as <- _. discriminate. }
  destruct (verified u) eqn:Hv.
  { rewrite (confirmation_already_verified d u Hf Hv) in Hrun.
    injection Hrun as <- _. discriminate. }
  exists u. split; [reflexivity | split; [exact Hv|]].
  revert Hrun. unfold confirmation, findUserByTokenAndCode. run. simpl.
  rewrite Hf. simpl. unfold verified in Hv.
  pose proof Hf as Hm. apply find_some in Hm as [Hin Hm].
  unfold matches_token_code in Hm.
  destruct (accountConfirmation u) as [c|] eqn:Hc; [|discriminate].
  rewrite Hv.
  destruct (String.eqb (userId u) "").
  { intros H. injection H as <- _. discriminate. }
  unfold confirmAccount. run. simpl.
  destruct (find_has_id_of_In _ _ Hin) as [u' Hu']. rewrite Hu'.
  apply find_has_id_sound in Hu' as [Hin' Hid'].
  destruct (accountConfirmation u') as [c'|].
  2:{ intros H. injection H as <- _. discriminate. }
  destruct (mailer env _).
  - intros H. injection H as <- _. discriminate.
  - intros H. injection H as _ <-. reflexivity.
Qed.

End Confirmation.



(** ** C3: register sends the mail, then persists *)

Section Register.

Variable q : Quicker.
Variable V : Validation.
Variable env : Env.

(** Every run of [register]: either the store is as before and the reply is
    an error, the trace holding [CreateUser] only behind a delivered mail;
    or the mail went out, the row was appended, and the trace ends with the
    delivery followed by [CreateUser]. *)
Lemma register_runs body d r w :
  register q V env body (start d) = (r, w) ->
  (db w = d /\ is_success r = false
   /\ ((forall k, ~ In (Store CreateUser k) (trace w))
       \/ exists data pre,
            registerUserSchema V body = Success data
            /\ mailer env (verification_mail env data) = None
            /\ trace w = pre ++ [Email (verification_mail env data) true;
                                 Store CreateUser (r_email data)]
            /\ forall k, ~ In (Store CreateUser k) pre))
  \/ exists data pre,
       registerUserSchema V body = Success data
       /\ mailer env (verification_mail env data) = None
       /\ db w = set_users d (users d ++ [registered_row q env data])
       /\ is_success r = true
       /\ trace w = pre ++ [Email (verification_mail env data) true;
                            Store CreateUser (r_email data)]
       /\ forall k, ~ In (Store CreateUser k) pre.
Proof.
  unfold register.
  destruct (registerUserSchema V body) as [data|issues] eqn:Hp.
  2:{ cbv. intros H. injection H as <- <-. left. repeat split; auto. }
  unfold findUserByEmail, findUserByUsername. run. simpl.
  destruct (find (fun u => String.eqb (email u) (r_email data)) (users d)) as [u1|]; simpl.
  { simpl. intros H. injection H as <- <-. left. simpl. repeat split; auto.
    left. intros k [H|[]]. discriminate. }
  destruct (find (fun u => String.eqb (username u) (r_username data)) (users d)) as [u2|]; simpl.
  { simpl. intros H. injection H as <- <-. left. simpl. repeat split; auto.
    left. intros k [H|[H|[]]]; discriminate. }
  fold (verification_mail env data).
  destruct (mailer env (verification_mail env data)) as [e|] eqn:Hmail; simpl.
  { simpl. intros H. injection H as <- <-. left. simpl. repeat split; auto. left.
    intros k [H|[H|[H|[]]]]; discriminate. }
  unfold createUser. run. simpl.
  assert (Hpre : forall k, ~ In (Store CreateUser k)
                             [Store FindUserByEmail (r_email data);
                              Store FindUserByUsername (r_username data)]).
  { intros k [H|[H|[]]]; discriminate. }
  match goal with |- context [existsb ?p (users d)] => destruct (existsb p (users d)) end.
  - simpl. intros H. injection H as <- <-. left. simpl. repeat split; auto. right.
    exists data, [Store FindUserByEmail (r_email data);
                  Store FindUserByUsername (r_username data)].
    auto.
  - simpl. intros H. injection H as <- <-. right.
    exists data, [Store FindUserByEmail (r_email data);
                  Store FindUserByUsername (r_username data)].
    simpl. auto 10.
Qed.

End Register.

Lemma split_at_last {A} (x y z : A) (pre pre' post post' : list A) :
  pre ++ x :: y :: post = pre' ++ z :: post' ->
  ~ In z pre -> z <> x -> In x pre'.
Proof.
  revert pre'. induction pre as [|a pre IH]; intros pre' Heq Hnot Hne.
  - destruct pre' as [|b pre']; simpl in Heq.
    + injection Heq as Hz _. congruence.
    + injection Heq as <- _. now left.
  - destruct pre' as [|b pre']; simpl in Heq.
    + injection Heq as Hz _. exfalso. apply Hnot. left. congruence.
    + injection Heq as _ Heq. right. apply (IH pre' Heq); [|assumption].
      intros Hin. apply Hnot. now right.
Qed.

Lemma split_at_only {A} (x y z : A) (pre pre' post post' : list A) :
  pre ++ x :: y :: post = pre' ++ z :: post' ->
  ~ In z pre -> z <> x -> ~ In z post -> z = y.
Proof.
  revert pre'. induction pre as [|a pre IH]; intros pre' Heq Hnot Hne Hpost.
  - destruct pre' as [|b [|c pre']]; simpl in Heq.
    + injection Heq as Hz _. congruence.
    + injection Heq as _ Hz _. congruence.
    + injection Heq as _ _ Hp. exfalso. apply Hpost. rewrite Hp.
      apply in_or_app. right. now left.
  - destruct pre' as [|b pre']; simpl in Heq.
    + injection Heq as Hz _. exfalso. apply Hnot. left. congruence.
    + injection Heq as _ Heq. apply (IH pre' Heq); [|assumption..].
      intros Hin. apply Hnot. now right.
Qed.

(** C3. (1) When the send of the verification mail fails, [register] leaves
    the store as it was, replies with an error and never calls
    [createUser].  (2) A run that changes the store is one whose mail was
    delivered, and it appends exactly the new row.  (3) In the trace of any
    run, a call of [createUser] comes after the delivery of the mail. *)
Theorem register_sends_before_it_persists (q : Quicker) (V : Validation) (env : Env)
    (body : RegisterBody) (d : Db) (r : Reply) (w : World) :
  register q V env body (start d) = (r, w) ->
  (forall data e,
     registerUserSchema V body = Success data ->
     mailer env (verification_mail env data) = Some e ->
     db w = d /\ is_success r = false /\ forall k, ~ In (Store CreateUser k) (trace w))
  /\ (db w <> d ->
      exists data,
        registerUserSchema V body = Success data
        /\ mailer env (verification_mail env data) = None
        /\ db w = set_users d (users d ++ [registered_row q env data]))
  /\ (forall k pre post,
        trace w = pre ++ Store CreateUser k :: post ->
        exists data,
          registerUserSchema V body = Success data
          /\ In (Email (verification_mail env data) true) pre).
Proof.
  intros Hrun.
  destruct (register_runs q V env body d r w Hrun)
    as [(Hdb & Herr & Htr) | (data & pre & Hp & Hmail & Hdb & Hok & Htr & Hpre)].
  - split; [|split].
    + intros data e Hp Hfail. split; [assumption | split; [assumption|]].
      destruct Htr as [Hno | (data' & pre & Hp' & Hmail & _)]; [assumption|].
      rewrite Hp in Hp'. injection Hp' as <-. congruence.
    + intros Hne. contradiction.
    + intros k pre' post Heq.
      destruct Htr as [Hno | (data & pre & Hp & Hmail & Htr & Hpre)].
      * exfalso. apply (Hno k). rewrite Heq. apply in_or_app. right. now left.
      * exists data. split; [assumption|].
        rewrite Htr in Heq.
        apply (split_at_last _ _ _ _ _ _ _ Heq); [apply Hpre | discriminate].
  - split; [|split].
    + intros data' e Hp' Hfail. rewrite Hp in Hp'. injection Hp' as <-. congruence.
    + intros _. exists data. auto.
    + intros k pre' post Heq. exists data. split; [assumption|].
      rewrite Htr in Heq.
      apply (split_at_last _ _ _ _ _ _ _ Heq); [apply Hpre | discriminate].
Qed.

Lemma register_sends_before_it_persists_witness :
  db (snd (register Demo.quicker Demo.validation (Demo.env 5 false)
             {| rb_name := Some "Ana"; rb_email := Some "ana@x.com";
                rb_username := Some "ana1"; rb_password := Some "Secret123!" |}
             (start Demo.empty)))
  = Demo.empty.
Proof.
  apply (proj1 (register_sends_before_it_persists Demo.quicker Demo.validation
                  (Demo.env 5 false) _ Demo.empty _ _ (surjective_pairing _))
           {| r_name := "Ana"; r_email := "ana@x.com";
              r_username := "ana1"; r_password := "Secret123!" |}
           "SMTP unreachable").
  - reflexivity.
  - reflexivity.
Defined.

(** ** The password-recovery table *)

Lemma latest_from (acc : option PasswordRecovery) (l : list PasswordRecovery) :
  let step := fun best r =>
    match best with
    | Some b => if Nat.ltb (recoverId b) (recoverId r) then Some r else Some b
    | None => Some r
    end in
  (acc <> None \/ l <> [] -> exists r, foldl step acc l = Some r)
  /\ forall r, foldl step acc l = Some r -> acc = Some r \/ In r l.
Proof.
  intros step. revert acc. induction l as [|x l IH]; intros acc; simpl.
  - split.
    + intros [H|H]; [|contradiction]. destruct acc; [eauto | contradiction].
    + intros r ->. now left.
  - destruct (IH (step acc x)) as [IH1 IH2]. split.
    + intros _. apply IH1. left. unfold step.
      destruct acc as [b|]; [destruct (Nat.ltb _ _)|]; discriminate.
    + intros r Hr. destruct (IH2 r Hr) as [Hacc | Hin]; [|auto].
      unfold step in Hacc. destruct acc as [b|].
      * destruct (Nat.ltb _ _); injection Hacc as <-; auto.
      * injection Hacc as <-. auto.
Qed.

Lemma latest_In (l : list PasswordRecovery) (r : PasswordRecovery) :
  latest l = Some r -> In r l.
Proof.
  intros H. destruct (proj2 (latest_from None l) r H) as [Habs|]; [discriminate | assumption].
Qed.

Lemma latest_nonempty (l : list PasswordRecovery) :
  l <> [] -> exists r, latest l = Some r.
Proof. intros H. apply (proj1 (latest_from None l)). now right. Qed.

(** If every row of a user carries the expiry [e], and the user has a row,
    then [e] is what [getExpiryTime] reads. *)
Lemma expiry_of_uniform (id : string) (l : list PasswordRecovery) (e : option Z) :
  existsb (owned_by id) l = true ->
  (forall r, In r l -> owned_by id r = true -> expiry r = e) ->
  expiry_of id l = Some e.
Proof.
  intros Hex Hall. unfold expiry_of.
  destruct (latest_nonempty (List.filter (owned_by id) l)) as [r Hr].
  - apply existsb_exists in Hex as (x & Hin & Hx).
    intros Hnil. assert (Hf : In x (List.filter (owned_by id) l)) by now apply filter_In.
    rewrite Hnil in Hf. contradiction.
  - rewrite Hr. simpl. f_equal. apply latest_In in Hr. apply filter_In in Hr as [Hin Ho].
    now apply Hall.
Qed.

Lemma unique_key_row {A} (f : A -> string) (l : list A) (x y : A) :
  List.NoDup (map f l) -> In x l -> In y l -> f x = f y -> x = y.
Proof.
  induction l as [|a l IH]; simpl; intros Hnd Hx Hy Hf; [contradiction|].
  apply List.NoDup_cons_iff in Hnd as [Hnot Hnd].
  destruct Hx as [<-|Hx], Hy as [<-|Hy]; auto.
  - exfalso. apply Hnot. rewrite Hf. now apply in_map.
  - exfalso. apply Hnot. rewrite <- Hf. now apply in_map.
Qed.

(** On a table that honours the unique key [userId], the expiry read for the
    owner of a row is the expiry of that row. *)
Lemma expiry_of_the_row (l : list PasswordRecovery) (r : PasswordRecovery) :
  List.NoDup (map pr_userId l) -> In r l ->
  expiry_of (pr_userId r) l = Some (expiry r).
Proof.
  intros Hnd Hin. apply expiry_of_uniform.
  - apply existsb_exists. exists r. split; [assumption|].
    unfold owned_by. apply String.eqb_refl.
  - intros r' Hin' Ho. unfold owned_by in Ho. apply String.eqb_eq in Ho.
    now rewrite (unique_key_row pr_userId l r' r Hnd Hin' Hin Ho).
Qed.

(** After [saveResetPasswordCode] the expiry read for the user is the date
    just saved. *)
Lemma expiry_of_after_save (id token : string) (date : Z) (w : World) :
  expiry_of id (passwordRecoveries (db (snd (saveResetPasswordCode id token date w))))
  = Some (Some date).
Proof.
  unfold saveResetPasswordCode. run. simpl.
  destruct (existsb (owned_by id) (passwordRecoveries (db w))) eqn:Hex; simpl.
  - apply expiry_of_uniform.
    + apply existsb_exists in Hex as (x & Hin & Hx).
      apply existsb_exists. exists (with_reset (Some token) (Some date) x). split.
      * unfold update_recovery. apply in_map_iff. exists x. now rewrite Hx.
      * exact Hx.
    + intros r Hin Ho. unfold update_recovery in Hin.
      apply in_map_iff in Hin as (y & <- & Hy).
      destruct (owned_by id y) eqn:Hoy; [reflexivity|]. congruence.
  - apply expiry_of_uniform.
    + rewrite existsb_app. simpl. unfold owned_by at 2. simpl.
      rewrite String.eqb_refl. now rewrite orb_true_r.
    + intros r Hin Ho. apply in_app_or in Hin as [Hin | [<- | []]]; [|reflexivity].
      exfalso. assert (existsb (owned_by id) (passwordRecoveries (db w)) = true).
      { apply existsb_exists. eauto. }
      congruence.
Qed.

(** moment's truncated difference reaches 15 minutes exactly when 900000
    milliseconds have passed. *)
Lemma diff_minutes_15 (a b : Z) : 15 <= diff_minutes a b <-> b + 15 * 60000 <= a.
Proof.
  unfold diff_minutes. split; intros H.
  - destruct (Z_lt_le_dec (a - b) 0) as [Hneg|Hpos].
    + pose proof (Z.quot_opp_l (b - a) 60000 ltac:(lia)) as Hq.
      replace (- (b - a)) with (a - b) in Hq by lia.
      pose proof (Z.quot_pos (b - a) 60000 ltac:(lia) ltac:(lia)). lia.
    + rewrite Z.quot_div_nonneg in H by lia.
      pose proof (Z.mul_div_le (a - b) 60000 ltac:(lia)). lia.
  - rewrite Z.quot_div_nonneg by lia.
    apply Z.div_le_lower_bound; lia.
Qed.

(** ** C2: the expiry check of [resetPassword] *)

Section Reset.

Variable q : Quicker.
Variable V : Validation.
Variable env : Env.
Variable token : string.

Lemma resetPassword_window body d data rec u e :
  resetPasswordSchema V body = Success data ->
  find (has_reset_token token) (passwordRecoveries d) = Some rec ->
  find (has_id (pr_userId rec)) (users d) = Some u ->
  verified u = true ->
  expiry_of (userId u) (passwordRecoveries d) = Some (Some e) ->
  let seen := [Store FindUserByResetToken token; Store FindUserById (userId u);
               Store GetExpiryTime (userId u)] in
  (15 <= diff_minutes (now env) e ->
   resetPassword q V env token body (start d)
   = (HttpError FORBIDDEN (Msg TIMEOUT), {| db := d; cookies := []; trace := seen |}))
  /\ (diff_minutes (now env) e < 15 ->
      exists r w rest,
        resetPassword q V env token body (start d) = (r, w)
        /\ r <> HttpError FORBIDDEN (Msg TIMEOUT)
        /\ trace w = seen ++ Store GetPasswordbyUserId (userId u) :: rest).
Proof.
  intros Hp Hrec Hu Hv He seen. subst seen.
  pose proof (find_has_id_sound _ _ _ Hu) as [Hin Hid].
  unfold resetPassword. rewrite Hp.
  unfold findUserByResetToken, findUserById, getExpiryTime. run. simpl.
  rewrite Hrec. simpl. rewrite Hu. simpl.
  unfold verified in Hv. destruct (accountConfirmation u) as [c|]; [|discriminate].
  rewrite Hv. simpl. rewrite He. rewrite Hid. split.
  - intros Hlate. apply Z.leb_le in Hlate. rewrite Hlate. reflexivity.
  - intros Hearly. apply Z.leb_gt in Hearly. rewrite Hearly.
    unfold getPasswordbyUserId. run. simpl. rewrite Hu. simpl.
    destruct (comparePassword q (newPassword data) (password u)).
    { do 3 eexists. split; [reflexivity | split; [discriminate | reflexivity]]. }
    unfold updateUserPasswordbyId, clearResetTokenAndExpiry. run. simpl.
    destruct (existsb (has_id (pr_userId rec)) (users d)); simpl.
    2:{ do 3 eexists. split; [reflexivity | split; [discriminate | reflexivity]]. }
    destruct (existsb (owned_by (pr_userId rec)) (passwordRecoveries d)); simpl.
    2:{ do 3 eexists. split; [reflexivity | split; [discriminate | reflexivity]]. }
    destruct (mailer env _); simpl.
    + do 3 eexists. split; [reflexivity | split; [discriminate | reflexivity]].
    + do 3 eexists. split; [reflexivity | split; [discriminate | reflexivity]].
Qed.

End Reset.

Lemma saveResetPasswordCode_returns (id token : string) (date : Z) (w : World) :
  exists w', saveResetPasswordCode id token date w = (Value tt, w').
Proof.
  unfold saveResetPasswordCode. run. simpl.
  destruct (existsb (owned_by id) (passwordRecoveries (db w))); eexists; reflexivity.
Qed.

(** Whatever becomes of the mail, a forgot-password request that finds its
    user leaves [now + 15 minutes] as the expiry read for that user. *)
Lemma forgotPassword_sets_expiry (V : Validation) (env : Env) (body : PasswordBody)
    (d : Db) (address : string) (u : User) :
  forgotPasswordSchema V body = Success address ->
  find (matches_key address) (users d) = Some u ->
  expiry_of (userId u) (passwordRecoveries (db (snd (forgotPassword V env body (start d)))))
  = Some (Some (now env + 15 * 60000)).
Proof.
  intros Hp Hf. unfold forgotPassword. rewrite Hp.
  unfold findUserByEmailOrUsername. run. simpl. rewrite Hf.
  pose proof (expiry_of_after_save (userId u) (randomToken env)
                (generateExpirationTime (now env) 15)
                (logged (Store FindUserByEmailOrUsername address) (start d))) as Hsaved.
  destruct (saveResetPasswordCode_returns (userId u) (randomToken env)
              (generateExpirationTime (now env) 15)
              (logged (Store FindUserByEmailOrUsername address) (start d))) as [w' Hw'].
  unfold logged, start in Hw', Hsaved. simpl in Hw', Hsaved.
  rewrite Hw' in Hsaved |- *. simpl in Hsaved.
  unfold generateExpirationTime in Hsaved.
  destruct (mailer env _); simpl; exact Hsaved.
Qed.

(** C2. For a reset request that reaches the expiry check (its body passes
    the schema, its token finds a recovery row, the owner exists and is
    verified, an expiry [e] is recorded): the reply is 403 [TIMEOUT] exactly
    when moment's minute difference from [e] to now is at least 15, that is
    when now is at least [e] plus 900000 ms; below that the handler goes on
    to read the current password.  And the expiry a forgot-password request
    stores is its own now plus 15 minutes. *)
Theorem resetPassword_expiry_window (q : Quicker) (V : Validation) (env : Env)
    (token : string) (body : PasswordBody) (d : Db) (data : ResetPasswordType)
    (rec : PasswordRecovery) (u : User) (e : Z) (r : Reply) (w : World) :
  resetPasswordSchema V body = Success data ->
  find (has_reset_token token) (passwordRecoveries d) = Some rec ->
  find (has_id (pr_userId rec)) (users d) = Some u ->
  verified u = true ->
  expiry_of (userId u) (passwordRecoveries d) = Some (Some e) ->
  resetPassword q V env token body (start d) = (r, w) ->
  (r = HttpError FORBIDDEN (Msg TIMEOUT) <-> 15 <= diff_minutes (now env) e)
  /\ (15 <= diff_minutes (now env) e <-> e + 15 * 60000 <= now env)
  /\ (15 <= diff_minutes (now env) e -> db w = d)
  /\ (diff_minutes (now env) e < 15 ->
      exists rest,
        trace w = [Store FindUserByResetToken token; Store FindUserById (userId u);
                   Store GetExpiryTime (userId u); Store GetPasswordbyUserId (userId u)]
                  ++ rest)
  /\ (forall env0 body0 d0 address u0,
        forgotPasswordSchema V body0 = Success address ->
        find (matches_key address) (users d0) = Some u0 ->
        expiry_of (userId u0)
          (passwordRecoveries (db (snd (forgotPassword V env0 body0 (start d0)))))
        = Some (Some (now env0 + 15 * 60000))).
Proof.
  intros Hp Hrec Hu Hv He Hrun.
  destruct (resetPassword_window q V env token body d data rec u e Hp Hrec Hu Hv He)
    as [Hlate Hearly].
  repeat split.
  - intros ->. destruct (Z_lt_le_dec (diff_minutes (now env) e) 15) as [Hlt|]; [|assumption].
    destruct (Hearly Hlt) as (r' & w' & rest & Hrun' & Hne & _).
    rewrite Hrun in Hrun'. injection Hrun' as <- _. contradiction.
  - intros H. rewrite (Hlate H) in Hrun. now injection Hrun as <- _.
  - apply diff_minutes_15.
  - apply diff_minutes_15.
  - intros H. rewrite (Hlate H) in Hrun. now injection Hrun as _ <-.
  - intros Hlt. destruct (Hearly Hlt) as (r' & w' & rest & Hrun' & _ & Htr).
    rewrite Hrun in Hrun'. injection Hrun' as _ <-. exists rest. exact Htr.
  - intros env0 body0 d0 address u0. apply forgotPassword_sets_expiry.
Qed.

Lemma resetPassword_expiry_window_witness :
  fst (resetPassword Demo.quicker Demo.validation (Demo.env 900000 true) "reset-1"
         (Demo.new_password "Other1234") (start (Demo.recovering 0)))
  = HttpError FORBIDDEN (Msg TIMEOUT).
Proof.
  apply (proj1 (resetPassword_expiry_window Demo.quicker Demo.validation
                  (Demo.env 900000 true) "reset-1" (Demo.new_password "Other1234")
                  (Demo.recovering 0)
                  {| newPassword := "Other1234"; confirmNewPassword := "Other1234" |}
                  {| recoverId := 1; pr_userId := "u1"; pr_token := Some "reset-1";
                     expiry := Some 0; lastResetAt := None |}
                  (Demo.ana true) 0 _ _
                  eq_refl eq_refl eq_refl eq_refl eq_refl (surjective_pairing _))).
  vm_compute. discriminate.
Defined.

(** ** C10: [resetPassword] writes nothing on a checked failure *)

Section ResetWrites.

Variable q : Quicker.
Variable V : Validation.
Variable env : Env.
Variable token : string.

(** Every run of [resetPassword]: either it wrote nothing and never called
    [clearResetTokenAndExpiry]; or it got past all checks and stored the new
    hash on the rows of the user, after which the trace shows the update
    followed by the clearing. *)
Lemma resetPassword_runs body d r w :
  resetPassword q V env token body (start d) = (r, w) ->
  (db w = d /\ forall k, ~ In (Store ClearResetTokenAndExpiry k) (trace w))
  \/ exists data u pre post,
       resetPasswordSchema V body = Success data
       /\ In u (users d)
       /\ checked_failure r = false
       /\ users (db w)
          = update_user (userId u)
              (with_password (hashPassword q (salt env) (newPassword data))) (users d)
       /\ (passwordRecoveries (db w) = passwordRecoveries d
           \/ passwordRecoveries (db w)
              = update_recovery (userId u) (with_reset None None) (passwordRecoveries d))
       /\ trace w = pre ++ Store UpdateUserPasswordbyId (userId u)
                        :: Store ClearResetTokenAndExpiry (userId u) :: post
       /\ (forall k, ~ In (Store ClearResetTokenAndExpiry k) pre)
       /\ (forall k, ~ In (Store ClearResetTokenAndExpiry k) post).
Proof.
  unfold resetPassword.
  destruct (resetPasswordSchema V body) as [data|issues] eqn:Hp.
  2:{ cbv. intros H. injection H as <- <-. left. split; auto. }
  unfold findUserByResetToken, findUserById, getExpiryTime. run. simpl.
  destruct (find (has_reset_token token) (passwordRecoveries d)) as [rec|]; simpl.
  2:{ intros H. injection H as <- <-. left. split; [reflexivity|].
      intros k [H|[]]. discriminate. }
  destruct (find (has_id (pr_userId rec)) (users d)) as [u|] eqn:Hu; simpl.
  2:{ intros H. injection H as <- <-. left. split; [reflexivity|].
      intros k [H|[H|[]]]; discriminate. }
  pose proof (find_has_id_sound _ _ _ Hu) as [Hin Hid]. rewrite Hid.
  destruct (match accountConfirmation u with Some c => isVerified c | None => false end); simpl.
  2:{ intros H. injection H as <- <-. left. split; [reflexivity|].
      intros k [H|[H|[]]]; discriminate. }
  destruct (expiry_of (pr_userId rec) (passwordRecoveries d)) as [[e|]|]; simpl.
  2,3: intros H; injection H as <- <-; left; (split; [reflexivity|]);
       intros k [H|[H|[H|[]]]]; discriminate.
  destruct (Z.leb 15 (diff_minutes (now env) e)); simpl.
  { intros H. injection H as <- <-. left. split; [reflexivity|].
    intros k [H|[H|[H|[]]]]; discriminate. }
  unfold getPasswordbyUserId. run. simpl. rewrite Hu. simpl.
  destruct (comparePassword q (newPassword data) (password u)); simpl.
  { intros H. injection H as <- <-. left. split; [reflexivity|].
    intros k [H|[H|[H|[H|[]]]]]; discriminate. }
  unfold updateUserPasswordbyId, clearResetTokenAndExpiry. run. simpl.
  destruct (existsb (has_id (pr_userId rec)) (users d)); simpl.
  2:{ intros H. injection H as <- <-. left. split; [reflexivity|].
      intros k [H|[H|[H|[H|[H|[]]]]]]; discriminate. }
  assert (Hpre : forall k, ~ In (Store ClearResetTokenAndExpiry k)
                             [Store FindUserByResetToken token;
                              Store FindUserById (pr_userId rec);
                              Store GetExpiryTime (pr_userId rec);
                              Store GetPasswordbyUserId (pr_userId rec)]).
  { intros k [H|[H|[H|[H|[]]]]]; discriminate. }
  destruct (existsb (owned_by (pr_userId rec)) (passwordRecoveries d)); simpl.
  2:{ intros H. injection H as <- <-. right.
      exists data, u, [Store FindUserByResetToken token; Store FindUserById (pr_userId rec);
                      Store GetExpiryTime (pr_userId rec);
                      Store GetPasswordbyUserId (pr_userId rec)], [].
      rewrite Hid. simpl.
      split; [reflexivity|]. split; [assumption|]. split; [reflexivity|].
      split; [reflexivity|]. split; [now left|]. split; [reflexivity|].
      split; [exact Hpre|]. intros k []. }
  destruct (mailer env _); simpl.
  - intros H. injection H as <- <-. right.
    exists data, u, [Store FindUserByResetToken token; Store FindUserById (pr_userId rec);
                      Store GetExpiryTime (pr_userId rec);
                      Store GetPasswordbyUserId (pr_userId rec)].
    eexists. rewrite Hid. simpl.
    split; [reflexivity|]. split; [assumption|]. split; [reflexivity|].
    split; [reflexivity|]. split; [now right|]. split; [reflexivity|].
    split; [exact Hpre|]. intros k [H|[]]. discriminate.
  - intros H. injection H as <- <-. right.
    exists data, u, [Store FindUserByResetToken token; Store FindUserById (pr_userId rec);
                      Store GetExpiryTime (pr_userId rec);
                      Store GetPasswordbyUserId (pr_userId rec)].
    eexists. rewrite Hid. simpl.
    split; [reflexivity|]. split; [assumption|]. split; [reflexivity|].
    split; [reflexivity|]. split; [now right|]. split; [reflexivity|].
    split; [exact Hpre|]. intros k [H|[]]. discriminate.
Qed.

End ResetWrites.

(** C10. (1) A reset request answered by one of the checked failures
    (unknown token, missing user, unverified account, missing expiry,
    timeout, same password) leaves the whole store, and so the password hash
    and the recovery token and expiry, as they were.  (2) A run that changes
    the recovery table has first stored the new hash on the rows of the user,
    and it changes the table by setting that user's token and expiry to
    null.  (3) In the trace of any run, a call of [clearResetTokenAndExpiry]
    comes after the call of [updateUserPasswordbyId] for the same user. *)
Theorem resetPassword_clears_only_after_update (q : Quicker) (V : Validation) (env : Env)
    (token : string) (body : PasswordBody) (d : Db) (r : Reply) (w : World) :
  resetPassword q V env token body (start d) = (r, w) ->
  (checked_failure r = true -> db w = d)
  /\ (passwordRecoveries (db w) <> passwordRecoveries d ->
      exists data u,
        resetPasswordSchema V body = Success data
        /\ In u (users d)
        /\ users (db w)
           = update_user (userId u)
               (with_password (hashPassword q (salt env) (newPassword data))) (users d)
        /\ passwordRecoveries (db w)
           = update_recovery (userId u) (with_reset None None) (passwordRecoveries d))
  /\ (forall k pre post,
        trace w = pre ++ Store ClearResetTokenAndExpiry k :: post ->
        In (Store UpdateUserPasswordbyId k) pre).
Proof.
  intros Hrun.
  destruct (resetPassword_runs q V env token body d r w Hrun)
    as [(Hdb & Hno) | (data & u & pre0 & post0 & Hp & Hin & Hchk & Hus & Hrec & Htr & Hpre & Hpost)].
  - split; [|split].
    + intros _. exact Hdb.
    + intros Hne. rewrite Hdb in Hne. contradiction.
    + intros k pre post Heq. exfalso. apply (Hno k). rewrite Heq.
      apply in_or_app. right. now left.
  - split; [|split].
    + intros Hc. congruence.
    + intros Hne. destruct Hrec as [Hsame | Hclr]; [contradiction|].
      exists data, u. auto.
    + intros k pre post Heq. rewrite Htr in Heq.
      assert (Hk : Store ClearResetTokenAndExpiry k = Store ClearResetTokenAndExpiry (userId u)).
      { apply (split_at_only _ _ _ _ _ _ _ Heq); [apply Hpre | discriminate | apply Hpost]. }
      injection Hk as ->.
      apply (split_at_last _ _ _ _ _ _ _ Heq); [apply Hpre | discriminate].
Qed.

Lemma resetPassword_clears_only_after_update_witness :
  db (snd (resetPassword Demo.quicker Demo.validation (Demo.env 5 true) "reset-1"
             (Demo.new_password "Secret123!") (start (Demo.recovering 0))))
  = Demo.recovering 0.
Proof.
  apply (proj1 (resetPassword_clears_only_after_update Demo.quicker Demo.validation
                  (Demo.env 5 true) "reset-1" (Demo.new_password "Secret123!")
                  (Demo.recovering 0) _ _ (surjective_pairing _))).
  reflexivity.
Defined.

(** ** C6: logout *)

Section Logout.

Variable cfg : Config.
Variable au : AuthenticatedUser.

Lemma logout_without_cookie ck d :
  truthy (ck_refreshToken ck) = false ->
  logout cfg au ck (start d)
  = (HttpResponse OK (Msg LOGOUT_SUCCESS) (JObj []),
     {| db := d; cookies := cleared_cookies cfg; trace := [] |}).
Proof. intros H. unfold logout. rewrite H. reflexivity. Qed.

Lemma logout_with_cookie ck d :
  truthy (ck_refreshToken ck) = true ->
  logout cfg au ck (start d)
  = match refreshTokens d !! au_userId au with
    | Some _ =>
        (HttpResponse OK (Msg LOGOUT_SUCCESS) (JObj []),
         {| db := set_refreshTokens d (delete (au_userId au) (refreshTokens d));
            cookies := cleared_cookies cfg;
            trace := [Store DeleteRefreshToken (au_userId au)] |})
    | None =>
        (HttpError INTERNAL_SERVER_ERROR (Text "P2025"),
         {| db := d; cookies := [];
            trace := [Store DeleteRefreshToken (au_userId au)] |})
    end.
Proof.
  intros H. unfold logout. rewrite H. unfold deleteRefreshToken. run. simpl.
  destruct (refreshTokens d !! au_userId au); reflexivity.
Qed.

End Logout.

(** With a [refreshToken] cookie and no record behind it, [delete] rejects:
    the reply is a 500 and neither cookie is cleared. *)
Lemma logout_without_record_fails :
  logout Demo.config Demo.ana_identity
    {| ck_accessToken := Some "as|u1|first"; ck_refreshToken := Some "rs|u1|first" |}
    (start (Demo.with_ana true))
  = (HttpError INTERNAL_SERVER_ERROR (Text "P2025"),
     {| db := Demo.with_ana true; cookies := [];
        trace := [Store DeleteRefreshToken "u1"] |}).
Proof. reflexivity. Qed.

(** C6, as stated, fails: a logout without a [refreshToken] cookie succeeds
    and clears the cookies but leaves the record of the user in the store. *)
Lemma logout_not_as_specified :
  logout Demo.config Demo.ana_identity
    {| ck_accessToken := Some "as|u1|first"; ck_refreshToken := None |}
    (start (Demo.signed_in "rs|u1|first"))
  = (HttpResponse OK (Msg LOGOUT_SUCCESS) (JObj []),
     {| db := Demo.signed_in "rs|u1|first"; cookies := cleared_cookies Demo.config;
        trace := [] |})
  /\ stored_refresh (Demo.signed_in "rs|u1|first") "u1" = Some "rs|u1|first"
  /\ ~ logout_as_specified Demo.config.
Proof.
  split; [reflexivity | split; [reflexivity|]].
  intros H.
  destruct (H Demo.ana_identity
              {| ck_accessToken := Some "as|u1|first"; ck_refreshToken := None |}
              (Demo.signed_in "rs|u1|first")) as [Hgone _].
  vm_compute in Hgone. discriminate.
Qed.

(** C6, amended. The deletion follows the cookie, not the record.  Without
    a (non-empty) [refreshToken] cookie the store is left as it is, whether
    or not it holds a record; with the cookie and a record for the user the
    record is deleted.  In both cases the reply is the success reply and
    both cookies are cleared. *)
Theorem logout_follows_the_cookie (cfg : Config) (au : AuthenticatedUser)
    (ck : RequestCookies) (d : Db) :
  (truthy (ck_refreshToken ck) = false ->
   logout cfg au ck (start d)
   = (HttpResponse OK (Msg LOGOUT_SUCCESS) (JObj []),
      {| db := d; cookies := cleared_cookies cfg; trace := [] |}))
  /\ (truthy (ck_refreshToken ck) = true ->
      is_Some (refreshTokens d !! au_userId au) ->
      exists w,
        logout cfg au ck (start d) = (HttpResponse OK (Msg LOGOUT_SUCCESS) (JObj []), w)
        /\ refreshTokens (db w) = delete (au_userId au) (refreshTokens d)
        /\ refreshTokens (db w) !! au_userId au = None
        /\ users (db w) = users d
        /\ passwordRecoveries (db w) = passwordRecoveries d
        /\ cookies w = cleared_cookies cfg).
Proof.
  split.
  - apply logout_without_cookie.
  - intros Hck [row Hrow]. rewrite (logout_with_cookie cfg au ck d Hck), Hrow.
    eexists. split; [reflexivity|]. simpl.
    split; [reflexivity|]. split; [apply lookup_delete_eq|]. auto.
Qed.

Lemma logout_follows_the_cookie_witness :
  exists w,
    logout Demo.config Demo.ana_identity
      {| ck_accessToken := Some "as|u1|first"; ck_refreshToken := Some "rs|u1|first" |}
      (start (Demo.signed_in "rs|u1|first"))
    = (HttpResponse OK (Msg LOGOUT_SUCCESS) (JObj []), w)
    /\ refreshTokens (db w) !! "u1" = None
    /\ cookies w = cleared_cookies Demo.config.
Proof.
  destruct (proj2 (logout_follows_the_cookie Demo.config Demo.ana_identity
                     {| ck_accessToken := Some "as|u1|first";
                        ck_refreshToken := Some "rs|u1|first" |}
                     (Demo.signed_in "rs|u1|first")) eq_refl)
    as (w & Hrun & _ & Hgone & _ & _ & Hck).
  - vm_compute. eauto.
  - exists w. auto.
Defined.

(** ** C9: where the password hash travels *)

(** A row read by e-mail comes back with its hash; so does a row read by
    e-mail or username. *)
Lemma read_by_email_returns_hash :
  read_user ByEmail "ana@x.com" "" (Demo.with_ana true)
  = Some (JObj (User_scalars (Demo.ana true)))
  /\ has_key "password" (JObj (User_scalars (Demo.ana true))) = true.
Proof. split; reflexivity. Qed.

Lemma read_by_email_or_username_returns_hash :
  read_user ByEmailOrUsername "ana1" "" (Demo.with_ana true)
  = Some (JObj (User_scalars (Demo.ana true)))
  /\ has_key "password" (JObj (User_scalars (Demo.ana true))) = true.
Proof. split; reflexivity. Qed.

(** The reply of a successful confirmation is built from the row
    [confirmAccount] returns, hash included. *)
Lemma confirmation_reply_carries_hash :
  reply_data (fst (confirmation (Demo.env 5 true) "tok-1" "123456"
                     (start (Demo.with_ana false))))
  = JObj [("user", User_json (confirm_now 5 (Demo.ana false)))]
  /\ has_key "password"
       (reply_data (fst (confirmation (Demo.env 5 true) "tok-1" "123456"
                           (start (Demo.with_ana false))))) = true.
Proof. split; reflexivity. Qed.

(** C9, as stated, fails: whichever read is taken to be the hash fetch,
    another read returns the stored hash: [findUserByEmail] does, and
    [findUserByEmailOrUsername] does. *)
Lemma password_not_withheld_as_specified :
  read_user ByEmail "ana@x.com" "" (Demo.with_ana true)
  = Some (JObj (User_scalars (Demo.ana true)))
  /\ read_user ByEmailOrUsername "ana1" "" (Demo.with_ana true)
     = Some (JObj (User_scalars (Demo.ana true)))
  /\ has_key "password" (JObj (User_scalars (Demo.ana true))) = true
  /\ ~ password_withheld_as_specified Demo.quicker Demo.config Demo.validation.
Proof.
  destruct read_by_email_returns_hash as [He Hk].
  destruct read_by_email_or_username_returns_hash as [Heu _].
  split; [exact He | split; [exact Heu | split; [exact Hk|]]].
  intros [[hash_fetch Hreads] _].
  destruct hash_fetch;
    first [ rewrite (Hreads ByEmail _ _ _ _ ltac:(discriminate) He) in Hk
          | rewrite (Hreads ByEmailOrUsername _ _ _ _ ltac:(discriminate) Heu) in Hk ];
    discriminate.
Qed.

Lemma AccountConfirmation_json_no_password (c : AccountConfirmation) :
  has_key "password" (AccountConfirmation_json c) = false.
Proof. unfold AccountConfirmation_json. destruct (ac_timestamp c); reflexivity. Qed.

Lemma PasswordRecovery_json_no_password (r : PasswordRecovery) :
  has_key "password" (PasswordRecovery_json r) = false.
Proof.
  unfold PasswordRecovery_json.
  destruct (pr_token r), (expiry r), (lastResetAt r); reflexivity.
Qed.

Lemma CreatedUser_json_no_password (u : CreatedUser) :
  has_key "password" (CreatedUser_json u) = false.
Proof.
  unfold CreatedUser_json.
  destruct (cu_accountConfirmation u) as [c|]; [destruct (ac_timestamp c) eqn:E|];
    simpl; rewrite ?E; reflexivity.
Qed.

Lemma TokenCodeUser_json_no_password (u : TokenCodeUser) :
  has_key "password" (TokenCodeUser_json u) = false.
Proof.
  unfold TokenCodeUser_json.
  destruct (tc_accountConfirmation u) as [c|]; [destruct (ac_timestamp c) eqn:E|];
    simpl; rewrite ?E; reflexivity.
Qed.

Lemma UserById_json_no_password (u : UserById) :
  has_key "password" (UserById_json u) = false.
Proof.
  unfold UserById_json.
  destruct (bi_accountConfirmation u) as [c|]; [destruct (ac_timestamp c) eqn:Ec|];
    (destruct (bi_passwordRecovery u) as [r|];
     [destruct (pr_token r) eqn:Et, (expiry r) eqn:Ee, (lastResetAt r) eqn:El|]);
    destruct (bi_refreshToken u) as [t|];
    simpl; rewrite ?Ec, ?Et, ?Ee, ?El; reflexivity.
Qed.

(** Walk through a handler: split on each test it makes, until the reply is
    in sight. *)
Ltac walk :=
  repeat (simpl;
          match goal with
          | |- context [match ?x with _ => _ end] =>
              lazymatch x with
              | context [match _ with _ => _ end] => fail
              | _ => destruct x eqn:?
              end
          end);
  simpl.

Section Payloads.

Variable q : Quicker.
Variable cfg : Config.
Variable V : Validation.
Variable env : Env.

Lemma register_payload body d :
  has_key "password" (reply_data (fst (register q V env body (start d)))) = false.
Proof.
  unfold register, findUserByEmail, findUserByUsername, createUser. run.
  walk; reflexivity.
Qed.

Lemma login_payload body d :
  has_key "password" (reply_data (fst (login q cfg V env body (start d)))) = false.
Proof.
  unfold login, findUserByEmailOrUsername, updateUserLastLogin, updateRefreshToken. run.
  walk; reflexivity.
Qed.

Lemma logout_payload au ck d :
  has_key "password" (reply_data (fst (logout cfg au ck (start d)))) = false.
Proof.
  unfold logout, deleteRefreshToken, clearAuthCookies. run.
  walk; reflexivity.
Qed.

Lemma refreshToken_payload ck d :
  has_key "password" (reply_data (fst (refreshToken q cfg env ck (start d)))) = false.
Proof.
  unfold refreshToken, getRefreshToken. run.
  walk; reflexivity.
Qed.

Lemma forgotPassword_payload body d :
  has_key "password" (reply_data (fst (forgotPassword V env body (start d)))) = false.
Proof.
  unfold forgotPassword, findUserByEmailOrUsername, saveResetPasswordCode. run.
  walk; reflexivity.
Qed.

Lemma resetPassword_payload token body d :
  has_key "password" (reply_data (fst (resetPassword q V env token body (start d)))) = false.
Proof.
  unfold resetPassword, findUserByResetToken, findUserById, getExpiryTime,
    getPasswordbyUserId, updateUserPasswordbyId, clearResetTokenAndExpiry. run.
  walk; reflexivity.
Qed.

Lemma changePassword_payload au body d :
  has_key "password" (reply_data (fst (changePassword q V env au body (start d)))) = false.
Proof.
  unfold changePassword, getPasswordbyUserId, changePasswordbyUserId,
    updateLastPasswordChange. run.
  walk; reflexivity.
Qed.

End Payloads.

Lemma read_user_selected (op : UserRead) (key code : string) (d : Db) (j : Json) :
  op = ByTokenAndCode \/ op = ById ->
  read_user op key code d = Some j ->
  has_key "password" j = false.
Proof.
  intros [-> | ->]; unfold read_user; simpl.
  - destruct (find _ (users d)); simpl; [|discriminate].
    intros H. injection H as <-. apply TokenCodeUser_json_no_password.
  - destruct (find _ (users d)); simpl; [|discriminate].
    intros H. injection H as <-. apply UserById_json_no_password.
Qed.

Lemma read_user_whole_row (op : UserRead) (key code : string) (d : Db) (j : Json) :
  op = ByEmail \/ op = ByUsername \/ op = ByEmailOrUsername \/ op = PasswordById ->
  read_user op key code d = Some j ->
  has_key "password" j = true.
Proof.
  intros [-> | [-> | [-> | ->]]]; unfold read_user; simpl;
    (destruct (find _ (users d)); simpl; [|discriminate]);
    intros H; injection H as <-; reflexivity.
Qed.

(** C9, amended. The reads that select their columns, [findUserByTokenAndCode]
    and [findUserById], never return the password hash, nor does the row
    [createUser] returns; [findUserByEmail], [findUserByUsername],
    [findUserByEmailOrUsername] and [getPasswordbyUserId] return it with every
    row they find.  The replies of register, login, logout, refresh, forgot
    password, reset password and change password never carry a [password]
    field. *)
Theorem password_kept_out_of_selections_and_replies (q : Quicker) (cfg : Config)
    (V : Validation) :
  (forall op key code d j,
     op = ByTokenAndCode \/ op = ById ->
     read_user op key code d = Some j ->
     has_key "password" j = false)
  /\ (forall env payload w u w',
        createUser env payload w = (Value u, w') ->
        has_key "password" (CreatedUser_json u) = false)
  /\ (forall op key code d j,
        op = ByEmail \/ op = ByUsername \/ op = ByEmailOrUsername \/ op = PasswordById ->
        read_user op key code d = Some j ->
        has_key "password" j = true)
  /\ (forall env req d,
        is_confirmation req = false ->
        has_key "password" (reply_data (fst (handle q cfg V env req (start d)))) = false).
Proof.
  split; [exact read_user_selected | split; [|split; [exact read_user_whole_row|]]].
  - intros env payload w u w' _. apply CreatedUser_json_no_password.
  - intros env req d Hreq. destruct req; simpl in Hreq |- *; try discriminate.
    + apply register_payload.
    + apply login_payload.
    + apply logout_payload.
    + apply refreshToken_payload.
    + apply forgotPassword_payload.
    + apply resetPassword_payload.
    + apply changePassword_payload.
Qed.

Lemma password_kept_out_of_selections_and_replies_witness :
  has_key "password"
    (reply_data (fst (handle Demo.quicker Demo.config Demo.validation (Demo.env 5 true)
                        (Login (Demo.credentials "Secret123!"))
                        (start (Demo.with_ana true))))) = false.
Proof.
  apply (proj2 (proj2 (proj2 (password_kept_out_of_selections_and_replies
                                Demo.quicker Demo.config Demo.validation)))).
  reflexivity.
Defined.

(** ** The two end-to-end scenarios of the specification, run on the model *)

(** Register, confirm, log in, log out: the login leaves a refresh token in
    the store, the logout removes it and clears both cookies. *)
Example scenario_session :
  let body := {| rb_name := Some "Ana"; rb_email := Some "ana@x.com";
                 rb_username := Some "ana1"; rb_password := Some "Secret123!" |} in
  let registered := register Demo.quicker Demo.validation (Demo.env 1 true) body
                      (start Demo.empty) in
  let confirmed := confirmation (Demo.env 2 true) "tok-1" "123456"
                     (start (db (snd registered))) in
  let logged_in := login Demo.quicker Demo.config Demo.validation (Demo.env 3 true)
                     (Demo.credentials "Secret123!") (start (db (snd confirmed))) in
  let logged_out := logout Demo.config Demo.ana_identity
                      {| ck_accessToken := Some "as|u1|first";
                         ck_refreshToken := Some "rs|u1|first" |}
                      (start (db (snd logged_in))) in
  is_success (fst registered) = true
  /\ is_success (fst confirmed) = true
  /\ stored_refresh (db (snd logged_in)) "u1" = Some "rs|u1|first"
  /\ fst logged_out = HttpResponse OK (Msg LOGOUT_SUCCESS) (JObj [])
  /\ stored_refresh (db (snd logged_out)) "u1" = None
  /\ cookies (snd logged_out) = cleared_cookies Demo.config.
Proof. vm_compute. repeat split; reflexivity. Qed.

(** Forgot password, reset once, reset again with the same token: the
    expiry stored is 15 minutes out, the first reset succeeds (even 29
    minutes after the request), the second finds no token. *)
Example scenario_recovery :
  let asked := forgotPassword Demo.validation (Demo.env 1000 true)
                 {| pb_email := Some "ana@x.com"; pb_oldPassword := None;
                    pb_newPassword := None; pb_confirmNewPassword := None |}
                 (start (Demo.with_ana true)) in
  let first := resetPassword Demo.quicker Demo.validation (Demo.env (1000 + 29 * 60000) true)
                 "tok-1" (Demo.new_password "NewSecret1!") (start (db (snd asked))) in
  let second := resetPassword Demo.quicker Demo.validation (Demo.env (1000 + 30 * 60000) true)
                  "tok-1" (Demo.new_password "Another12!") (start (db (snd first))) in
  expiry_of "u1" (passwordRecoveries (db (snd asked))) = Some (Some (1000 + 15 * 60000))
  /\ fst first = HttpResponse OK (Text "Password reset successfully") (JObj [])
  /\ fst second = HttpError UNAUTHORIZED (Msg TOKEN_EXPIRED).
Proof. vm_compute. repeat split; reflexivity. Qed.

(** * More of the controller and the services *)

(** ** Every handler changes the store by service writes only *)

Ltac last_write :=
  lazymatch goal with
  | |- Write ?x _ =>
      first [ apply (W_createUser x); assumption
            | apply (W_resetCreate x); assumption
            | apply (W_confirmAccount x)
            | apply (W_updateUserLastLogin x)
            | apply (W_updatePassword x)
            | apply (W_updateRefreshToken x)
            | apply (W_deleteRefreshToken x)
            | apply (W_resetUpdate x)
            | apply (W_lastReset x) ]
  end.

Ltac chain_writes :=
  lazymatch goal with
  | |- rtc Write ?d ?d => apply rtc_refl
  | |- rtc Write ?d (set_users ?inner _) =>
      apply (rtc_r _ inner); [chain_writes | last_write]
  | |- rtc Write ?d (set_refreshTokens ?inner _) =>
      apply (rtc_r _ inner); [chain_writes | last_write]
  | |- rtc Write ?d (set_passwordRecoveries ?inner _) =>
      apply (rtc_r _ inner); [chain_writes | last_write]
  end.

Section Writes.

Variable q : Quicker.
Variable cfg : Config.
Variable V : Validation.
Variable env : Env.

Lemma register_writes body d : rtc Write d (db (snd (register q V env body (start d)))).
Proof.
  unfold register, findUserByEmail, findUserByUsername, createUser. run.
  walk; chain_writes.
Qed.

Lemma confirmation_writes token code d :
  rtc Write d (db (snd (confirmation env token code (start d)))).
Proof.
  unfold confirmation, findUserByTokenAndCode, confirmAccount. run.
  walk; chain_writes.
Qed.

Lemma login_writes body d : rtc Write d (db (snd (login q cfg V env body (start d)))).
Proof.
  unfold login, findUserByEmailOrUsername, updateUserLastLogin, updateRefreshToken. run.
  walk; chain_writes.
Qed.

Lemma logout_writes au ck d : rtc Write d (db (snd (logout cfg au ck (start d)))).
Proof.
  unfold logout, deleteRefreshToken, clearAuthCookies. run.
  walk; chain_writes.
Qed.

Lemma refreshToken_writes ck d : rtc Write d (db (snd (refreshToken q cfg env ck (start d)))).
Proof.
  unfold refreshToken, getRefreshToken. run.
  walk; chain_writes.
Qed.

Lemma forgotPassword_writes body d :
  rtc Write d (db (snd (forgotPassword V env body (start d)))).
Proof.
  unfold forgotPassword, findUserByEmailOrUsername, saveResetPasswordCode. run.
  walk; chain_writes.
Qed.

Lemma resetPassword_writes token body d :
  rtc Write d (db (snd (resetPassword q V env token body (start d)))).
Proof.
  unfold resetPassword, findUserByResetToken, findUserById, getExpiryTime,
    getPasswordbyUserId, updateUserPasswordbyId, clearResetTokenAndExpiry. run.
  walk; chain_writes.
Qed.

Lemma changePassword_writes au body d :
  rtc Write d (db (snd (changePassword q V env au body (start d)))).
Proof.
  unfold changePassword, getPasswordbyUserId, changePasswordbyUserId,
    updateLastPasswordChange. run.
  walk; chain_writes.
Qed.

Lemma handle_writes req d : rtc Write d (db (snd (handle q cfg V env req (start d)))).
Proof.
  destruct req; simpl.
  - apply register_writes.
  - apply confirmation_writes.
  - apply login_writes.
  - apply logout_writes.
  - apply refreshToken_writes.
  - apply forgotPassword_writes.
  - apply resetPassword_writes.
  - apply changePassword_writes.
Qed.

End Writes.

(** ** What no request does to the accounts *)

Lemma map_update_user {B} (g : User -> B) (id : string) (f : User -> User) (l : list User) :
  (forall u, g (f u) = g u) -> map g (update_user id f l) = map g l.
Proof.
  intros Hg. unfold update_user. rewrite map_map. apply map_ext.
  intros u. destruct (has_id id u); [apply Hg | reflexivity].
Qed.

Lemma map_update_recovery {B} (g : PasswordRecovery -> B) (id : string)
    (f : PasswordRecovery -> PasswordRecovery) (l : list PasswordRecovery) :
  (forall r, g (f r) = g r) -> map g (update_recovery id f l) = map g l.
Proof.
  intros Hg. unfold update_recovery. rewrite map_map. apply map_ext.
  intros r. destruct (owned_by id r); [apply Hg | reflexivity].
Qed.

Lemma identity_confirm_now (t : Z) (u : User) : identity (confirm_now t u) = identity u.
Proof. unfold confirm_now. destruct (accountConfirmation u); reflexivity. Qed.

Lemma verified_confirm_now_mono (t : Z) (u : User) :
  verified u = true -> verified (confirm_now t u) = true.
Proof.
  unfold confirm_now, verified. destruct (accountConfirmation u) eqn:E; simpl; [reflexivity|].
  now rewrite E.
Qed.

(** One write keeps every account in its place, with its identity. *)
Lemma Write_identity (d d' : Db) :
  Write d d' -> exists extra, map identity (users d') = map identity (users d) ++ extra.
Proof.
  intros [d0 row _ | d0 id t | d0 id t | d0 id p | d0 id row | d0 id
          | d0 id tok date | d0 row _ | d0 id t]; simpl;
    try (exists []; rewrite app_nil_r; reflexivity).
  - exists [identity row]. apply map_app.
  - exists []. rewrite app_nil_r. apply map_update_user, identity_confirm_now.
  - exists []. rewrite app_nil_r. now apply map_update_user.
  - exists []. rewrite app_nil_r. now apply map_update_user.
Qed.

Lemma In_update_user (id : string) (f : User -> User) (l : list User) (u : User) :
  In u l -> In (if has_id id u then f u else u) (update_user id f l).
Proof. intros H. unfold update_user. apply in_map_iff. exists u. auto. Qed.

(** One write leaves a verified account verified. *)
Lemma Write_verified (d d' : Db) :
  Write d d' ->
  forall u, In u (users d) -> verified u = true ->
            exists u', In u' (users d') /\ identity u' = identity u /\ verified u' = true.
Proof.
  intros [d0 row _ | d0 id t | d0 id t | d0 id p | d0 id row | d0 id
          | d0 id tok date | d0 row _ | d0 id t] u Hin Hv; simpl;
    try solve [exists u; auto].
  - exists u. split; [apply in_or_app; now left | auto].
  - exists (if has_id id u then confirm_now t u else u).
    split; [now apply In_update_user|].
    destruct (has_id id u); [|auto].
    split; [apply identity_confirm_now | now apply verified_confirm_now_mono].
  - exists (if has_id id u then with_lastLoginAt t u else u).
    split; [now apply In_update_user|]. destruct (has_id id u); auto.
  - exists (if has_id id u then with_password p u else u).
    split; [now apply In_update_user|]. destruct (has_id id u); auto.
Qed.

Lemma not_in_map_of_existsb {A} (g : A -> string) (p : A -> bool) (k : string) (l : list A) :
  (forall x, String.eqb (g x) k = true -> p x = true) ->
  existsb p l = false -> ~ In k (map g l).
Proof.
  intros Hp Hex Hin. apply in_map_iff in Hin as (x & <- & Hx).
  assert (existsb p l = true); [|congruence].
  apply existsb_exists. exists x. split; [assumption|]. apply Hp, String.eqb_refl.
Qed.

Lemma NoDup_snoc {A} (l : list A) (x : A) :
  List.NoDup l -> ~ In x l -> List.NoDup (l ++ [x]).
Proof.
  intros Hnd Hx. apply NoDup_app; [assumption | repeat constructor; intros [] |].
  intros a Ha [<- | []]. contradiction.
Qed.

(** One write keeps the unique keys unique. *)
Lemma Write_keys (d d' : Db) : Write d d' -> keys_unique d -> keys_unique d'.
Proof.
  unfold keys_unique.
  intros [d0 row Hrow | d0 id t | d0 id t | d0 id p | d0 id row | d0 id
          | d0 id tok date | d0 row Hrow | d0 id t] (Hi & He & Hu & Hr); simpl;
    try (repeat split; assumption).
  - rewrite !map_app. simpl. repeat split; [| | | assumption].
    + apply NoDup_snoc; [assumption|].
      refine (not_in_map_of_existsb userId _ _ _ _ Hrow).
      intros x Hx. simpl. now rewrite Hx.
    + apply NoDup_snoc; [assumption|].
      refine (not_in_map_of_existsb email _ _ _ _ Hrow).
      intros x Hx. simpl. now rewrite Hx, orb_true_r.
    + apply NoDup_snoc; [assumption|].
      refine (not_in_map_of_existsb username _ _ _ _ Hrow).
      intros x Hx. simpl. now rewrite Hx, orb_true_r.
  - rewrite !map_update_user; [repeat split; assumption | | |];
      intros u; unfold confirm_now; destruct (accountConfirmation u); reflexivity.
  - rewrite !map_update_user; [repeat split; assumption | | |]; reflexivity.
  - rewrite !map_update_user; [repeat split; assumption | | |]; reflexivity.
  - rewrite map_update_recovery; [repeat split; assumption | reflexivity].
  - rewrite map_app. simpl. repeat split; [assumption.. |].
    apply NoDup_snoc; [assumption|].
    refine (not_in_map_of_existsb pr_userId _ _ _ _ Hrow).
    intros x Hx. exact Hx.
  - rewrite map_update_recovery; [repeat split; assumption | reflexivity].
Qed.

Lemma Writes_identity (d d' : Db) :
  rtc Write d d' -> exists extra, map identity (users d') = map identity (users d) ++ extra.
Proof.
  induction 1 as [d | d d1 d2 Hw _ [extra2 IH]].
  - exists []. now rewrite app_nil_r.
  - destruct (Write_identity _ _ Hw) as [extra1 H1].
    exists (extra1 ++ extra2). now rewrite IH, H1, app_assoc.
Qed.

Lemma Writes_verified (d d' : Db) :
  rtc Write d d' ->
  forall u, In u (users d) -> verified u = true ->
            exists u', In u' (users d') /\ identity u' = identity u /\ verified u' = true.
Proof.
  induction 1 as [d | d d1 d2 Hw _ IH]; intros u Hin Hv.
  - exists u. auto.
  - destruct (Write_verified _ _ Hw u Hin Hv) as (u1 & Hin1 & Hid1 & Hv1).
    destruct (IH u1 Hin1 Hv1) as (u2 & Hin2 & Hid2 & Hv2).
    exists u2. split; [assumption | split; [congruence | assumption]].
Qed.

Lemma Writes_keys (d d' : Db) : rtc Write d d' -> keys_unique d -> keys_unique d'.
Proof.
  induction 1 as [d | d d1 d2 Hw _ IH]; [auto|].
  intros Hk. apply IH. exact (Write_keys _ _ Hw Hk).
Qed.

Section Accounts.

Variable q : Quicker.
Variable cfg : Config.
Variable V : Validation.
Variable env : Env.

Lemma same_number_of_accounts req d :
  match req with Register _ => False | _ => True end ->
  length (users (db (snd (handle q cfg V env req (start d))))) = length (users d).
Proof.
  destruct req; simpl; intros Hreq; try contradiction; clear Hreq.
  - unfold confirmation, findUserByTokenAndCode, confirmAccount. run.
    walk; unfold update_user; rewrite ?length_map; reflexivity.
  - unfold login, findUserByEmailOrUsername, updateUserLastLogin, updateRefreshToken. run.
    walk; unfold update_user; rewrite ?length_map; reflexivity.
  - unfold logout, deleteRefreshToken, clearAuthCookies. run.
    walk; reflexivity.
  - unfold refreshToken, getRefreshToken. run.
    walk; reflexivity.
  - unfold forgotPassword, findUserByEmailOrUsername, saveResetPasswordCode. run.
    walk; reflexivity.
  - unfold resetPassword, findUserByResetToken, findUserById, getExpiryTime,
      getPasswordbyUserId, updateUserPasswordbyId, clearResetTokenAndExpiry. run.
    walk; unfold update_user; rewrite ?length_map; reflexivity.
  - unfold changePassword, getPasswordbyUserId, changePasswordbyUserId,
      updateLastPasswordChange. run.
    walk; unfold update_user; rewrite ?length_map; reflexivity.
Qed.

End Accounts.

(** X1. No request removes an account or changes the id, name, e-mail or
    username of one: after any request the accounts of before are there, in
    their places, named as before; and only a registration adds one. *)
Theorem accounts_are_kept (q : Quicker) (cfg : Config) (V : Validation) (env : Env)
    (req : Request) (d : Db) :
  (exists extra,
     map identity (users (db (snd (handle q cfg V env req (start d)))))
     = map identity (users d) ++ extra)
  /\ (match req with Register _ => False | _ => True end ->
      map identity (users (db (snd (handle q cfg V env req (start d)))))
      = map identity (users d)).
Proof.
  destruct (Writes_identity _ _ (handle_writes q cfg V env req d)) as [extra Hex].
  split; [eauto|].
  intros Hreq. pose proof (same_number_of_accounts q cfg V env req d Hreq) as Hlen.
  apply (f_equal (@length _)) in Hex as Hl.
  rewrite length_app, !length_map, Hlen in Hl.
  destruct extra; [now rewrite app_nil_r in Hex | simpl in Hl; lia].
Qed.

Lemma accounts_are_kept_witness :
  map identity
    (users (db (snd (handle Demo.quicker Demo.config Demo.validation (Demo.env 5 true)
                       (Confirmation "tok-1" "123456") (start (Demo.with_ana false))))))
  = map identity (users (Demo.with_ana false)).
Proof.
  apply (proj2 (accounts_are_kept Demo.quicker Demo.config Demo.validation (Demo.env 5 true)
                  (Confirmation "tok-1" "123456") (Demo.with_ana false))).
  exact I.
Defined.

(** X2. A verified account stays verified: whatever the request, an account
    that was verified before it is still there afterwards under the same
    identity, and verified. *)
Theorem verified_accounts_stay_verified (q : Quicker) (cfg : Config) (V : Validation)
    (env : Env) (req : Request) (d : Db) (u : User) :
  In u (users d) ->
  verified u = true ->
  exists u',
    In u' (users (db (snd (handle q cfg V env req (start d)))))
    /\ identity u' = identity u
    /\ verified u' = true.
Proof. apply Writes_verified, handle_writes. Qed.

Lemma verified_accounts_stay_verified_witness :
  exists u',
    In u' (users (db (snd (handle Demo.quicker Demo.config Demo.validation (Demo.env 5 true)
                             (ResetPassword "reset-1" (Demo.new_password "Other1234"))
                             (start (Demo.recovering 0))))))
    /\ identity u' = identity (Demo.ana true)
    /\ verified u' = true.
Proof.
  apply (verified_accounts_stay_verified Demo.quicker Demo.config Demo.validation
           (Demo.env 5 true) (ResetPassword "reset-1" (Demo.new_password "Other1234"))
           (Demo.recovering 0) (Demo.ana true)).
  - left. reflexivity.
  - reflexivity.
Defined.

(** X3. The unique keys survive every request: if user ids, e-mails and
    usernames are pairwise distinct and every user has at most one recovery
    row, the same holds after the request. *)
Theorem unique_keys_are_kept (q : Quicker) (cfg : Config) (V : Validation) (env : Env)
    (req : Request) (d : Db) :
  keys_unique d ->
  keys_unique (db (snd (handle q cfg V env req (start d)))).
Proof. apply Writes_keys, handle_writes. Qed.

Lemma unique_keys_are_kept_witness :
  keys_unique
    (db (snd (handle Demo.quicker Demo.config Demo.validation (Demo.env 5 true)
                (ForgotPassword {| pb_email := Some "ana@x.com"; pb_oldPassword := None;
                                   pb_newPassword := None; pb_confirmNewPassword := None |})
                (start (Demo.with_ana true))))).
Proof.
  apply (unique_keys_are_kept Demo.quicker Demo.config Demo.validation (Demo.env 5 true)).
  unfold keys_unique. simpl.
  repeat split; repeat constructor; simpl; intros [].
Defined.

(** ** Which requests write what *)

Section Footprints.

Variable q : Quicker.
Variable cfg : Config.
Variable V : Validation.
Variable env : Env.

Lemma register_keeps_tokens body d :
  refreshTokens (db (snd (register q V env body (start d)))) = refreshTokens d.
Proof.
  unfold register, findUserByEmail, findUserByUsername, createUser. run.
  walk; reflexivity.
Qed.

Lemma confirmation_keeps_tokens token code d :
  refreshTokens (db (snd (confirmation env token code (start d)))) = refreshTokens d.
Proof.
  unfold confirmation, findUserByTokenAndCode, confirmAccount. run.
  walk; reflexivity.
Qed.

Lemma refreshToken_keeps_store ck d :
  db (snd (refreshToken q cfg env ck (start d))) = d.
Proof.
  unfold refreshToken, getRefreshToken. run.
  walk; reflexivity.
Qed.

Lemma forgotPassword_keeps_tokens body d :
  refreshTokens (db (snd (forgotPassword V env body (start d)))) = refreshTokens d.
Proof.
  unfold forgotPassword, findUserByEmailOrUsername, saveResetPasswordCode. run.
  walk; reflexivity.
Qed.

Lemma resetPassword_keeps_tokens token body d :
  refreshTokens (db (snd (resetPassword q V env token body (start d)))) = refreshTokens d.
Proof.
  unfold resetPassword, findUserByResetToken, findUserById, getExpiryTime,
    getPasswordbyUserId, updateUserPasswordbyId, clearResetTokenAndExpiry. run.
  walk; reflexivity.
Qed.

Lemma changePassword_keeps_tokens au body d :
  refreshTokens (db (snd (changePassword q V env au body (start d)))) = refreshTokens d.
Proof.
  unfold changePassword, getPasswordbyUserId, changePasswordbyUserId,
    updateLastPasswordChange. run.
  walk; reflexivity.
Qed.

Lemma credential_confirm_now (t : Z) (u : User) : credential (confirm_now t u) = credential u.
Proof. unfold confirm_now. destruct (accountConfirmation u); reflexivity. Qed.

Lemma register_keeps_hashes body d :
  exists extra,
    map credential (users (db (snd (register q V env body (start d)))))
    = map credential (users d) ++ extra.
Proof.
  unfold register, findUserByEmail, findUserByUsername, createUser. run.
  walk; try (exists []; now rewrite app_nil_r).
  eexists. apply map_app.
Qed.

Lemma confirmation_keeps_hashes token code d :
  map credential (users (db (snd (confirmation env token code (start d)))))
  = map credential (users d).
Proof.
  unfold confirmation, findUserByTokenAndCode, confirmAccount. run.
  walk; try reflexivity; apply map_update_user, credential_confirm_now.
Qed.

Lemma login_keeps_hashes body d :
  map credential (users (db (snd (login q cfg V env body (start d)))))
  = map credential (users d).
Proof.
  unfold login, findUserByEmailOrUsername, updateUserLastLogin, updateRefreshToken. run.
  walk; try reflexivity; now apply map_update_user.
Qed.

Lemma logout_keeps_users au ck d :
  users (db (snd (logout cfg au ck (start d)))) = users d.
Proof.
  unfold logout, deleteRefreshToken, clearAuthCookies. run.
  walk; reflexivity.
Qed.

Lemma forgotPassword_keeps_users body d :
  users (db (snd (forgotPassword V env body (start d)))) = users d.
Proof.
  unfold forgotPassword, findUserByEmailOrUsername, saveResetPasswordCode. run.
  walk; reflexivity.
Qed.

End Footprints.

(** X4. Only login and logout write the refresh-token table: every other
    request, a password reset or change included, leaves each stored refresh
    token as it was. *)
Theorem only_login_and_logout_write_tokens (q : Quicker) (cfg : Config) (V : Validation)
    (env : Env) (req : Request) (d : Db) :
  match req with Login _ | Logout _ _ => False | _ => True end ->
  refreshTokens (db (snd (handle q cfg V env req (start d)))) = refreshTokens d.
Proof.
  destruct req; simpl; intros Hreq; try contradiction.
  - apply register_keeps_tokens.
  - apply confirmation_keeps_tokens.
  - now rewrite refreshToken_keeps_store.
  - apply forgotPassword_keeps_tokens.
  - apply resetPassword_keeps_tokens.
  - apply changePassword_keeps_tokens.
Qed.

Lemma only_login_and_logout_write_tokens_witness :
  refreshTokens
    (db (snd (handle Demo.quicker Demo.config Demo.validation (Demo.env 5 true)
                (ChangePassword Demo.ana_identity
                   {| pb_email := None; pb_oldPassword := Some "Secret123!";
                      pb_newPassword := Some "Other1234";
                      pb_confirmNewPassword := Some "Other1234" |})
                (start (Demo.signed_in "rs|u1|first")))))
  = refreshTokens (Demo.signed_in "rs|u1|first").
Proof.
  apply (only_login_and_logout_write_tokens Demo.quicker Demo.config Demo.validation
           (Demo.env 5 true)
           (ChangePassword Demo.ana_identity
              {| pb_email := None; pb_oldPassword := Some "Secret123!";
                 pb_newPassword := Some "Other1234";
                 pb_confirmNewPassword := Some "Other1234" |})).
  exact I.
Defined.

(** X5. Only reset-password and change-password write a stored hash: after
    any other request every account of before has the hash it had (a
    registration adds the hash of the new account behind them). *)
Theorem only_password_flows_write_hashes (q : Quicker) (cfg : Config) (V : Validation)
    (env : Env) (req : Request) (d : Db) :
  match req with ResetPassword _ _ | ChangePassword _ _ => False | _ => True end ->
  exists extra,
    map credential (users (db (snd (handle q cfg V env req (start d)))))
    = map credential (users d) ++ extra.
Proof.
  destruct req; simpl; intros Hreq; try contradiction.
  - apply register_keeps_hashes.
  - exists []. rewrite app_nil_r. apply confirmation_keeps_hashes.
  - exists []. rewrite app_nil_r. apply login_keeps_hashes.
  - exists []. now rewrite app_nil_r, logout_keeps_users.
  - exists []. now rewrite app_nil_r, refreshToken_keeps_store.
  - exists []. now rewrite app_nil_r, forgotPassword_keeps_users.
Qed.

Lemma only_password_flows_write_hashes_witness :
  exists extra,
    map credential
      (users (db (snd (handle Demo.quicker Demo.config Demo.validation (Demo.env 5 true)
                         (Login (Demo.credentials "Secret123!"))
                         (start (Demo.with_ana true))))))
    = map credential (users (Demo.with_ana true)) ++ extra.
Proof.
  apply (only_password_flows_write_hashes Demo.quicker Demo.config Demo.validation
           (Demo.env 5 true) (Login (Demo.credentials "Secret123!"))).
  exact I.
Defined.

(** ** The two schemas of [userTypes.ts] *)



Lemma app_nil_iff {A} (l l' : list A) : l ++ l' = [] <-> l = [] /\ l' = [].
Proof.
  split; [apply app_eq_nil | intros [-> ->]; reflexivity].
Qed.





(** ** Registration *)

Lemma find_of_In {A} (p : A -> bool) (l : list A) (x : A) :
  In x l -> p x = true -> exists y, find p l = Some y.
Proof.
  intros Hin Hp. destruct (find p l) as [y|] eqn:Hf; [eauto|].
  rewrite (find_none _ _ Hf x Hin) in Hp. discriminate.
Qed.

Lemma find_none_of_all {A} (p : A -> bool) (l : list A) :
  (forall x, In x l -> p x = false) -> find p l = None.
Proof.
  intros Hall. destruct (find p l) as [y|] eqn:Hf; [|reflexivity].
  apply find_some in Hf as [Hin Hp]. rewrite (Hall y Hin) in Hp. discriminate.
Qed.

Lemma find_app_none {A} (p : A -> bool) (l l' : list A) :
  find p l = None -> find p (l ++ l') = find p l'.
Proof.
  induction l as [|x l IH]; simpl; [reflexivity|].
  destruct (p x); [discriminate | exact IH].
Qed.

Lemma eqb_false_of_neq (a b : string) : a <> b -> String.eqb a b = false.
Proof. intros H. now apply String.eqb_neq. Qed.

(** X8. A registration whose e-mail is taken is refused with 400
    [ENTITY_EXISTS("User")] after the e-mail lookup alone; one whose e-mail is
    free and whose username is taken is refused with 400 [USERNAME_TAKEN].
    Either way the store is untouched and no mail is sent. *)
Theorem register_refuses_duplicates (q : Quicker) (V : Validation) (env : Env)
    (body : RegisterBody) (d : Db) (data : RegisterUserType) :
  registerUserSchema V body = Success data ->
  ((exists u, In u (users d) /\ email u = r_email data) ->
   register q V env body (start d)
   = (HttpError BAD_REQUEST (ENTITY_EXISTS "User"),
      {| db := d; cookies := []; trace := [Store FindUserByEmail (r_email data)] |}))
  /\ ((forall u, In u (users d) -> email u <> r_email data) ->
      (exists u, In u (users d) /\ username u = r_username data) ->
      register q V env body (start d)
      = (HttpError BAD_REQUEST (Msg USERNAME_TAKEN),
         {| db := d; cookies := [];
            trace := [Store FindUserByEmail (r_email data);
                      Store FindUserByUsername (r_username data)] |})).
Proof.
  intros Hp. split.
  - intros (u & Hin & He).
    destruct (find_of_In (fun u => String.eqb (email u) (r_email data)) _ u Hin) as [y Hy].
    { rewrite He. apply String.eqb_refl. }
    unfold register. rewrite Hp. unfold findUserByEmail. run. simpl. now rewrite Hy.
  - intros Hfree (u & Hin & Hu).
    destruct (find_of_In (fun u => String.eqb (username u) (r_username data)) _ u Hin)
      as [y Hy].
    { rewrite Hu. apply String.eqb_refl. }
    unfold register. rewrite Hp. unfold findUserByEmail, findUserByUsername. run. simpl.
    rewrite (find_none_of_all (fun u => String.eqb (email u) (r_email data))).
    + simpl. now rewrite Hy.
    + intros x Hx. apply eqb_false_of_neq. now apply Hfree.
Qed.

Lemma register_refuses_duplicates_witness :
  register Demo.quicker Demo.validation (Demo.env 5 true)
    {| rb_name := Some "Ana"; rb_email := Some "ana@x.com";
       rb_username := Some "other"; rb_password := Some "Secret123!" |}
    (start (Demo.with_ana false))
  = (HttpError BAD_REQUEST (ENTITY_EXISTS "User"),
     {| db := Demo.with_ana false; cookies := [];
        trace := [Store FindUserByEmail "ana@x.com"] |}).
Proof.
  apply (proj1 (register_refuses_duplicates Demo.quicker Demo.validation (Demo.env 5 true)
                  {| rb_name := Some "Ana"; rb_email := Some "ana@x.com";
                     rb_username := Some "other"; rb_password := Some "Secret123!" |}
                  (Demo.with_ana false)
                  {| r_name := "Ana"; r_email := "ana@x.com";
                     r_username := "other"; r_password := "Secret123!" |} eq_refl)).
  exists (Demo.ana false). split; [left|]; reflexivity.
Defined.

Section RegisterSuccess.

Variable q : Quicker.
Variable V : Validation.
Variable env : Env.

Lemma register_success body d data :
  registerUserSchema V body = Success data ->
  fresh_registration env data d ->
  mailer env (verification_mail env data) = None ->
  register q V env body (start d)
  = (HttpResponse CREATED (Text "User registered successfully")
       (CreatedUser_json
          {| cu_userId := newUserId env; cu_name := r_name data; cu_email := r_email data;
             cu_username := r_username data;
             cu_accountConfirmation :=
               Some {| ac_token := randomToken env; ac_code := otp env;
                       ac_timestamp := None; isVerified := false |} |}),
     {| db := registered q env data d; cookies := [];
        trace := [Store FindUserByEmail (r_email data);
                  Store FindUserByUsername (r_username data);
                  Email (verification_mail env data) true;
                  Store CreateUser (r_email data)] |}).
Proof.
  intros Hp Hfresh Hmail.
  unfold register. rewrite Hp. unfold findUserByEmail, findUserByUsername. run. simpl.
  rewrite (find_none_of_all (fun u => String.eqb (email u) (r_email data))).
  2:{ intros x Hx. apply eqb_false_of_neq. apply (Hfresh x Hx). }
  simpl.
  rewrite (find_none_of_all (fun u => String.eqb (username u) (r_username data))).
  2:{ intros x Hx. apply eqb_false_of_neq. apply (Hfresh x Hx). }
  simpl. fold (verification_mail env data). rewrite Hmail.
  unfold createUser. run. simpl.
  match goal with |- context [existsb ?p (users d)] =>
    assert (Hex : existsb p (users d) = false) end.
  { destruct (existsb _ (users d)) eqn:Hex; [|reflexivity].
    apply existsb_exists in Hex as (x & Hx & Hc).
    destruct (Hfresh x Hx) as (Hi & He & Hu & _).
    rewrite (eqb_false_of_neq _ _ Hi), (eqb_false_of_neq _ _ He),
      (eqb_false_of_neq _ _ Hu) in Hc. discriminate. }
  rewrite Hex. reflexivity.
Qed.

End RegisterSuccess.

(** ** Confirmation *)

Lemma find_has_id_unique (l : list User) (u : User) :
  List.NoDup (map userId l) -> In u l -> find (has_id (userId u)) l = Some u.
Proof.
  intros Hnd Hin. destruct (find_has_id_of_In l u Hin) as [u' Hu'].
  rewrite Hu'. f_equal.
  apply find_has_id_sound in Hu' as [Hin' Hid].
  exact (unique_key_row userId l u' u Hnd Hin' Hin Hid).
Qed.

(** A confirmation that finds an unverified account: the store is written,
    then the mail is sent. *)
Lemma confirmation_found (env : Env) (token code : string) (d : Db) (u : User) :
  find (matches_token_code token code) (users d) = Some u ->
  find (has_id (userId u)) (users d) = Some u ->
  verified u = false ->
  userId u <> "" ->
  confirmation env token code (start d)
  = match mailer env (confirmed_mail u) with
    | None =>
        (HttpResponse OK (Text "Account confirmed successfully")
           (JObj [("user", User_json (confirm_now (now env) u))]),
         {| db := confirmed (userId u) (now env) d; cookies := [];
            trace := [Store FindUserByTokenAndCode token; Store ConfirmAccount (userId u);
                      Email (confirmed_mail u) true] |})
    | Some e =>
        (HttpError default_status (Text e),
         {| db := confirmed (userId u) (now env) d; cookies := [];
            trace := [Store FindUserByTokenAndCode token; Store ConfirmAccount (userId u);
                      Email (confirmed_mail u) false] |})
    end.
Proof.
  intros Hf Hid Hv Hne.
  unfold confirmation, findUserByTokenAndCode. run. simpl. rewrite Hf. simpl.
  pose proof Hf as Hm. apply find_some in Hm as [_ Hm].
  unfold matches_token_code in Hm. unfold verified in Hv.
  destruct (accountConfirmation u) as [c|] eqn:Hc; [|discriminate].
  rewrite Hv. apply String.eqb_neq in Hne. rewrite Hne.
  unfold confirmAccount. run. simpl. rewrite Hid, Hc. simpl.
  unfold confirmed_mail, confirm_now. rewrite Hc. simpl.
  destruct (mailer env _); reflexivity.
Qed.

(** X9. [confirmation] writes before it mails: when the account-confirmed
    mail cannot be sent, the reply is an error carrying the mailer's message,
    yet the account is verified in the store, and the same pair sent again is
    answered 400 [ACCOUNT_ALREADY_VERIFIED]. *)
Theorem confirmation_writes_before_it_mails (env : Env) (token code : string) (d : Db)
    (u : User) (e : string) :
  List.NoDup (map userId (users d)) ->
  find (matches_token_code token code) (users d) = Some u ->
  verified u = false ->
  userId u <> "" ->
  mailer env (confirmed_mail u) = Some e ->
  fst (confirmation env token code (start d)) = HttpError default_status (Text e)
  /\ db (snd (confirmation env token code (start d))) = confirmed (userId u) (now env) d
  /\ In (confirm_now (now env) u) (users (db (snd (confirmation env token code (start d)))))
  /\ verified (confirm_now (now env) u) = true
  /\ forall env',
       fst (confirmation env' token code
              (start (db (snd (confirmation env token code (start d))))))
       = HttpError BAD_REQUEST (Msg ACCOUNT_ALREADY_VERIFIED).
Proof.
  intros Hnd Hf Hv Hne Hmail.
  pose proof Hf as Hm. apply find_some in Hm as [Hin Hm].
  rewrite (confirmation_found env token code d u Hf (find_has_id_unique _ _ Hnd Hin) Hv Hne).
  rewrite Hmail. simpl.
  split; [reflexivity|]. split; [reflexivity|]. split; [|split].
  - unfold update_user. apply in_map_iff. exists u. split; [|assumption].
    unfold has_id. now rewrite String.eqb_refl.
  - now apply (verified_confirm_now token code).
  - intros env'.
    destruct (find_token_code_after_confirm token code (userId u) (now env) (users d) u
                Hf eq_refl) as (u' & Hf' & Hv').
    now rewrite (confirmation_already_verified env' token code
                   (confirmed (userId u) (now env) d) u' Hf' Hv').
Qed.

Lemma confirmation_writes_before_it_mails_witness :
  fst (confirmation (Demo.env 5 false) "tok-1" "123456" (start (Demo.with_ana false)))
  = HttpError default_status (Text "SMTP unreachable")
  /\ verified (confirm_now 5 (Demo.ana false)) = true.
Proof.
  destruct (confirmation_writes_before_it_mails (Demo.env 5 false) "tok-1" "123456"
              (Demo.with_ana false) (Demo.ana false) "SMTP unreachable")
    as (Hr & _ & _ & Hv & _).
  - simpl. repeat constructor. intros [].
  - reflexivity.
  - reflexivity.
  - discriminate.
  - reflexivity.
  - split; [exact Hr | exact Hv].
Defined.

(** ** From registration to the first login *)

Lemma update_user_absent (id : string) (f : User -> User) (l : list User) :
  (forall u, In u l -> userId u <> id) -> update_user id f l = l.
Proof.
  intros Hall. unfold update_user. induction l as [|x l IH]; simpl; [reflexivity|].
  unfold has_id at 1. rewrite (eqb_false_of_neq _ _ (Hall x (or_introl eq_refl))).
  f_equal. apply IH. intros u Hu. apply Hall. now right.
Qed.

Lemma register_password_in_bounds (V : Validation) (body : RegisterBody)
    (data : RegisterUserType) :
  registerUserSchema V body = Success data ->
  string_issues V "Password" (MIN_PASSWORD_LENGTH V) (MAX_PASSWORD_LENGTH V)
    (Some (r_password data)) = [].
Proof.
  unfold registerUserSchema. intros H.
  destruct (rb_name body) as [n|], (rb_email body) as [e|],
    (rb_username body) as [u|], (rb_password body) as [p|];
    match type of H with
    | match ?i with _ => _ end = _ => destruct i eqn:Hi
    end; try discriminate.
  injection H as <-. simpl.
  apply app_nil_iff in Hi as [_ Hi]. apply app_nil_iff in Hi as [_ Hi].
  apply app_nil_iff in Hi as [_ Hi]. exact Hi.
Qed.

Lemma login_body_passes (V : Validation) (body : RegisterBody) (data : RegisterUserType)
    (key : string) :
  registerUserSchema V body = Success data ->
  loginUserSchema V (login_body key (r_password data))
  = Success {| l_email := key; l_password := r_password data |}.
Proof.
  intros Hp. unfold loginUserSchema, login_body.
  cbn [lb_email lb_password plain_issues app].
  now rewrite (register_password_in_bounds V body data Hp).
Qed.

Section FirstLogin.

Variable q : Quicker.
Variable cfg : Config.
Variable V : Validation.
Variables env1 env2 : Env.
Variable body : RegisterBody.
Variable data : RegisterUserType.
Variable d : Db.

Hypothesis Hparsed : registerUserSchema V body = Success data.
Hypothesis Hfresh : fresh_registration env1 data d.
Hypothesis Hmail : mailer env1 (verification_mail env1 data) = None.

Lemma find_id_registered :
  find (has_id (newUserId env1)) (users (registered q env1 data d))
  = Some (registered_row q env1 data).
Proof.
  simpl. rewrite find_app_none.
  - simpl. unfold has_id. simpl. now rewrite String.eqb_refl.
  - apply find_none_of_all. intros x Hx. apply eqb_false_of_neq. apply (Hfresh x Hx).
Qed.

Lemma find_key_registered_before (l : list User) :
  find (matches_key (r_email data)) (users d ++ l)
  = find (matches_key (r_email data)) l.
Proof.
  apply find_app_none, find_none_of_all. intros x Hx. unfold matches_key.
  destruct (Hfresh x Hx) as (_ & He & _ & Hu).
  now rewrite (eqb_false_of_neq _ _ He), (eqb_false_of_neq _ _ Hu).
Qed.

Hypothesis Hpair : forall u, In u (users d) ->
                             matches_token_code (randomToken env1) (otp env1) u = false.
Hypothesis Hid : newUserId env1 <> "".

Lemma find_pair_registered :
  find (matches_token_code (randomToken env1) (otp env1)) (users (registered q env1 data d))
  = Some (registered_row q env1 data).
Proof.
  simpl. rewrite find_app_none.
  - simpl. unfold matches_token_code. simpl. now rewrite !String.eqb_refl.
  - now apply find_none_of_all.
Qed.

Lemma confirmed_registered :
  confirmed (newUserId env1) (now env2) (registered q env1 data d)
  = set_users d (users d ++ [confirm_now (now env2) (registered_row q env1 data)]).
Proof.
  unfold confirmed, registered, set_users. simpl. f_equal.
  unfold update_user. rewrite map_app. f_equal.
  - apply (update_user_absent (newUserId env1)). intros u Hu. apply (Hfresh u Hu).
  - simpl. unfold has_id. simpl. now rewrite String.eqb_refl.
Qed.

Lemma register_then_confirmation :
  confirmation env2 (randomToken env1) (otp env1)
    (start (db (snd (register q V env1 body (start d)))))
  = match mailer env2 (confirmed_mail (registered_row q env1 data)) with
    | None =>
        (HttpResponse OK (Text "Account confirmed successfully")
           (JObj [("user", User_json (confirm_now (now env2) (registered_row q env1 data)))]),
         {| db := set_users d
                    (users d ++ [confirm_now (now env2) (registered_row q env1 data)]);
            cookies := [];
            trace := [Store FindUserByTokenAndCode (randomToken env1);
                      Store ConfirmAccount (newUserId env1);
                      Email (confirmed_mail (registered_row q env1 data)) true] |})
    | Some e =>
        (HttpError default_status (Text e),
         {| db := set_users d
                    (users d ++ [confirm_now (now env2) (registered_row q env1 data)]);
            cookies := [];
            trace := [Store FindUserByTokenAndCode (randomToken env1);
                      Store ConfirmAccount (newUserId env1);
                      Email (confirmed_mail (registered_row q env1 data)) false] |})
    end.
Proof.
  rewrite (register_success q V env1 body d data Hparsed Hfresh Hmail). simpl.
  rewrite (confirmation_found env2 (randomToken env1) (otp env1) (registered q env1 data d)
             (registered_row q env1 data) find_pair_registered find_id_registered
             eq_refl Hid).
  simpl. rewrite confirmed_registered. reflexivity.
Qed.

End FirstLogin.

(** X10. Registration and confirmation fit together: after a registration
    that clashes with no account, a confirmation with the token and the code
    of the verification mail finds the new account (no older account carrying
    the same pair), marks exactly that account verified and, when its mail
    goes out, replies 200 with it. *)
Theorem register_then_confirm (q : Quicker) (V : Validation) (env1 env2 : Env)
    (body : RegisterBody) (data : RegisterUserType) (d : Db) :
  registerUserSchema V body = Success data ->
  fresh_registration env1 data d ->
  mailer env1 (verification_mail env1 data) = None ->
  (forall u, In u (users d) ->
             matches_token_code (randomToken env1) (otp env1) u = false) ->
  newUserId env1 <> "" ->
  let after := confirmation env2 (randomToken env1) (otp env1)
                 (start (db (snd (register q V env1 body (start d))))) in
  db (snd after)
  = set_users d (users d ++ [confirm_now (now env2) (registered_row q env1 data)])
  /\ verified (confirm_now (now env2) (registered_row q env1 data)) = true
  /\ (mailer env2 (confirmed_mail (registered_row q env1 data)) = None ->
      fst after
      = HttpResponse OK (Text "Account confirmed successfully")
          (JObj [("user", User_json (confirm_now (now env2) (registered_row q env1 data)))])).
Proof.
  intros Hp Hfresh Hmail Hpair Hid after. subst after.
  rewrite (register_then_confirmation q V env1 env2 body data d Hp Hfresh Hmail Hpair Hid).
  split; [|split].
  - destruct (mailer env2 _); reflexivity.
  - reflexivity.
  - intros ->. reflexivity.
Qed.

Lemma register_then_confirm_witness :
  let body := {| rb_name := Some "Ana"; rb_email := Some "ana@x.com";
                 rb_username := Some "ana1"; rb_password := Some "Secret123!" |} in
  db (snd (confirmation (Demo.env 9 true) "tok-1" "123456"
             (start (db (snd (register Demo.quicker Demo.validation (Demo.env 5 true) body
                                (start Demo.empty)))))))
  = set_users Demo.empty [confirm_now 9 (Demo.ana false)].
Proof.
  intros body.
  refine (proj1 (register_then_confirm Demo.quicker Demo.validation (Demo.env 5 true)
                   (Demo.env 9 true) body
                   {| r_name := "Ana"; r_email := "ana@x.com"; r_username := "ana1";
                      r_password := "Secret123!" |} Demo.empty _ _ _ _ _)).
  - reflexivity.
  - intros u [].
  - reflexivity.
  - intros u [].
  - discriminate.
Defined.

(** X11. A registered account can log in once it is confirmed, and not
    before: with the e-mail and the password of a registration that clashed
    with no account, a login is answered 401 [INVALID_CREDENTIALS] until the
    account is confirmed; after the confirmation it succeeds as that account
    and stores the refresh token it issued.  (The hasher is assumed to accept
    the password it hashed.) *)
Theorem registered_account_logs_in_once_confirmed (q : Quicker) (cfg : Config)
    (V : Validation) (env1 env2 env3 : Env) (body : RegisterBody)
    (data : RegisterUserType) (d : Db) :
  registerUserSchema V body = Success data ->
  fresh_registration env1 data d ->
  mailer env1 (verification_mail env1 data) = None ->
  (forall u, In u (users d) ->
             matches_token_code (randomToken env1) (otp env1) u = false) ->
  newUserId env1 <> "" ->
  comparePassword q (r_password data) (hashPassword q (salt env1) (r_password data)) = true ->
  let d1 := db (snd (register q V env1 body (start d))) in
  let d2 := db (snd (confirmation env2 (randomToken env1) (otp env1) (start d1))) in
  let attempt := login_body (r_email data) (r_password data) in
  fst (login q cfg V env3 attempt (start d1)) = invalid_credentials
  /\ logged_in_as (fst (login q cfg V env3 attempt (start d2))) (registered_row q env1 data)
  /\ stored_refresh (db (snd (login q cfg V env3 attempt (start d2)))) (newUserId env1)
     = Some (issued_refresh q cfg env3 (registered_row q env1 data)).
Proof.
  intros Hp Hfresh Hmail Hpair Hid Hhash d1 d2 attempt.
  pose proof (login_body_passes V body data (r_email data) Hp) as Hlogin.
  assert (Hd1 : d1 = registered q env1 data d).
  { unfold d1. now rewrite (register_success q V env1 body d data Hp Hfresh Hmail). }
  assert (Hd2 : d2 = set_users d
                       (users d ++ [confirm_now (now env2) (registered_row q env1 data)])).
  { unfold d2, d1.
    rewrite (register_then_confirmation q V env1 env2 body data d Hp Hfresh Hmail Hpair Hid).
    destruct (mailer env2 _); reflexivity. }
  split.
  - rewrite (login_unknown q cfg V env3 attempt d1 _ Hlogin); [reflexivity|].
    rewrite Hd1. simpl. rewrite (find_key_registered_before env1 data d Hfresh).
    simpl. unfold matches_key, verified. simpl. now rewrite andb_false_r.
  - assert (Hf : find (matches_key (r_email data)) (users d2)
                 = Some (confirm_now (now env2) (registered_row q env1 data))).
    { rewrite Hd2. simpl. rewrite (find_key_registered_before env1 data d Hfresh).
      simpl. unfold matches_key, verified. simpl. now rewrite String.eqb_refl. }
    rewrite (login_success q cfg V env3 attempt d2 _ _ Hlogin Hf Hhash). simpl.
    split; [reflexivity|].
    unfold stored_refresh. simpl. now rewrite lookup_insert_eq.
Qed.

Lemma registered_account_logs_in_once_confirmed_witness :
  let body := {| rb_name := Some "Ana"; rb_email := Some "ana@x.com";
                 rb_username := Some "ana1"; rb_password := Some "Secret123!" |} in
  let d1 := db (snd (register Demo.quicker Demo.validation (Demo.env 5 true) body
                       (start Demo.empty))) in
  fst (login Demo.quicker Demo.config Demo.validation (Demo.env 20 true)
         (login_body "ana@x.com" "Secret123!") (start d1))
  = invalid_credentials.
Proof.
  intros body.
  refine (proj1 (registered_account_logs_in_once_confirmed Demo.quicker Demo.config
                   Demo.validation (Demo.env 5 true) (Demo.env 9 true) (Demo.env 20 true)
                   body
                   {| r_name := "Ana"; r_email := "ana@x.com"; r_username := "ana1";
                      r_password := "Secret123!" |} Demo.empty _ _ _ _ _ _)).
  - reflexivity.
  - intros u [].
  - reflexivity.
  - intros u [].
  - discriminate.
  - reflexivity.
Defined.

(** X12. A login succeeds only for a verified account that has the key as
    its e-mail or its username and whose stored hash accepts the password;
    the reply then names that account. *)
Theorem login_needs_a_verified_account (q : Quicker) (cfg : Config) (V : Validation)
    (env : Env) (body : LoginBody) (d : Db) :
  is_success (fst (login q cfg V env body (start d))) = true ->
  exists data user,
    loginUserSchema V body = Success data
    /\ In user (users d)
    /\ (email user = l_email data \/ username user = l_email data)
    /\ verified user = true
    /\ comparePassword q (l_password data) (password user) = true
    /\ logged_in_as (fst (login q cfg V env body (start d))) user.
Proof.
  intros Hok.
  destruct (login_success_inv q cfg V env body d _ _ (surjective_pairing _) Hok)
    as (data & user & Hp & Hf & Hc).
  exists data, user. split; [assumption|].
  pose proof Hf as Hm. apply find_some in Hm as [Hin Hm].
  unfold matches_key in Hm. apply andb_prop in Hm as [Hk Hv].
  split; [assumption|]. split.
  { apply orb_prop in Hk as [Hk|Hk]; apply String.eqb_eq in Hk; auto. }
  split; [assumption|]. split; [assumption|].
  now rewrite (login_success q cfg V env body d data user Hp Hf Hc).
Qed.

Lemma login_needs_a_verified_account_witness :
  exists data user,
    loginUserSchema Demo.validation (Demo.credentials "Secret123!") = Success data
    /\ In user (users (Demo.with_ana true))
    /\ (email user = l_email data \/ username user = l_email data)
    /\ verified user = true
    /\ comparePassword Demo.quicker (l_password data) (password user) = true
    /\ logged_in_as
         (fst (login Demo.quicker Demo.config Demo.validation (Demo.env 5 true)
                 (Demo.credentials "Secret123!") (start (Demo.with_ana true)))) user.
Proof.
  apply (login_needs_a_verified_account Demo.quicker Demo.config Demo.validation
           (Demo.env 5 true) (Demo.credentials "Secret123!") (Demo.with_ana true)).
  reflexivity.
Defined.

(** ** Cookies *)

Section Cookies.

Variable q : Quicker.
Variable cfg : Config.
Variable V : Validation.
Variable env : Env.

Lemma register_cookies body d : cookies (snd (register q V env body (start d))) = [].
Proof.
  unfold register, findUserByEmail, findUserByUsername, createUser. run.
  walk; reflexivity.
Qed.

Lemma confirmation_cookies token code d :
  cookies (snd (confirmation env token code (start d))) = [].
Proof.
  unfold confirmation, findUserByTokenAndCode, confirmAccount. run.
  walk; reflexivity.
Qed.

Lemma forgotPassword_cookies body d :
  cookies (snd (forgotPassword V env body (start d))) = [].
Proof.
  unfold forgotPassword, findUserByEmailOrUsername, saveResetPasswordCode. run.
  walk; reflexivity.
Qed.

Lemma resetPassword_cookies token body d :
  cookies (snd (resetPassword q V env token body (start d))) = [].
Proof.
  unfold resetPassword, findUserByResetToken, findUserById, getExpiryTime,
    getPasswordbyUserId, updateUserPasswordbyId, clearResetTokenAndExpiry. run.
  walk; reflexivity.
Qed.

Lemma changePassword_cookies au body d :
  cookies (snd (changePassword q V env au body (start d))) = [].
Proof.
  unfold changePassword, getPasswordbyUserId, changePasswordbyUserId,
    updateLastPasswordChange. run.
  walk; reflexivity.
Qed.

Lemma login_cookies body d :
  cookies (snd (login q cfg V env body (start d))) = []
  \/ (is_success (fst (login q cfg V env body (start d))) = true
      /\ exists a r,
           cookies (snd (login q cfg V env body (start d)))
           = [SetCookie "accessToken" a
                (session_cookie cfg (Some (AsConfigured (ACCESS_TOKEN_EXPIRY cfg))) None);
              SetCookie "refreshToken" r
                (session_cookie cfg (Some (AsConfigured (REFRESH_TOKEN_EXPIRY cfg))) None)]).
Proof.
  unfold login, findUserByEmailOrUsername, updateUserLastLogin, updateRefreshToken. run.
  walk; first [left; reflexivity | right; split; [reflexivity | eauto]].
Qed.

Lemma logout_cookies au ck d :
  cookies (snd (logout cfg au ck (start d))) = []
  \/ (is_success (fst (logout cfg au ck (start d))) = true
      /\ cookies (snd (logout cfg au ck (start d))) = cleared_cookies cfg).
Proof.
  unfold logout, clearAuthCookies, deleteRefreshToken. run.
  walk; first [left; reflexivity | right; split; reflexivity].
Qed.

Lemma refreshToken_cookies ck d :
  cookies (snd (refreshToken q cfg env ck (start d))) = []
  \/ (is_success (fst (refreshToken q cfg env ck (start d))) = true
      /\ exists a,
           cookies (snd (refreshToken q cfg env ck (start d)))
           = [SetCookie "accessToken" a
                (session_cookie cfg (Some (AsNumber (ACCESS_TOKEN_EXPIRY cfg))) None)]).
Proof.
  unfold refreshToken, getRefreshToken. run.
  walk; first [left; reflexivity | right; split; [reflexivity | eauto]].
Qed.

End Cookies.

Lemma session_cookie_attributes (cfg : Config) (age : option MaxAge) (exp : option Z) :
  session_attributes cfg (session_cookie cfg age exp).
Proof. unfold session_attributes, session_cookie, secure_flag. simpl. auto. Qed.

(** X13. Cookies are touched on success only, and always with the same
    attributes: a request answered with an error sets and clears no cookie;
    every cookie set or cleared is [accessToken] or [refreshToken], with path
    "/api/v1/user", the configured domain, sameSite "lax", httpOnly, and
    secure unless ENV is "development"; and only login, logout and refresh
    touch cookies at all. *)
Theorem cookies_are_session_cookies (q : Quicker) (cfg : Config) (V : Validation)
    (env : Env) (req : Request) (d : Db) :
  (is_success (fst (handle q cfg V env req (start d))) = false ->
   cookies (snd (handle q cfg V env req (start d))) = [])
  /\ (forall c, In c (cookies (snd (handle q cfg V env req (start d)))) ->
                session_attributes cfg (cookie_options c)
                /\ (cookie_name c = "accessToken" \/ cookie_name c = "refreshToken"))
  /\ (match req with Login _ | Logout _ _ | Refresh _ => False | _ => True end ->
      cookies (snd (handle q cfg V env req (start d))) = []).
Proof.
  assert (Hnone : forall out : Reply * World,
            cookies (snd out) = [] ->
            (is_success (fst out) = false -> cookies (snd out) = [])
            /\ (forall c, In c (cookies (snd out)) ->
                          session_attributes cfg (cookie_options c)
                          /\ (cookie_name c = "accessToken" \/ cookie_name c = "refreshToken"))).
  { intros out H. rewrite H. split; [reflexivity | intros c []]. }
  destruct req; simpl.
  - pose proof (register_cookies q V env body d) as H.
    destruct (Hnone _ H) as [H1 H2]. split; [exact H1 | split; [exact H2 | intros _; exact H]].
  - pose proof (confirmation_cookies env token code d) as H.
    destruct (Hnone _ H) as [H1 H2]. split; [exact H1 | split; [exact H2 | intros _; exact H]].
  - destruct (login_cookies q cfg V env body d) as [H | (Hok & a & r & H)].
    + destruct (Hnone _ H) as [H1 H2]. split; [exact H1 | split; [exact H2 | contradiction]].
    + split; [intros Hno; congruence|]. split; [|contradiction].
      rewrite H. intros c [<- | [<- | []]]; simpl;
        (split; [apply session_cookie_attributes | auto]).
  - destruct (logout_cookies cfg authenticatedUser ck d) as [H | (Hok & H)].
    + destruct (Hnone _ H) as [H1 H2]. split; [exact H1 | split; [exact H2 | contradiction]].
    + split; [intros Hno; congruence|]. split; [|contradiction].
      rewrite H. intros c [<- | [<- | []]]; simpl;
        (split; [apply session_cookie_attributes | auto]).
  - destruct (refreshToken_cookies q cfg env ck d) as [H | (Hok & a & H)].
    + destruct (Hnone _ H) as [H1 H2]. split; [exact H1 | split; [exact H2 | contradiction]].
    + split; [intros Hno; congruence|]. split; [|contradiction].
      rewrite H. intros c [<- | []]; simpl;
        (split; [apply session_cookie_attributes | auto]).
  - pose proof (forgotPassword_cookies V env body d) as H.
    destruct (Hnone _ H) as [H1 H2]. split; [exact H1 | split; [exact H2 | intros _; exact H]].
  - pose proof (resetPassword_cookies q V env token body d) as H.
    destruct (Hnone _ H) as [H1 H2]. split; [exact H1 | split; [exact H2 | intros _; exact H]].
  - pose proof (changePassword_cookies q V env authenticatedUser body d) as H.
    destruct (Hnone _ H) as [H1 H2]. split; [exact H1 | split; [exact H2 | intros _; exact H]].
Qed.

Lemma cookies_are_session_cookies_witness :
  cookies (snd (handle Demo.quicker Demo.config Demo.validation (Demo.env 5 true)
                  (Login (Demo.credentials "wrong-password"))
                  (start (Demo.with_ana true))))
  = [].
Proof.
  apply (proj1 (cookies_are_session_cookies Demo.quicker Demo.config Demo.validation
                  (Demo.env 5 true) (Login (Demo.credentials "wrong-password"))
                  (Demo.with_ana true))).
  reflexivity.
Defined.

(** ** Refreshing a session *)

Lemma present_Some (c : option string) (t : string) :
  present c = Some t <-> c = Some t /\ t <> "".
Proof.
  unfold present, truthy. destruct c as [v|]; simpl.
  - destruct (String.eqb_spec v ""); simpl; split.
    + discriminate.
    + intros [[= ->] Hne]. contradiction.
    + intros [= ->]. auto.
    + intros [H _]. exact H.
  - split; [discriminate | intros [[=] _]].
Qed.

Lemma refreshToken_unverifiable (q : Quicker) (cfg : Config) (env : Env)
    (ck : RequestCookies) (d : Db) (token e : string) :
  truthy (ck_accessToken ck) = false ->
  ck_refreshToken ck = Some token ->
  token <> "" ->
  verifyToken q token (REFRESH_TOKEN_SECRET cfg) (now env) = inl e ->
  refreshToken q cfg env ck (start d)
  = (HttpError default_status (Text e),
     {| db := d; cookies := []; trace := [Verify token] |}).
Proof.
  intros Ha Hr Hne Hv. unfold refreshToken.
  rewrite Ha, Hr, (present_nonempty _ Hne). run. now rewrite Hv.
Qed.

Lemma refreshToken_accepted (q : Quicker) (cfg : Config) (env : Env)
    (ck : RequestCookies) (d : Db) (token : string) (claims : TokenPayload) :
  truthy (ck_accessToken ck) = false ->
  ck_refreshToken ck = Some token ->
  token <> "" ->
  verifyToken q token (REFRESH_TOKEN_SECRET cfg) (now env) = inr claims ->
  stored_refresh d (tp_userId claims) = Some token ->
  refreshToken q cfg env ck (start d)
  = (HttpResponse OK (Msg TOKEN_REFRESHED)
       (JObj [("accessToken",
               JStr ("Bearer " ++ generateToken q claims (ACCESS_TOKEN_SECRET cfg)
                                    (ACCESS_TOKEN_EXPIRY cfg) (now env))%string)]),
     {| db := d;
        cookies := [SetCookie "accessToken"
                      (generateToken q claims (ACCESS_TOKEN_SECRET cfg)
                         (ACCESS_TOKEN_EXPIRY cfg) (now env))
                      (session_cookie cfg (Some (AsNumber (ACCESS_TOKEN_EXPIRY cfg))) None)];
        trace := [Verify token; Store GetRefreshToken (tp_userId claims)] |}).
Proof.
  intros Ha Hr Hne Hv Hs.
  rewrite (refreshToken_checked q cfg env ck d token claims Ha Hr Hne Hv).
  unfold stored_refresh in Hs.
  destruct (refreshTokens d !! tp_userId claims) as [row|]; [|discriminate].
  simpl in Hs. injection Hs as Hs. rewrite Hs, String.eqb_refl. reflexivity.
Qed.

(** X14. A refresh succeeds exactly when there is no [accessToken] cookie,
    the [refreshToken] cookie is a non-empty token that verifies, and the
    record stored for the subject of its claims holds that very token.  It
    then sets one cookie, a new access token signed for the same claims, and
    writes nothing: the refresh token is not rotated. *)
Theorem refreshToken_succeeds_exactly_when (q : Quicker) (cfg : Config) (env : Env)
    (ck : RequestCookies) (d : Db) :
  (is_success (fst (refreshToken q cfg env ck (start d))) = true
   <-> truthy (ck_accessToken ck) = false
       /\ exists token claims,
            ck_refreshToken ck = Some token
            /\ token <> ""
            /\ verifyToken q token (REFRESH_TOKEN_SECRET cfg) (now env) = inr claims
            /\ stored_refresh d (tp_userId claims) = Some token)
  /\ (forall token claims,
        truthy (ck_accessToken ck) = false ->
        ck_refreshToken ck = Some token ->
        token <> "" ->
        verifyToken q token (REFRESH_TOKEN_SECRET cfg) (now env) = inr claims ->
        stored_refresh d (tp_userId claims) = Some token ->
        refreshToken q cfg env ck (start d)
        = (HttpResponse OK (Msg TOKEN_REFRESHED)
             (JObj [("accessToken",
                     JStr ("Bearer " ++ generateToken q claims (ACCESS_TOKEN_SECRET cfg)
                                          (ACCESS_TOKEN_EXPIRY cfg) (now env))%string)]),
           {| db := d;
              cookies := [SetCookie "accessToken"
                            (generateToken q claims (ACCESS_TOKEN_SECRET cfg)
                               (ACCESS_TOKEN_EXPIRY cfg) (now env))
                            (session_cookie cfg
                               (Some (AsNumber (ACCESS_TOKEN_EXPIRY cfg))) None)];
              trace := [Verify token; Store GetRefreshToken (tp_userId claims)] |})).
Proof.
  split; [split|].
  - intros Hok.
    destruct (truthy (ck_accessToken ck)) eqn:Ha.
    { rewrite refreshToken_access_denied in Hok by assumption. discriminate. }
    split; [reflexivity|].
    destruct (ck_refreshToken ck) as [token|] eqn:Hr.
    2:{ rewrite refreshToken_no_token in Hok; [discriminate | assumption |].
        now rewrite Hr. }
    destruct (String.eqb_spec token "") as [He|Hne].
    { rewrite refreshToken_no_token in Hok; [discriminate | assumption |].
      rewrite Hr, He. reflexivity. }
    destruct (verifyToken q token (REFRESH_TOKEN_SECRET cfg) (now env)) as [e|claims] eqn:Hv.
    { rewrite (refreshToken_unverifiable q cfg env ck d token e Ha Hr Hne Hv) in Hok.
      discriminate. }
    exists token, claims. repeat split; auto.
    exact (refreshToken_success_inv q cfg env ck d token claims Hr Hv Hok).
  - intros (Ha & token & claims & Hr & Hne & Hv & Hs).
    now rewrite (refreshToken_accepted q cfg env ck d token claims Ha Hr Hne Hv Hs).
  - intros token claims. apply refreshToken_accepted.
Qed.

Lemma refreshToken_succeeds_exactly_when_witness :
  is_success (fst (refreshToken Demo.quicker Demo.config (Demo.env 5 true)
                     (refresh_only "rs|u1|first") (start (Demo.signed_in "rs|u1|first"))))
  = true.
Proof.
  apply (proj1 (refreshToken_succeeds_exactly_when Demo.quicker Demo.config (Demo.env 5 true)
                  (refresh_only "rs|u1|first") (Demo.signed_in "rs|u1|first"))).
  split; [reflexivity|].
  exists "rs|u1|first",
    {| tp_userId := "u1"; tp_email := "ana@x.com"; tp_username := "ana1" |}.
  split; [reflexivity|]. split; [discriminate|]. split; reflexivity.
Defined.

(** X15. A refresh token that fails verification is answered with an error
    that carries the verifier's message; the store is not consulted (the
    trace holds the verification alone) and no cookie is set. *)
Theorem refreshToken_rejects_unverifiable_token (q : Quicker) (cfg : Config) (env : Env)
    (ck : RequestCookies) (d : Db) (token e : string) :
  truthy (ck_accessToken ck) = false ->
  present (ck_refreshToken ck) = Some token ->
  verifyToken q token (REFRESH_TOKEN_SECRET cfg) (now env) = inl e ->
  refreshToken q cfg env ck (start d)
  = (HttpError default_status (Text e),
     {| db := d; cookies := []; trace := [Verify token] |}).
Proof.
  intros Ha Hr Hv. apply present_Some in Hr as [Hr Hne].
  now apply refreshToken_unverifiable.
Qed.

Lemma refreshToken_rejects_unverifiable_token_witness :
  refreshToken Demo.quicker Demo.config (Demo.env 5 true) (refresh_only "forged")
    (start (Demo.signed_in "rs|u1|first"))
  = (HttpError default_status (Text "invalid signature"),
     {| db := Demo.signed_in "rs|u1|first"; cookies := []; trace := [Verify "forged"] |}).
Proof.
  apply (refreshToken_rejects_unverifiable_token Demo.quicker Demo.config (Demo.env 5 true)
           (refresh_only "forged") (Demo.signed_in "rs|u1|first") "forged"
           "invalid signature"); reflexivity.
Defined.

(** X16. Login and refresh fit together: the refresh token a login issued,
    sent back alone, is accepted as long as it verifies to the claims it was
    signed for; the reply carries a new access token for the same user, and
    the store stays as the login left it. *)
Theorem login_then_refresh (q : Quicker) (cfg : Config) (V : Validation)
    (env1 env2 : Env) (body : LoginBody) (d : Db) (data : LoginUserType) (user : User) :
  loginUserSchema V body = Success data ->
  find (matches_key (l_email data)) (users d) = Some user ->
  comparePassword q (l_password data) (password user) = true ->
  issued_refresh q cfg env1 user <> "" ->
  verifyToken q (issued_refresh q cfg env1 user) (REFRESH_TOKEN_SECRET cfg) (now env2)
  = inr (claims_of user) ->
  let d1 := db (snd (login q cfg V env1 body (start d))) in
  refreshToken q cfg env2 (refresh_only (issued_refresh q cfg env1 user)) (start d1)
  = (HttpResponse OK (Msg TOKEN_REFRESHED)
       (JObj [("accessToken", JStr ("Bearer " ++ issued_access q cfg env2 user)%string)]),
     {| db := d1;
        cookies := [SetCookie "accessToken" (issued_access q cfg env2 user)
                      (session_cookie cfg (Some (AsNumber (ACCESS_TOKEN_EXPIRY cfg))) None)];
        trace := [Verify (issued_refresh q cfg env1 user);
                  Store GetRefreshToken (userId user)] |}).
Proof.
  intros Hp Hf Hc Hne Hv d1.
  rewrite (refreshToken_accepted q cfg env2 (refresh_only (issued_refresh q cfg env1 user))
             d1 (issued_refresh q cfg env1 user) (claims_of user) eq_refl eq_refl Hne Hv).
  - reflexivity.
  - unfold d1. rewrite (login_success q cfg V env1 body d data user Hp Hf Hc).
    unfold stored_refresh. simpl. now rewrite lookup_insert_eq.
Qed.

Lemma login_then_refresh_witness :
  is_success
    (fst (refreshToken Demo.quicker Demo.config (Demo.env 9 true)
            (refresh_only (issued_refresh Demo.quicker Demo.config (Demo.env 5 true)
                             (Demo.ana true)))
            (start (db (snd (login Demo.quicker Demo.config Demo.validation (Demo.env 5 true)
                               (Demo.credentials "Secret123!")
                               (start (Demo.with_ana true))))))))
  = true.
Proof.
  rewrite (login_then_refresh Demo.quicker Demo.config Demo.validation (Demo.env 5 true)
             (Demo.env 9 true) (Demo.credentials "Secret123!") (Demo.with_ana true)
             {| l_email := "ana@x.com"; l_password := "Secret123!" |} (Demo.ana true)).
  - reflexivity.
  - reflexivity.
  - reflexivity.
  - reflexivity.
  - discriminate.
  - reflexivity.
Defined.

(** X17. Logout ends the session: after a login, a logout of that user that
    carries the refresh cookie is answered with success and deletes the
    stored record, and from then on no refresh token whose claims name that
    user is accepted, whatever it is. *)
Theorem logout_revokes_the_session (q : Quicker) (cfg : Config) (V : Validation)
    (env1 : Env) (body : LoginBody) (d : Db) (data : LoginUserType) (user : User)
    (au : AuthenticatedUser) (ck : RequestCookies) :
  loginUserSchema V body = Success data ->
  find (matches_key (l_email data)) (users d) = Some user ->
  comparePassword q (l_password data) (password user) = true ->
  au_userId au = userId user ->
  truthy (ck_refreshToken ck) = true ->
  let d1 := db (snd (login q cfg V env1 body (start d))) in
  let out := logout cfg au ck (start d1) in
  fst out = HttpResponse OK (Msg LOGOUT_SUCCESS) (JObj [])
  /\ stored_refresh (db (snd out)) (userId user) = None
  /\ forall env2 ck' token claims,
       ck_refreshToken ck' = Some token ->
       verifyToken q token (REFRESH_TOKEN_SECRET cfg) (now env2) = inr claims ->
       tp_userId claims = userId user ->
       is_success (fst (refreshToken q cfg env2 ck' (start (db (snd out))))) = false.
Proof.
  intros Hp Hf Hc Hau Hck d1 out.
  assert (Hout : out = (HttpResponse OK (Msg LOGOUT_SUCCESS) (JObj []),
                        {| db := set_refreshTokens d1 (delete (userId user) (refreshTokens d1));
                           cookies := cleared_cookies cfg;
                           trace := [Store DeleteRefreshToken (userId user)] |})).
  { unfold out. rewrite (logout_with_cookie cfg au ck d1 Hck), Hau.
    unfold d1. rewrite (login_success q cfg V env1 body d data user Hp Hf Hc).
    simpl. now rewrite lookup_insert_eq. }
  assert (Hgone : stored_refresh (db (snd out)) (userId user) = None).
  { rewrite Hout. unfold stored_refresh. simpl. now rewrite lookup_delete_eq. }
  split; [now rewrite Hout|]. split; [exact Hgone|].
  intros env2 ck' token claims Hr Hv Hsub.
  destruct (is_success (fst (refreshToken q cfg env2 ck' (start (db (snd out)))))) eqn:Hok;
    [|reflexivity].
  pose proof (refreshToken_success_inv q cfg env2 ck' _ token claims Hr Hv Hok) as Hs.
  rewrite Hsub, Hgone in Hs. discriminate.
Qed.

Lemma logout_revokes_the_session_witness :
  stored_refresh
    (db (snd (logout Demo.config Demo.ana_identity (refresh_only "rs|u1|first")
                (start (db (snd (login Demo.quicker Demo.config Demo.validation
                                   (Demo.env 5 true) (Demo.credentials "Secret123!")
                                   (start (Demo.with_ana true)))))))))
    "u1"
  = None.
Proof.
  refine (proj1 (proj2 (logout_revokes_the_session Demo.quicker Demo.config Demo.validation
                          (Demo.env 5 true) (Demo.credentials "Secret123!")
                          (Demo.with_ana true)
                          {| l_email := "ana@x.com"; l_password := "Secret123!" |}
                          (Demo.ana true) Demo.ana_identity (refresh_only "rs|u1|first")
                          _ _ _ _ _))); reflexivity.
Defined.

(** ** Asking for a reset link *)

Lemma forgotPassword_found (V : Validation) (env : Env) (body : PasswordBody) (d : Db)
    (address : string) (u : User) :
  forgotPasswordSchema V body = Success address ->
  find (matches_key address) (users d) = Some u ->
  forgotPassword V env body (start d)
  = let d' := saved_reset (userId u) (randomToken env)
                (generateExpirationTime (now env) 15) d in
    match mailer env (reset_link env u) with
    | None =>
        (HttpResponse OK (Text "Forgot password") (JObj []),
         {| db := d'; cookies := [];
            trace := [Store FindUserByEmailOrUsername address;
                      Store SaveResetPasswordCode (userId u);
                      Email (reset_link env u) true] |})
    | Some e =>
        (HttpError default_status (Text e),
         {| db := d'; cookies := [];
            trace := [Store FindUserByEmailOrUsername address;
                      Store SaveResetPasswordCode (userId u);
                      Email (reset_link env u) false] |})
    end.
Proof.
  intros Hp Hf. unfold forgotPassword. rewrite Hp.
  unfold findUserByEmailOrUsername, saveResetPasswordCode. run. simpl. rewrite Hf.
  unfold saved_reset, reset_link. simpl.
  destruct (existsb (owned_by (userId u)) (passwordRecoveries d)); simpl;
    destruct (mailer env _); reflexivity.
Qed.

Lemma saved_reset_rows (id token : string) (date : Z) (d : Db) :
  (exists r, In r (passwordRecoveries (saved_reset id token date d))
             /\ owned_by id r = true)
  /\ (forall r, In r (passwordRecoveries (saved_reset id token date d)) ->
                owned_by id r = true ->
                pr_token r = Some token /\ expiry r = Some date)
  /\ (forall r, owned_by id r = false ->
                In r (passwordRecoveries (saved_reset id token date d))
                <-> In r (passwordRecoveries d)).
Proof.
  unfold saved_reset. simpl.
  destruct (existsb (owned_by id) (passwordRecoveries d)) eqn:Hex.
  - split; [|split].
    + apply existsb_exists in Hex as (x & Hin & Hx).
      exists (with_reset (Some token) (Some date) x). split; [|exact Hx].
      unfold update_recovery. apply in_map_iff. exists x. now rewrite Hx.
    + intros r Hin Ho. unfold update_recovery in Hin.
      apply in_map_iff in Hin as (y & <- & Hy).
      destruct (owned_by id y) eqn:Hoy; [split; reflexivity | congruence].
    + intros r Ho. unfold update_recovery. rewrite in_map_iff. split.
      * intros (y & <- & Hy). destruct (owned_by id y) eqn:Hoy; [|assumption].
        unfold owned_by in Ho, Hoy. simpl in Ho. congruence.
      * intros Hin. exists r. now rewrite Ho.
  - split; [|split].
    + eexists. split; [apply in_or_app; right; left; reflexivity|].
      unfold owned_by. simpl. apply String.eqb_refl.
    + intros r Hin Ho. apply in_app_or in Hin as [Hin | [<- | []]].
      * exfalso. assert (existsb (owned_by id) (passwordRecoveries d) = true).
        { apply existsb_exists. eauto. }
        congruence.
      * split; reflexivity.
    + intros r Ho. rewrite in_app_iff. split; [|auto].
      intros [Hin | [<- | []]]; [assumption|].
      unfold owned_by in Ho. simpl in Ho. rewrite String.eqb_refl in Ho. discriminate.
Qed.

(** X18. A forgot-password request for a key that no verified account has as
    its e-mail or username (no such account, or an unconfirmed one) is
    answered 401 [USER_NOT_FOUND]; nothing is stored and no mail is sent. *)
Theorem forgotPassword_unknown_account (V : Validation) (env : Env) (body : PasswordBody)
    (d : Db) (address : string) :
  forgotPasswordSchema V body = Success address ->
  (forall u, In u (users d) -> email u = address \/ username u = address ->
             verified u = false) ->
  forgotPassword V env body (start d)
  = (HttpError UNAUTHORIZED (Msg USER_NOT_FOUND),
     {| db := d; cookies := []; trace := [Store FindUserByEmailOrUsername address] |}).
Proof.
  intros Hp Hall. unfold forgotPassword. rewrite Hp.
  unfold findUserByEmailOrUsername. run. simpl.
  now rewrite (findFirst_verified_none address (users d) Hall).
Qed.

Lemma forgotPassword_unknown_account_witness :
  forgotPassword Demo.validation (Demo.env 5 true)
    {| pb_email := Some "ana@x.com"; pb_oldPassword := None;
       pb_newPassword := None; pb_confirmNewPassword := None |}
    (start (Demo.with_ana false))
  = (HttpError UNAUTHORIZED (Msg USER_NOT_FOUND),
     {| db := Demo.with_ana false; cookies := [];
        trace := [Store FindUserByEmailOrUsername "ana@x.com"] |}).
Proof.
  apply (forgotPassword_unknown_account Demo.validation (Demo.env 5 true)
           {| pb_email := Some "ana@x.com"; pb_oldPassword := None;
              pb_newPassword := None; pb_confirmNewPassword := None |}
           (Demo.with_ana false) "ana@x.com").
  - reflexivity.
  - intros u [<- | []] _. reflexivity.
Defined.

(** X19. [forgotPassword] stores before it mails: once the account is found,
    the user owns a recovery row, every recovery row of the user carries the
    new token and the new expiry (an earlier link of that user is replaced),
    and the rows of other users are as before, whether or not the mail goes
    out; when it does not, the reply is an error carrying the mailer's
    message. *)
Theorem forgotPassword_stores_before_it_mails (V : Validation) (env : Env)
    (body : PasswordBody) (d : Db) (address : string) (u : User) :
  forgotPasswordSchema V body = Success address ->
  find (matches_key address) (users d) = Some u ->
  let after := passwordRecoveries (db (snd (forgotPassword V env body (start d)))) in
  (exists r, In r after /\ owned_by (userId u) r = true)
  /\ (forall r, In r after -> owned_by (userId u) r = true ->
                pr_token r = Some (randomToken env)
                /\ expiry r = Some (generateExpirationTime (now env) 15))
  /\ (forall r, owned_by (userId u) r = false -> In r after <-> In r (passwordRecoveries d))
  /\ (mailer env (reset_link env u) = None ->
      fst (forgotPassword V env body (start d))
      = HttpResponse OK (Text "Forgot password") (JObj []))
  /\ (forall e, mailer env (reset_link env u) = Some e ->
                fst (forgotPassword V env body (start d))
                = HttpError default_status (Text e)).
Proof.
  intros Hp Hf after.
  assert (Hafter : after = passwordRecoveries
                             (saved_reset (userId u) (randomToken env)
                                (generateExpirationTime (now env) 15) d)).
  { unfold after. rewrite (forgotPassword_found V env body d address u Hp Hf).
    simpl. destruct (mailer env _); reflexivity. }
  rewrite Hafter.
  destruct (saved_reset_rows (userId u) (randomToken env)
              (generateExpirationTime (now env) 15) d) as (H1 & H2 & H3).
  split; [exact H1|]. split; [exact H2|]. split; [exact H3|].
  rewrite (forgotPassword_found V env body d address u Hp Hf). simpl. split.
  - intros ->. reflexivity.
  - intros e ->. reflexivity.
Qed.

Lemma forgotPassword_stores_before_it_mails_witness :
  exists r,
    In r (passwordRecoveries
            (db (snd (forgotPassword Demo.validation (Demo.env 5 false)
                        {| pb_email := Some "ana@x.com"; pb_oldPassword := None;
                           pb_newPassword := None; pb_confirmNewPassword := None |}
                        (start (Demo.with_ana true))))))
    /\ owned_by "u1" r = true.
Proof.
  refine (proj1 (forgotPassword_stores_before_it_mails Demo.validation (Demo.env 5 false)
                   {| pb_email := Some "ana@x.com"; pb_oldPassword := None;
                      pb_newPassword := None; pb_confirmNewPassword := None |}
                   (Demo.with_ana true) "ana@x.com" (Demo.ana true) _ _)); reflexivity.
Defined.

(** ** Resetting a password *)

Lemma existsb_of_find {A} (p : A -> bool) (l : list A) (x : A) :
  find p l = Some x -> existsb p l = true.
Proof.
  intros Hf. apply find_some in Hf as [Hin Hp]. apply existsb_exists. eauto.
Qed.

Lemma resetPassword_accepted (q : Quicker) (V : Validation) (env : Env) (token : string)
    (body : PasswordBody) (d : Db) (data : ResetPasswordType) (rec : PasswordRecovery)
    (u : User) (e : Z) :
  resetPasswordSchema V body = Success data ->
  find (has_reset_token token) (passwordRecoveries d) = Some rec ->
  find (has_id (pr_userId rec)) (users d) = Some u ->
  verified u = true ->
  expiry_of (userId u) (passwordRecoveries d) = Some (Some e) ->
  diff_minutes (now env) e < 15 ->
  comparePassword q (newPassword data) (password u) = false ->
  resetPassword q V env token body (start d)
  = let d' := reset_done (userId u) (hashPassword q (salt env) (newPassword data)) d in
    let seen := [Store FindUserByResetToken token; Store FindUserById (userId u);
                 Store GetExpiryTime (userId u); Store GetPasswordbyUserId (userId u);
                 Store UpdateUserPasswordbyId (userId u);
                 Store ClearResetTokenAndExpiry (userId u)] in
    match mailer env (password_changed_mail u) with
    | None =>
        (HttpResponse OK (Text "Password reset successfully") (JObj []),
         {| db := d'; cookies := [];
            trace := seen ++ [Email (password_changed_mail u) true] |})
    | Some err =>
        (HttpError default_status (Text err),
         {| db := d'; cookies := [];
            trace := seen ++ [Email (password_changed_mail u) false] |})
    end.
Proof.
  intros Hp Hrec Hu Hv He Ht Hc.
  pose proof (find_has_id_sound _ _ _ Hu) as [Hin Hid].
  pose proof (existsb_of_find _ _ _ Hu) as Hex.
  assert (Hown : existsb (owned_by (pr_userId rec)) (passwordRecoveries d) = true).
  { apply find_some in Hrec as [Hr _]. apply existsb_exists. exists rec.
    split; [assumption|]. unfold owned_by. apply String.eqb_refl. }
  unfold resetPassword. rewrite Hp.
  unfold findUserByResetToken, findUserById, getExpiryTime. run. simpl.
  rewrite Hrec. simpl. rewrite Hu. simpl.
  unfold verified in Hv. destruct (accountConfirmation u) as [c|]; [|discriminate].
  rewrite Hv. simpl. rewrite He. rewrite Hid.
  apply Z.leb_gt in Ht. rewrite Ht.
  unfold getPasswordbyUserId. run. simpl. rewrite Hu. simpl. rewrite Hc.
  unfold updateUserPasswordbyId, clearResetTokenAndExpiry. run. simpl.
  rewrite Hex. simpl. rewrite Hown. simpl.
  unfold password_changed_mail, reset_done.
  destruct (mailer env _); reflexivity.
Qed.

(** A reset that replies with success has found a row for its token and has
    cleared the rows of the owner of that row. *)
Lemma resetPassword_success_inv (q : Quicker) (V : Validation) (env : Env) (token : string)
    (body : PasswordBody) (d : Db) :
  is_success (fst (resetPassword q V env token body (start d))) = true ->
  exists rec,
    find (has_reset_token token) (passwordRecoveries d) = Some rec
    /\ passwordRecoveries (db (snd (resetPassword q V env token body (start d))))
       = update_recovery (pr_userId rec) (with_reset None None) (passwordRecoveries d).
Proof.
  unfold resetPassword, findUserByResetToken, findUserById, getExpiryTime,
    getPasswordbyUserId, updateUserPasswordbyId, clearResetTokenAndExpiry. run.
  walk; intros Hok; try discriminate Hok.
  eexists. split; [reflexivity|].
  match goal with
  | H : option_map (select_by_id d) (find (has_id ?id) (users d)) = Some _ |- _ =>
      destruct (find (has_id id) (users d)) as [u'|] eqn:Hu; [|discriminate H];
      injection H as <-
  end.
  apply find_has_id_sound in Hu as [_ Hid]. simpl. now rewrite Hid.
Qed.

Lemma find_token_cleared (token : string) (l : list PasswordRecovery)
    (rec : PasswordRecovery) :
  (forall r1 r2, In r1 l -> In r2 l ->
                 has_reset_token token r1 = true -> has_reset_token token r2 = true ->
                 pr_userId r1 = pr_userId r2) ->
  find (has_reset_token token) l = Some rec ->
  find (has_reset_token token) (update_recovery (pr_userId rec) (with_reset None None) l)
  = None.
Proof.
  intros Hone Hf. apply find_some in Hf as [Hin Hrec].
  apply find_none_of_all. intros x Hx.
  unfold update_recovery in Hx. apply in_map_iff in Hx as (y & <- & Hy).
  destruct (owned_by (pr_userId rec) y) eqn:Ho; [reflexivity|].
  destruct (has_reset_token token y) eqn:Ht; [|reflexivity].
  unfold owned_by in Ho. rewrite (Hone y rec Hy Hin Ht Hrec), String.eqb_refl in Ho.
  discriminate.
Qed.

(** X20. A reset link works once: after a reset that replied with success,
    a second reset with the same token, whatever its body and time, is
    answered 401 [TOKEN_EXPIRED] after the token lookup alone, and writes
    nothing.  (The token is held by the rows of one user, as it is when
    tokens are not reused.) *)
Theorem reset_token_is_single_use (q : Quicker) (V : Validation) (env env' : Env)
    (token : string) (body body' : PasswordBody) (data' : ResetPasswordType) (d : Db) :
  token_of_one_user token d ->
  is_success (fst (resetPassword q V env token body (start d))) = true ->
  resetPasswordSchema V body' = Success data' ->
  resetPassword q V env' token body'
    (start (db (snd (resetPassword q V env token body (start d)))))
  = (HttpError UNAUTHORIZED (Msg TOKEN_EXPIRED),
     {| db := db (snd (resetPassword q V env token body (start d)));
        cookies := []; trace := [Store FindUserByResetToken token] |}).
Proof.
  intros Hone Hok Hp'.
  destruct (resetPassword_success_inv q V env token body d Hok) as (rec & Hrec & Hl).
  remember (db (snd (resetPassword q V env token body (start d)))) as d1 eqn:Hd1.
  assert (Hnone : find (has_reset_token token) (passwordRecoveries d1) = None).
  { rewrite Hl. now apply find_token_cleared. }
  unfold resetPassword. rewrite Hp'. unfold findUserByResetToken. run. simpl.
  now rewrite Hnone.
Qed.

Lemma reset_token_is_single_use_witness :
  fst (resetPassword Demo.quicker Demo.validation (Demo.env 9 true) "reset-1"
         (Demo.new_password "Third12345")
         (start (db (snd (resetPassword Demo.quicker Demo.validation (Demo.env 5 true)
                            "reset-1" (Demo.new_password "Other1234")
                            (start (Demo.recovering 0)))))))
  = HttpError UNAUTHORIZED (Msg TOKEN_EXPIRED).
Proof.
  rewrite (reset_token_is_single_use Demo.quicker Demo.validation (Demo.env 5 true)
             (Demo.env 9 true) "reset-1" (Demo.new_password "Other1234")
             (Demo.new_password "Third12345")
             {| newPassword := "Third12345"; confirmNewPassword := "Third12345" |}
             (Demo.recovering 0)).
  - reflexivity.
  - intros r1 r2 [<- | []] [<- | []] _ _. reflexivity.
  - reflexivity.
  - reflexivity.
Defined.

Lemma find_token_saved (id token : string) (date : Z) (d : Db) :
  (forall r, In r (passwordRecoveries d) -> has_reset_token token r = false) ->
  exists rec,
    find (has_reset_token token) (passwordRecoveries (saved_reset id token date d)) = Some rec
    /\ pr_userId rec = id.
Proof.
  intros Hfresh.
  destruct (saved_reset_rows id token date d) as ((r & Hr & Ho) & Hall & Hothers).
  destruct (find (has_reset_token token) (passwordRecoveries (saved_reset id token date d)))
    as [rec|] eqn:Hf.
  - exists rec. split; [reflexivity|].
    apply find_some in Hf as [Hin Ht].
    destruct (owned_by id rec) eqn:Hrec; [now apply String.eqb_eq in Hrec|].
    apply (Hothers rec Hrec) in Hin. rewrite (Hfresh rec Hin) in Ht. discriminate.
  - pose proof (find_none _ _ Hf r Hr) as Hno.
    destruct (Hall r Hr Ho) as [Htok _].
    unfold has_reset_token in Hno. rewrite Htok, String.eqb_refl in Hno. discriminate.
Qed.

Lemma find_has_id_updated (id : string) (f : User -> User) (l : list User) (u : User) :
  (forall x, userId (f x) = userId x) ->
  find (has_id id) l = Some u ->
  find (has_id id) (update_user id f l) = Some (f u).
Proof.
  intros Hf Hu. unfold update_user. rewrite find_map_preserved.
  - rewrite Hu. simpl. apply find_some in Hu as [_ ->]. reflexivity.
  - intros x. destruct (has_id id x) eqn:Hx; [|exact Hx].
    unfold has_id in *. now rewrite Hf.
Qed.

(** X21. Asking for a link and using it fit together: after a
    forgot-password request for a verified account (on a store whose user ids
    are distinct and where the new token is held by no row yet), a reset with
    the mailed token that comes before the time check fails, with a password
    the current hash does not accept, stores the hash of the new password on
    that account, clears the token, and replies 200 when its mail goes out. *)
Theorem forgot_then_reset (q : Quicker) (V : Validation) (env1 env2 : Env)
    (body1 body2 : PasswordBody) (d : Db) (address : string) (u : User)
    (data : ResetPasswordType) :
  List.NoDup (map userId (users d)) ->
  forgotPasswordSchema V body1 = Success address ->
  find (matches_key address) (users d) = Some u ->
  (forall r, In r (passwordRecoveries d) -> has_reset_token (randomToken env1) r = false) ->
  resetPasswordSchema V body2 = Success data ->
  diff_minutes (now env2) (generateExpirationTime (now env1) 15) < 15 ->
  comparePassword q (newPassword data) (password u) = false ->
  let d1 := db (snd (forgotPassword V env1 body1 (start d))) in
  let out := resetPassword q V env2 (randomToken env1) body2 (start d1) in
  let hash := hashPassword q (salt env2) (newPassword data) in
  db (snd out) = reset_done (userId u) hash d1
  /\ find (has_id (userId u)) (users (db (snd out))) = Some (with_password hash u)
  /\ find (has_reset_token (randomToken env1)) (passwordRecoveries (db (snd out))) = None
  /\ (mailer env2 (password_changed_mail u) = None ->
      fst out = HttpResponse OK (Text "Password reset successfully") (JObj [])).
Proof.
  intros Hnd Hp1 Hf Hfresh Hp2 Ht Hc d1 out hash.
  pose proof Hf as Hm. apply find_some in Hm as [Hin Hm].
  unfold matches_key in Hm. apply andb_prop in Hm as [_ Hv].
  pose proof (find_has_id_unique _ _ Hnd Hin) as Hu.
  assert (Hd1 : d1 = saved_reset (userId u) (randomToken env1)
                       (generateExpirationTime (now env1) 15) d).
  { unfold d1. rewrite (forgotPassword_found V env1 body1 d address u Hp1 Hf).
    simpl. destruct (mailer env1 _); reflexivity. }
  destruct (find_token_saved (userId u) (randomToken env1)
              (generateExpirationTime (now env1) 15) d Hfresh) as (rec & Hrec & Hown).
  rewrite <- Hd1 in Hrec.
  assert (Hu1 : find (has_id (pr_userId rec)) (users d1) = Some u).
  { rewrite Hown, Hd1. exact Hu. }
  assert (He : expiry_of (userId u) (passwordRecoveries d1)
               = Some (Some (generateExpirationTime (now env1) 15))).
  { unfold d1. exact (forgotPassword_sets_expiry V env1 body1 d address u Hp1 Hf). }
  assert (Hout : out = resetPassword q V env2 (randomToken env1) body2 (start d1))
    by reflexivity.
  rewrite (resetPassword_accepted q V env2 (randomToken env1) body2 d1 data rec u _
             Hp2 Hrec Hu1 Hv He Ht Hc) in Hout.
  fold hash in Hout. simpl in Hout.
  assert (Hdb : db (snd out) = reset_done (userId u) hash d1).
  { rewrite Hout. destruct (mailer env2 _); reflexivity. }
  split; [exact Hdb|]. rewrite Hdb. split; [|split].
  - simpl. apply find_has_id_updated; [reflexivity|]. rewrite Hd1. exact Hu.
  - simpl. rewrite <- Hown. apply find_token_cleared; [|exact Hrec].
    intros r1 r2 H1 H2 T1 T2.
    assert (Howner : forall r, In r (passwordRecoveries d1) ->
                               has_reset_token (randomToken env1) r = true ->
                               pr_userId r = userId u).
    { intros r Hr Tr. destruct (owned_by (userId u) r) eqn:Ho.
      - now apply String.eqb_eq in Ho.
      - rewrite Hd1 in Hr.
        apply (proj2 (proj2 (saved_reset_rows (userId u) (randomToken env1)
                               (generateExpirationTime (now env1) 15) d)) r Ho) in Hr.
        rewrite (Hfresh r Hr) in Tr. discriminate. }
    now rewrite (Howner r1 H1 T1), (Howner r2 H2 T2).
  - intros Hmail. rewrite Hout, Hmail. reflexivity.
Qed.

Lemma forgot_then_reset_witness :
  let d1 := db (snd (forgotPassword Demo.validation (Demo.env 5 true)
                       {| pb_email := Some "ana@x.com"; pb_oldPassword := None;
                          pb_newPassword := None; pb_confirmNewPassword := None |}
                       (start (Demo.with_ana true)))) in
  find (has_id "u1")
    (users (db (snd (resetPassword Demo.quicker Demo.validation (Demo.env 9 true) "tok-1"
                       (Demo.new_password "Other1234") (start d1)))))
  = Some (with_password "$na$Other1234" (Demo.ana true)).
Proof.
  intros d1.
  refine (proj1 (proj2 (forgot_then_reset Demo.quicker Demo.validation (Demo.env 5 true)
                          (Demo.env 9 true)
                          {| pb_email := Some "ana@x.com"; pb_oldPassword := None;
                             pb_newPassword := None; pb_confirmNewPassword := None |}
                          (Demo.new_password "Other1234") (Demo.with_ana true)
                          "ana@x.com" (Demo.ana true)
                          {| newPassword := "Other1234"; confirmNewPassword := "Other1234" |}
                          _ _ _ _ _ _ _))).
  - simpl. repeat constructor. intros [].
  - reflexivity.
  - reflexivity.
  - intros r [].
  - reflexivity.
  - reflexivity.
  - reflexivity.
Defined.

(** ** Changing a password *)

Section ChangePassword.

Variable q : Quicker.
Variable V : Validation.
Variable env : Env.
Variable au : AuthenticatedUser.
Variable body : PasswordBody.
Variable data : ChangePasswordType.
Variable d : Db.
Variable u : User.

Hypothesis Hparsed : changePasswordSchema V body = Success data.
Hypothesis Hfound : find (has_id (au_userId au)) (users d) = Some u.
Hypothesis Hold : comparePassword q (c_oldPassword data) (password u) = true.
Hypothesis Hnew : comparePassword q (c_confirmNewPassword data) (password u) = false.

Lemma changePassword_accepted :
  existsb (owned_by (au_userId au)) (passwordRecoveries d) = true ->
  changePassword q V env au body (start d)
  = let d' := password_changed env (au_userId au)
                (hashPassword q (salt env) (c_confirmNewPassword data)) d in
    let seen := [Store GetPasswordbyUserId (au_userId au);
                 Store ChangePasswordbyUserId (au_userId au);
                 Store UpdateLastPasswordChange (au_userId au)] in
    let m := PasswordChangeEmail (au_email au) (au_name au) in
    match mailer env m with
    | None =>
        (HttpResponse ACCEPTED (Msg PASSWORD_CHANGED) (JObj []),
         {| db := d'; cookies := []; trace := seen ++ [Email m true] |})
    | Some e =>
        (HttpError default_status (Text e),
         {| db := d'; cookies := []; trace := seen ++ [Email m false] |})
    end.
Proof.
  intros Hrow. pose proof (existsb_of_find _ _ _ Hfound) as Hex.
  unfold changePassword. rewrite Hparsed.
  unfold getPasswordbyUserId. run. simpl. rewrite Hfound. simpl. rewrite Hold, Hnew. simpl.
  unfold changePasswordbyUserId, updateLastPasswordChange. run. simpl.
  rewrite Hex. simpl.
  assert (Hex' : existsb (has_id (au_userId au))
                   (update_user (au_userId au)
                      (with_password (hashPassword q (salt env) (c_confirmNewPassword data)))
                      (users d)) = true).
  { apply (existsb_of_find _ _ (with_password
                                  (hashPassword q (salt env) (c_confirmNewPassword data)) u)).
    now apply find_has_id_updated. }
  rewrite Hex', Hrow. simpl. unfold password_changed.
  destruct (mailer env _); reflexivity.
Qed.

Lemma changePassword_no_row :
  existsb (owned_by (au_userId au)) (passwordRecoveries d) = false ->
  changePassword q V env au body (start d)
  = (HttpError default_status (Text "P2025"),
     {| db := set_users d
                (update_user (au_userId au)
                   (with_password (hashPassword q (salt env) (c_confirmNewPassword data)))
                   (users d));
        cookies := [];
        trace := [Store GetPasswordbyUserId (au_userId au);
                  Store ChangePasswordbyUserId (au_userId au);
                  Store UpdateLastPasswordChange (au_userId au)] |}).
Proof.
  intros Hrow. pose proof (existsb_of_find _ _ _ Hfound) as Hex.
  unfold changePassword. rewrite Hparsed.
  unfold getPasswordbyUserId. run. simpl. rewrite Hfound. simpl. rewrite Hold, Hnew. simpl.
  unfold changePasswordbyUserId, updateLastPasswordChange. run. simpl.
  rewrite Hex. simpl. rewrite Hrow, andb_false_r. reflexivity.
Qed.

End ChangePassword.

Lemma map_pending_link_lastResetAt (id : string) (t : Z) (l : list PasswordRecovery) :
  map pending_link (update_recovery id (with_lastResetAt t) l) = map pending_link l.
Proof.
  unfold update_recovery. rewrite map_map. apply map_ext.
  intros r. destruct (owned_by id r); reflexivity.
Qed.

(** X22. [changePassword] checks before it writes, in this order: an
    authenticated id with no account is answered 501 with the not-found
    message; a wrong old password 403 [INVALID_CREDENTIALS]; a new password
    that the current hash accepts 409 [PASSWORD_SAME].  In each case only the
    stored hash was read and nothing was written or mailed. *)
Theorem changePassword_rejections (q : Quicker) (V : Validation) (env : Env)
    (au : AuthenticatedUser) (body : PasswordBody) (data : ChangePasswordType) (d : Db) :
  changePasswordSchema V body = Success data ->
  let untouched := {| db := d; cookies := [];
                      trace := [Store GetPasswordbyUserId (au_userId au)] |} in
  (find (has_id (au_userId au)) (users d) = None ->
   changePassword q V env au body (start d)
   = (HttpError NOT_IMPLEMENTED (Msg NOT_FOUND_MESSAGE), untouched))
  /\ (forall u,
        find (has_id (au_userId au)) (users d) = Some u ->
        comparePassword q (c_oldPassword data) (password u) = false ->
        changePassword q V env au body (start d)
        = (HttpError FORBIDDEN (Msg INVALID_CREDENTIALS), untouched))
  /\ (forall u,
        find (has_id (au_userId au)) (users d) = Some u ->
        comparePassword q (c_oldPassword data) (password u) = true ->
        comparePassword q (c_confirmNewPassword data) (password u) = true ->
        changePassword q V env au body (start d)
        = (HttpError CONFLICT (Msg PASSWORD_SAME), untouched)).
Proof.
  intros Hp untouched. subst untouched. split; [|split].
  - intros Hf. unfold changePassword. rewrite Hp.
    unfold getPasswordbyUserId. run. simpl. now rewrite Hf.
  - intros u Hf Hold. unfold changePassword. rewrite Hp.
    unfold getPasswordbyUserId. run. simpl. rewrite Hf. simpl. now rewrite Hold.
  - intros u Hf Hold Hsame. unfold changePassword. rewrite Hp.
    unfold getPasswordbyUserId. run. simpl. rewrite Hf. simpl. now rewrite Hold, Hsame.
Qed.

Lemma changePassword_rejections_witness :
  changePassword Demo.quicker Demo.validation (Demo.env 5 true) Demo.ana_identity
    {| pb_email := None; pb_oldPassword := Some "not-the-password";
       pb_newPassword := Some "Other1234"; pb_confirmNewPassword := Some "Other1234" |}
    (start (Demo.with_ana true))
  = (HttpError FORBIDDEN (Msg INVALID_CREDENTIALS),
     {| db := Demo.with_ana true; cookies := [];
        trace := [Store GetPasswordbyUserId "u1"] |}).
Proof.
  refine (proj1 (proj2 (changePassword_rejections Demo.quicker Demo.validation
                          (Demo.env 5 true) Demo.ana_identity
                          {| pb_email := None; pb_oldPassword := Some "not-the-password";
                             pb_newPassword := Some "Other1234";
                             pb_confirmNewPassword := Some "Other1234" |}
                          {| c_oldPassword := "not-the-password";
                             c_newPassword := "Other1234";
                             c_confirmNewPassword := "Other1234" |}
                          (Demo.with_ana true) _))
            (Demo.ana true) _ _); reflexivity.
Defined.

(** X23. An accepted change of password (old password right, new one not
    accepted by the current hash, the user owning a recovery row) stores the
    hash of the [confirmNewPassword] field on the account and stamps the
    recovery rows of the user with the time; the token and the expiry of
    every recovery row stay as they were, so a pending reset link is not
    withdrawn.  When the mail goes out the reply is 202 [PASSWORD_CHANGED]. *)
Theorem changePassword_stores_the_confirmed_password (q : Quicker) (V : Validation)
    (env : Env) (au : AuthenticatedUser) (body : PasswordBody)
    (data : ChangePasswordType) (d : Db) (u : User) :
  changePasswordSchema V body = Success data ->
  find (has_id (au_userId au)) (users d) = Some u ->
  comparePassword q (c_oldPassword data) (password u) = true ->
  comparePassword q (c_confirmNewPassword data) (password u) = false ->
  existsb (owned_by (au_userId au)) (passwordRecoveries d) = true ->
  let out := changePassword q V env au body (start d) in
  let hash := hashPassword q (salt env) (c_confirmNewPassword data) in
  db (snd out) = password_changed env (au_userId au) hash d
  /\ find (has_id (au_userId au)) (users (db (snd out))) = Some (with_password hash u)
  /\ map pending_link (passwordRecoveries (db (snd out)))
     = map pending_link (passwordRecoveries d)
  /\ (mailer env (PasswordChangeEmail (au_email au) (au_name au)) = None ->
      fst out = HttpResponse ACCEPTED (Msg PASSWORD_CHANGED) (JObj [])).
Proof.
  intros Hp Hf Hold Hnew Hrow out hash.
  assert (Hout : out = changePassword q V env au body (start d)) by reflexivity.
  rewrite (changePassword_accepted q V env au body data d u Hp Hf Hold Hnew Hrow) in Hout.
  fold hash in Hout. simpl in Hout.
  assert (Hdb : db (snd out) = password_changed env (au_userId au) hash d).
  { rewrite Hout. destruct (mailer env _); reflexivity. }
  split; [exact Hdb|]. rewrite Hdb. split; [|split].
  - simpl. now apply find_has_id_updated.
  - simpl. apply map_pending_link_lastResetAt.
  - intros Hmail. rewrite Hout, Hmail. reflexivity.
Qed.

Lemma changePassword_stores_the_confirmed_password_witness :
  find (has_id "u1")
    (users (db (snd (changePassword Demo.quicker Demo.validation (Demo.env 5 true)
                       Demo.ana_identity
                       {| pb_email := None; pb_oldPassword := Some "Secret123!";
                          pb_newPassword := Some "Other1234";
                          pb_confirmNewPassword := Some "Other1234" |}
                       (start (Demo.recovering 0))))))
  = Some (with_password "$na$Other1234" (Demo.ana true)).
Proof.
  refine (proj1 (proj2 (changePassword_stores_the_confirmed_password Demo.quicker
                          Demo.validation (Demo.env 5 true) Demo.ana_identity
                          {| pb_email := None; pb_oldPassword := Some "Secret123!";
                             pb_newPassword := Some "Other1234";
                             pb_confirmNewPassword := Some "Other1234" |}
                          {| c_oldPassword := "Secret123!"; c_newPassword := "Other1234";
                             c_confirmNewPassword := "Other1234" |}
                          (Demo.recovering 0) (Demo.ana true) _ _ _ _ _))); reflexivity.
Defined.

(** X24. A user who never asked for a reset link owns no recovery row; for
    such a user an otherwise acceptable change of password stores the new
    hash and then fails in [updateLastPasswordChange]: the reply is an error,
    no mail is sent, and the password has changed all the same. *)
Theorem changePassword_without_recovery_row (q : Quicker) (V : Validation) (env : Env)
    (au : AuthenticatedUser) (body : PasswordBody) (data : ChangePasswordType)
    (d : Db) (u : User) :
  changePasswordSchema V body = Success data ->
  find (has_id (au_userId au)) (users d) = Some u ->
  comparePassword q (c_oldPassword data) (password u) = true ->
  comparePassword q (c_confirmNewPassword data) (password u) = false ->
  existsb (owned_by (au_userId au)) (passwordRecoveries d) = false ->
  let out := changePassword q V env au body (start d) in
  let hash := hashPassword q (salt env) (c_confirmNewPassword data) in
  is_success (fst out) = false
  /\ find (has_id (au_userId au)) (users (db (snd out))) = Some (with_password hash u)
  /\ passwordRecoveries (db (snd out)) = passwordRecoveries d
  /\ trace (snd out) = [Store GetPasswordbyUserId (au_userId au);
                        Store ChangePasswordbyUserId (au_userId au);
                        Store UpdateLastPasswordChange (au_userId au)].
Proof.
  intros Hp Hf Hold Hnew Hrow out hash. unfold out.
  rewrite (changePassword_no_row q V env au body data d u Hp Hf Hold Hnew Hrow). simpl.
  split; [reflexivity|]. split; [|split; reflexivity].
  now apply find_has_id_updated.
Qed.

Lemma changePassword_without_recovery_row_witness :
  is_success
    (fst (changePassword Demo.quicker Demo.validation (Demo.env 5 true) Demo.ana_identity
            {| pb_email := None; pb_oldPassword := Some "Secret123!";
               pb_newPassword := Some "Other1234";
               pb_confirmNewPassword := Some "Other1234" |}
            (start (Demo.with_ana true))))
  = false.
Proof.
  refine (proj1 (changePassword_without_recovery_row Demo.quicker Demo.validation
                   (Demo.env 5 true) Demo.ana_identity
                   {| pb_email := None; pb_oldPassword := Some "Secret123!";
                      pb_newPassword := Some "Other1234";
                      pb_confirmNewPassword := Some "Other1234" |}
                   {| c_oldPassword := "Secret123!"; c_newPassword := "Other1234";
                      c_confirmNewPassword := "Other1234" |}
                   (Demo.with_ana true) (Demo.ana true) _ _ _ _ _)); reflexivity.
Defined.

(** ** Bodies the schemas reject *)

Lemma error_message_nonempty (issues : list string) : error_message issues <> "".
Proof.
  unfold error_message.
  destruct (String.eqb_spec (String.concat ", " issues) ""); [discriminate | assumption].
Qed.

(** X25. Validation comes first: a request whose body its schema rejects is
    answered 400 with the issues joined by ", " (or "Invalid inputs" when
    that is empty, so the message is never empty), before the store is read,
    a token looked up, a cookie set or a mail sent. *)
Theorem malformed_body_is_refused_first (q : Quicker) (cfg : Config) (V : Validation)
    (env : Env) (req : Request) (d : Db) (issues : list string) :
  body_issues V req = Some issues ->
  handle q cfg V env req (start d)
  = (HttpError BAD_REQUEST (Text (error_message issues)), start d)
  /\ error_message issues <> "".
Proof.
  intros Hb. split; [|apply error_message_nonempty].
  destruct req; simpl in Hb; try discriminate Hb.
  - destruct (registerUserSchema V body) eqn:Hp; [discriminate|]. injection Hb as ->.
    simpl. unfold register. now rewrite Hp.
  - destruct (loginUserSchema V body) eqn:Hp; [discriminate|]. injection Hb as ->.
    simpl. unfold login. now rewrite Hp.
  - destruct (forgotPasswordSchema V body) eqn:Hp; [discriminate|]. injection Hb as ->.
    simpl. unfold forgotPassword. now rewrite Hp.
  - destruct (resetPasswordSchema V body) eqn:Hp; [discriminate|]. injection Hb as ->.
    simpl. unfold resetPassword. now rewrite Hp.
  - destruct (changePasswordSchema V body) eqn:Hp; [discriminate|]. injection Hb as ->.
    simpl. unfold changePassword. now rewrite Hp.
Qed.

Lemma malformed_body_is_refused_first_witness :
  handle Demo.quicker Demo.config Demo.validation (Demo.env 5 true)
    (Login {| lb_email := None; lb_password := Some "short" |}) (start (Demo.with_ana true))
  = (HttpError BAD_REQUEST (Text "Required, Password is too short"),
     start (Demo.with_ana true)).
Proof.
  refine (proj1 (malformed_body_is_refused_first Demo.quicker Demo.config Demo.validation
                   (Demo.env 5 true)
                   (Login {| lb_email := None; lb_password := Some "short" |})
                   (Demo.with_ana true) ["Required"; "Password is too short"] _)).
  reflexivity.
Defined.

(** ** The recipients of the blog mails *)

Lemma getUserEmails_spec (d : Db) (e : string) :
  In e (getUserEmails d) <-> exists u, In u (users d) /\ verified u = true /\ email u = e.
Proof.
  unfold getUserEmails. rewrite in_map_iff. split.
  - intros (u & He & Hin). apply filter_In in Hin as [Hin Hv]. eauto.
  - intros (u & Hin & Hv & He). exists u. split; [assumption|]. now apply filter_In.
Qed.

(** X26. [getUserEmails] lists the addresses of the verified accounts, and
    the auth controller only ever adds to that list: an address on it before
    a request is on it afterwards, whatever the request; an account just
    registered is not on it through that registration; and a confirmation
    that replies with success puts the address of the account it confirmed
    on it. *)
Theorem recipients_follow_verification (q : Quicker) (cfg : Config) (V : Validation)
    (env : Env) (d : Db) :
  (forall req e,
     In e (getUserEmails d) ->
     In e (getUserEmails (db (snd (handle q cfg V env req (start d))))))
  /\ (forall body e,
        In e (getUserEmails (db (snd (register q V env body (start d))))) ->
        In e (getUserEmails d))
  /\ (forall token code,
        is_success (fst (confirmation env token code (start d))) = true ->
        exists u,
          find (matches_token_code token code) (users d) = Some u
          /\ In (email u) (getUserEmails (db (snd (confirmation env token code (start d)))))).
Proof.
  split; [|split].
  - intros req e He. apply getUserEmails_spec in He as (u & Hin & Hv & He).
    destruct (Writes_verified _ _ (handle_writes q cfg V env req d) u Hin Hv)
      as (u' & Hin' & Hid & Hv').
    apply getUserEmails_spec. exists u'. split; [assumption | split; [assumption|]].
    unfold identity in Hid. congruence.
  - intros body e He.
    destruct (register_runs q V env body d _ _ (surjective_pairing _))
      as [(Hdb & _) | (data & pre & _ & _ & Hdb & _)].
    + now rewrite Hdb in He.
    + rewrite Hdb in He. apply getUserEmails_spec in He as (u & Hin & Hv & He).
      simpl in Hin. apply in_app_or in Hin as [Hin | [<- | []]].
      * apply getUserEmails_spec. eauto.
      * discriminate Hv.
  - intros token code Hok.
    destruct (confirmation_success_inv env token code d _ _ (surjective_pairing _) Hok)
      as (u & Hf & _ & Hdb).
    exists u. split; [assumption|]. rewrite Hdb.
    pose proof Hf as Hm. apply find_some in Hm as [Hin Hm].
    apply getUserEmails_spec. exists (confirm_now (now env) u). split; [|split].
    + simpl. unfold update_user. apply in_map_iff. exists u. split; [|assumption].
      unfold has_id. now rewrite String.eqb_refl.
    + now apply (verified_confirm_now token code).
    + pose proof (identity_confirm_now (now env) u) as Hid.
      unfold identity in Hid. congruence.
Qed.

Lemma recipients_follow_verification_witness :
  In "ana@x.com"
    (getUserEmails
       (db (snd (handle Demo.quicker Demo.config Demo.validation (Demo.env 5 true)
                   (ResetPassword "reset-1" (Demo.new_password "Other1234"))
                   (start (Demo.recovering 0)))))).
Proof.
  apply (proj1 (recipients_follow_verification Demo.quicker Demo.config Demo.validation
                  (Demo.env 5 true) (Demo.recovering 0))).
  left. reflexivity.
Defined.

(** ** Tokens and reply bodies *)

Section TokenPayloads.

Variable q : Quicker.
Variable cfg : Config.
Variable V : Validation.
Variable env : Env.











End TokenPayloads.


